(** * mtpy.processing.pile: piles, sub-piles, trace files and the metadata cache

    A shallow embedding of [src/mtpy/processing/pile.py] (Python 2) and the
    properties of it that the specification states.

    Conventions of the embedding:
    - a Python method that mutates [self] is a computation [Py.M self A]:
      a state transformer that either returns or raises, and that keeps the
      mutations performed before a raise;
    - Python floats (times, sample intervals) are exact rationals [Q]: the
      rounding of IEEE doubles is not modelled;
    - Python ints are [Z];
    - [None] is [option]'s [None]; Python 2 orders [None] below every number;
    - the collaborators that are imported but not part of this file
      ([trace], [io], [util], [os], [re], [pickle]) are either modelled from
      the specification (and say so) or taken as a record of functions. *)

From Stdlib Require Import ZArith QArith Qabs Qround Lqa Lia Ascii String.
From stdpp Require Import base option list gmap sets strings sorting.

Local Open Scope Z_scope.

(** ** Python's control effects *)

Module Py.

Inductive exn : Type :=
| Exception (msg : string)
| AttributeError
| TypeError
| KeyError
| IOError
| OSError
| UnpicklingError
| ReError
| FileLoadError
| FilenameAttributeError (pattern path : string).

Inductive outcome (A : Type) : Type :=
| Ok (a : A)
| Raise (e : exn).
Global Arguments Ok {A} a.
Global Arguments Raise {A} e.

(** A computation over a mutable state [S]. *)
Definition M (S A : Type) : Type := S → outcome A * S.

Definition ret {S A} (a : A) : M S A := λ s, (Ok a, s).
Definition bind {S A B} (m : M S A) (k : A → M S B) : M S B :=
  λ s, match m s with
       | (Ok a, s') => k a s'
       | (Raise e, s') => (Raise e, s')
       end.
Definition raise {S A} (e : exn) : M S A := λ s, (Raise e, s).
Definition get {S} : M S S := λ s, (Ok s, s).
Definition gets {S A} (f : S → A) : M S A := λ s, (Ok (f s), s).
Definition put {S} (s : S) : M S unit := λ _, (Ok tt, s).
Definition modify {S} (f : S → S) : M S unit := λ s, (Ok tt, f s).

(** [try: m except <handled>: h]. *)
Definition try_except {S A} (m : M S A) (handled : exn → bool)
    (h : exn → M S A) : M S A :=
  λ s, match m s with
       | (Ok a, s') => (Ok a, s')
       | (Raise e, s') => if handled e then h e s' else (Raise e, s')
       end.

(** Run a computation on a component of the state (a method call on an
    attribute or on an object of the store). *)
Definition zoom {S T A} (proj : S → T) (inj : T → S → S) (m : M T A) : M S A :=
  λ s, let '(r, t') := m (proj s) in (r, inj t' s).

(** [for x in l: body x]. *)
Fixpoint for_ {S A} (l : list A) (body : A → M S unit) : M S unit :=
  match l with
  | [] => ret tt
  | x :: l' => bind (body x) (λ _, for_ l' body)
  end.

Definition when {S} (b : bool) (m : M S unit) : M S unit :=
  if b then m else ret tt.

(** Python 2 comparison of a float-or-None with a float-or-None:
    [None] is smaller than any number. *)
Definition lt (a b : option Q) : bool :=
  match a, b with
  | None, None => false
  | None, Some _ => true
  | Some _, None => false
  | Some x, Some y => negb (Qle_bool y x)
  end.
Definition ge (a b : option Q) : bool := negb (lt a b).

(** The builtins [min(a, b)] and [max(a, b)]: the first argument is kept
    unless the second is strictly smaller (resp. larger). *)
Definition min (a b : option Q) : option Q := if lt b a then b else a.
Definition max (a b : option Q) : option Q := if lt a b then b else a.

(** Python 2 comparison of an int-or-None with an int-or-None, and the
    builtin [max(a, b)] on them. *)
Definition ltZ (a b : option Z) : bool :=
  match a, b with
  | None, None => false
  | None, Some _ => true
  | Some _, None => false
  | Some x, Some y => bool_decide (x < y)
  end.
Definition maxZ (a b : option Z) : option Z := if ltZ a b then b else a.

End Py.

Global Instance M_ret {S} : MRet (Py.M S) := λ A, @Py.ret S A.
Global Instance M_bind {S} : MBind (Py.M S) := λ A B k m, Py.bind m k.
Global Instance M_fmap {S} : FMap (Py.M S) :=
  λ A B f m, Py.bind m (λ a, Py.ret (f a)).

(** Float comparisons as booleans. *)
Definition Qltb (a b : Q) : bool := negb (Qle_bool b a).
Definition Qgeb (a b : Q) : bool := Qle_bool b a.
Definition Qmin (a b : Q) : Q := if Qltb b a then b else a.

(** ** Traces (collaborator type) *)

Module Trace.

Record t : Type := mk {
  network : string;
  station : string;
  location : string;
  channel : string;
  tmin : Q;
  tmax : Q;
  deltat : Q;
  ydata : option (list Q);
  wmin : option Q;
  wmax : option Q
}.

Definition nslc_id (tr : t) : string * string * string * string :=
  (network tr, station tr, location tr, channel tr).

Definition set_ydata (y : option (list Q)) (tr : t) : t :=
  mk (network tr) (station tr) (location tr) (channel tr)
     (tmin tr) (tmax tr) (deltat tr) y (wmin tr) (wmax tr).

Definition set_window (lo hi : Q) (tr : t) : t :=
  mk (network tr) (station tr) (location tr) (channel tr)
     (tmin tr) (tmax tr) (deltat tr) (ydata tr) (Some lo) (Some hi).

(** Modelled from the spec: [trace.Trace.drop_data] is not in this file;
    the specification describes it as "explicit buffer release". *)
Definition drop_data (tr : t) : t := set_ydata None tr.

(** Modelled from the spec: [trace.Trace.extend] is not in this file; the
    specification describes it as the in-place time extension "to the
    exact window edge".  Only the time extent is modelled, the filled
    samples are the collaborator's business. *)
Definition extend (new_tmin new_tmax : Q) (tr : t) : t :=
  mk (network tr) (station tr) (location tr) (channel tr)
     new_tmin new_tmax (deltat tr) (ydata tr) (wmin tr) (wmax tr).

End Trace.

(** ** TracesGroup: the base class of Pile, SubPile and TracesFile *)

Module TracesGroup.

(** An identity lookup attribute is either a [set] or, after
    [_convert_small_sets_to_tuples], a [tuple]. *)
Section coll.
Context {A : Type} `{Countable A}.

Inductive coll : Type :=
| AsSet (s : gset A)
| AsTuple (l : list A).

Definition to_set (c : coll) : gset A :=
  match c with
  | AsSet s => s
  | AsTuple l => list_to_set l
  end.

Definition len (c : coll) : nat :=
  match c with
  | AsSet s => size s
  | AsTuple l => length l
  end.

(** [self.xs.update(other)]: only a [set] has this method. *)
Definition set_update (self other : coll) : Py.outcome coll :=
  match self with
  | AsSet s => Py.Ok (AsSet (s ∪ to_set other))
  | AsTuple _ => Py.Raise Py.AttributeError
  end.

(** [self.xs.add(x)]. *)
Definition set_add (self : coll) (x : A) : Py.outcome coll :=
  match self with
  | AsSet s => Py.Ok (AsSet (s ∪ {[x]}))
  | AsTuple _ => Py.Raise Py.AttributeError
  end.

(** [if not isinstance(xs, set): xs = set(xs)]. *)
Definition as_set (c : coll) : coll := AsSet (to_set c).

(** [if len(xs) < 32: xs = reuse(tuple(xs))]; the answer says whether
    the conversion took place. *)
Definition small_to_tuple (c : coll) : coll * bool :=
  if decide (len c < 32)%nat
  then (match c with
        | AsSet s => AsTuple (elements s)
        | AsTuple l => AsTuple l
        end, true)
  else (c, false).
End coll.
Global Arguments coll A {_ _}.

Definition nslc : Type := string * string * string * string.

Record t : Type := mk {
  parent : option positive;
  networks : coll string;
  stations : coll string;
  locations : coll string;
  channels : coll string;
  nslc_ids : coll nslc;
  tmin : option Q;
  tmax : option Q;
  have_tuples : bool;
  nupdates : Z
}.

(** What [update] reads from an element of [content]. *)
Inductive child : Type :=
| Group (g : t)
| ATrace (tr : Trace.t).

Definition child_tmin (c : child) : option Q :=
  match c with
  | Group g => tmin g
  | ATrace tr => Some (Trace.tmin tr)
  end.
Definition child_tmax (c : child) : option Q :=
  match c with
  | Group g => tmax g
  | ATrace tr => Some (Trace.tmax tr)
  end.

Definition set_parent (p : option positive) : Py.M t unit :=
  Py.modify (λ g, mk p (networks g) (stations g) (locations g) (channels g)
                     (nslc_ids g) (tmin g) (tmax g) (have_tuples g) (nupdates g)).

Definition set_span (lo hi : option Q) (g : t) : t :=
  mk (parent g) (networks g) (stations g) (locations g) (channels g)
     (nslc_ids g) lo hi (have_tuples g) (nupdates g).

Definition set_ids (n s l c : coll string) (i : coll nslc) (ht : bool) (g : t) : t :=
  mk (parent g) n s l c i (tmin g) (tmax g) ht (nupdates g).

(** [TracesGroup.__init__]. *)
Definition init (p : option positive) : t :=
  mk p (AsSet ∅) (AsSet ∅) (AsSet ∅) (AsSet ∅) (AsSet ∅) None None false 0.

Definition empty : Py.M t unit :=
  Py.modify (λ g, mk (parent g) (AsSet ∅) (AsSet ∅) (AsSet ∅) (AsSet ∅) (AsSet ∅)
                     None None false (nupdates g)).

Definition _convert_tuples_to_sets : Py.M t unit :=
  Py.modify (λ g, set_ids (as_set (networks g)) (as_set (stations g))
                          (as_set (locations g)) (as_set (channels g))
                          (as_set (nslc_ids g)) false g).

Definition _convert_small_sets_to_tuples : Py.M t unit :=
  Py.modify (λ g,
    let '(n, bn) := small_to_tuple (networks g) in
    let '(s, bs) := small_to_tuple (stations g) in
    let '(l, bl) := small_to_tuple (locations g) in
    let '(c, bc) := small_to_tuple (channels g) in
    let '(i, bi) := small_to_tuple (nslc_ids g) in
    set_ids n s l c i (have_tuples g || bn || bs || bl || bc || bi) g).

Definition lift {A} (r : Py.outcome A) : Py.M t A :=
  match r with
  | Py.Ok a => Py.ret a
  | Py.Raise e => Py.raise e
  end.

(** The five [update]/[add] calls on the lookup sets, one attribute after
    the other, each assigned before the next is tried. *)
Definition absorb_ids (c : child) : Py.M t unit :=
  match c with
  | Group g =>
      s ← Py.get ; n ← lift (set_update (networks s) (networks g)) ;
      Py.modify (λ s, set_ids n (stations s) (locations s) (channels s) (nslc_ids s) (have_tuples s) s) ;;
      s ← Py.get ; x ← lift (set_update (stations s) (stations g)) ;
      Py.modify (λ s, set_ids (networks s) x (locations s) (channels s) (nslc_ids s) (have_tuples s) s) ;;
      s ← Py.get ; x ← lift (set_update (locations s) (locations g)) ;
      Py.modify (λ s, set_ids (networks s) (stations s) x (channels s) (nslc_ids s) (have_tuples s) s) ;;
      s ← Py.get ; x ← lift (set_update (channels s) (channels g)) ;
      Py.modify (λ s, set_ids (networks s) (stations s) (locations s) x (nslc_ids s) (have_tuples s) s) ;;
      s ← Py.get ; x ← lift (set_update (nslc_ids s) (nslc_ids g)) ;
      Py.modify (λ s, set_ids (networks s) (stations s) (locations s) (channels s) x (have_tuples s) s)
  | ATrace tr =>
      s ← Py.get ; n ← lift (set_add (networks s) (Trace.network tr)) ;
      Py.modify (λ s, set_ids n (stations s) (locations s) (channels s) (nslc_ids s) (have_tuples s) s) ;;
      s ← Py.get ; x ← lift (set_add (stations s) (Trace.station tr)) ;
      Py.modify (λ s, set_ids (networks s) x (locations s) (channels s) (nslc_ids s) (have_tuples s) s) ;;
      s ← Py.get ; x ← lift (set_add (locations s) (Trace.location tr)) ;
      Py.modify (λ s, set_ids (networks s) (stations s) x (channels s) (nslc_ids s) (have_tuples s) s) ;;
      s ← Py.get ; x ← lift (set_add (channels s) (Trace.channel tr)) ;
      Py.modify (λ s, set_ids (networks s) (stations s) (locations s) x (nslc_ids s) (have_tuples s) s) ;;
      s ← Py.get ; x ← lift (set_add (nslc_ids s) (Trace.nslc_id tr)) ;
      Py.modify (λ s, set_ids (networks s) (stations s) (locations s) (channels s) x (have_tuples s) s)
  end.

(** The span part of the loop body of [update]. *)
Definition absorb_span (c : child) : Py.M t unit :=
  Py.modify (λ s,
    let lo := match tmin s with
              | None => child_tmin c
              | Some _ => Py.min (tmin s) (child_tmin c)
              end in
    let hi := match tmax s with
              | None => child_tmax c
              | Some _ => Py.max (tmax s) (child_tmax c)
              end in
    set_span lo hi s).

Definition update (content : list child) (empty_first : bool) : Py.M t unit :=
  (if empty_first then empty
   else (s ← Py.get ; Py.when (have_tuples s) _convert_tuples_to_sets)) ;;
  Py.for_ content (λ c, absorb_ids c ;; absorb_span c) ;;
  Py.when empty_first _convert_small_sets_to_tuples ;;
  Py.modify (λ g, mk (parent g) (networks g) (stations g) (locations g) (channels g)
                     (nslc_ids g) (tmin g) (tmax g) (have_tuples g) (nupdates g + 1)).

(** What a child contributes to each lookup set of its parent. *)
Definition child_networks (c : child) : gset string :=
  match c with Group g => to_set (networks g) | ATrace tr => {[ Trace.network tr ]} end.
Definition child_stations (c : child) : gset string :=
  match c with Group g => to_set (stations g) | ATrace tr => {[ Trace.station tr ]} end.
Definition child_locations (c : child) : gset string :=
  match c with Group g => to_set (locations g) | ATrace tr => {[ Trace.location tr ]} end.
Definition child_channels (c : child) : gset string :=
  match c with Group g => to_set (channels g) | ATrace tr => {[ Trace.channel tr ]} end.
Definition child_nslc_ids (c : child) : gset nslc :=
  match c with Group g => to_set (nslc_ids g) | ATrace tr => {[ Trace.nslc_id tr ]} end.

(** The span the loop of [update] arrives at, from [acc]. *)
Definition span_lo (acc : option Q) (content : list child) : option Q :=
  foldl (λ acc c, match acc with
                  | None => child_tmin c
                  | Some _ => Py.min acc (child_tmin c)
                  end) acc content.
Definition span_hi (acc : option Q) (content : list child) : option Q :=
  foldl (λ acc c, match acc with
                  | None => child_tmax c
                  | Some _ => Py.max acc (child_tmax c)
                  end) acc content.

(** [is_relevant]: inclusive overlap of the spans and the optional
    selector.  [tmin] and [tmax] are the query's, floats. *)
Definition is_relevant (qmin qmax : Q) (group_selector : option (t → bool))
    (self : t) : bool :=
  Py.ge (Some qmax) (tmin self) && Py.ge (tmax self) (Some qmin)
  && match group_selector with
     | None => true
     | Some sel => sel self
     end.

Definition get_parent (self : t) : option positive := parent self.

(** [overlaps]: inclusive overlap of the spans. *)
Definition overlaps (qmin qmax : Q) (self : t) : bool :=
  Py.ge (Some qmax) (tmin self) && Py.ge (tmax self) (Some qmin).

(** The state of the lookup attributes that the methods keep: they are
    sets unless [have_tuples] says that some have been made tuples. *)
Definition is_set {A} `{Countable A} (c : coll A) : Prop :=
  match c with
  | AsSet _ => True
  | AsTuple _ => False
  end.
Definition sets_unless_flagged (g : t) : Prop :=
  have_tuples g = false →
  is_set (networks g) ∧ is_set (stations g) ∧ is_set (locations g)
  ∧ is_set (channels g) ∧ is_set (nslc_ids g).

End TracesGroup.

(** ** TracesFile *)

Module TracesFile.

Abbreviation substitutions_t := (gmap string (option string)).

Record t : Type := mk {
  base : TracesGroup.t;
  abspath : string;
  format : string;
  traces : list Trace.t;
  data_loaded : bool;
  data_use_count : Z;
  substitutions : option substitutions_t;
  mtime : option Z
}.

Definition set_base (g : TracesGroup.t) (f : t) : t :=
  mk g (abspath f) (format f) (traces f) (data_loaded f) (data_use_count f)
     (substitutions f) (mtime f).
Definition set_traces (trs : list Trace.t) (f : t) : t :=
  mk (base f) (abspath f) (format f) trs (data_loaded f) (data_use_count f)
     (substitutions f) (mtime f).
Definition set_data_loaded (b : bool) (f : t) : t :=
  mk (base f) (abspath f) (format f) (traces f) b (data_use_count f)
     (substitutions f) (mtime f).
Definition set_data_use_count (n : Z) (f : t) : t :=
  mk (base f) (abspath f) (format f) (traces f) (data_loaded f) n
     (substitutions f) (mtime f).
Definition set_mtime (m : option Z) (f : t) : t :=
  mk (base f) (abspath f) (format f) (traces f) (data_loaded f) (data_use_count f)
     (substitutions f) m.

(** A method of the base class called on the file. *)
Definition super {A} (m : Py.M TracesGroup.t A) : Py.M t A :=
  Py.zoom base set_base m.

Definition use_data : Py.M t unit :=
  self ← Py.get ;
  (if negb (data_loaded self) then Py.raise (Py.Exception "Data not loaded")
   else Py.ret tt) ;;
  Py.modify (λ self, set_data_use_count (data_use_count self + 1) self).

Definition drop_data : Py.M t unit :=
  self ← Py.get ;
  if data_loaded self then
    (if decide (data_use_count self = 1) then
       Py.modify (λ self, set_traces (Trace.drop_data <$> traces self) self) ;;
       Py.modify (set_data_loaded false)
     else Py.ret tt) ;;
    Py.modify (λ self, set_data_use_count (data_use_count self - 1) self)
  else
    Py.modify (set_data_use_count 0).

End TracesFile.

(** ** The operating system and the other collaborators *)

Module OS.

(** A path names a regular file, with its modification time and bytes, or
    a directory.  The directory tree itself is not modelled: creating a
    file never fails for want of a parent directory. *)
Inductive node : Type :=
| File (mtime : Z) (bytes : string)
| Dir (mtime : Z).

Abbreviation fs := (gmap string node).

Definition isfile (p : string) (d : fs) : bool :=
  match d !! p with
  | Some (File _ _) => true
  | _ => false
  end.

Definition isdir (p : string) (d : fs) : bool :=
  match d !! p with
  | Some (Dir _) => true
  | _ => false
  end.

Definition exists_ (p : string) (d : fs) : bool :=
  match d !! p with
  | Some _ => true
  | None => false
  end.

(** [os.stat(p)[8]]. *)
Definition stat_mtime (p : string) : Py.M fs Z :=
  d ← Py.get;
  match d !! p with
  | Some (File m _) | Some (Dir m) => mret m
  | None => Py.raise Py.OSError
  end.

(** [os.remove(p)]. *)
Definition remove (p : string) : Py.M fs unit :=
  d ← Py.get;
  match d !! p with
  | Some (File _ _) => Py.put (delete p d)
  | _ => Py.raise Py.OSError
  end.

(** [f = open(p, 'r'); ...f.read()...; f.close()]. *)
Definition read (p : string) : Py.M fs string :=
  d ← Py.get;
  match d !! p with
  | Some (File _ b) => mret b
  | _ => Py.raise Py.IOError
  end.

(** [f = open(p, 'w'); f.write(b); f.close()] at time [now]. *)
Definition write (now : Z) (p : string) (b : string) : Py.M fs unit :=
  d ← Py.get;
  match d !! p with
  | Some (Dir _) => Py.raise Py.IOError
  | _ => Py.put (<[p := File now b]> d)
  end.

(** [os.rename(src, dst)] of a regular file. *)
Definition rename (src dst : string) : Py.M fs unit :=
  d ← Py.get;
  match d !! src, d !! dst with
  | Some (File m b), Some (Dir _) => Py.raise Py.OSError
  | Some (File m b), _ => Py.put (<[dst := File m b]> (delete src d))
  | _, _ => Py.raise Py.OSError
  end.

End OS.

Module Log.
(** What reaches the logger ['pyrocko.pile']: [logger.debug(msg)],
    [logger.warn(msg)] with a message text, and [logger.warn(xerror)] with
    the exception that was caught. *)
Inductive entry : Type :=
| Debug (msg : string)
| Warn (msg : string)
| WarnExn (e : Py.exn).

Definition is_debug (e : entry) : Prop := ∃ msg, e = Debug msg.
End Log.

Record world : Type := mkWorld {
  fs : OS.fs;
  log : list Log.entry
}.

Definition set_fs (d : OS.fs) (w : world) : world := mkWorld d (log w).

Definition logger (e : Log.entry) : Py.M world unit :=
  Py.modify (λ w, mkWorld (fs w) (log w ++ [e])).

(** A call into [os] from a computation on the world. *)
Definition os {A} (m : Py.M OS.fs A) : Py.M world A := Py.zoom fs set_fs m.

(** The functions of other modules that [pile.py] calls and that are not
    modelled otherwise. *)
Record externals : Type := mkExternals {
  (** the builtin [hash] on strings *)
  hash : string → Z;
  os_path_dirname : string → string;
  os_path_abspath : string → string;
  pjoin : string → string → string;
  (** ["%i" % n] *)
  format_int : Z → string;
  os_getpid : Z;
  (** the time stamp a file written now gets *)
  time_now : Z;
  (** [pickle.dump] and [pickle.load] of a shard, on the file's bytes *)
  pickle_dumps : gmap string TracesFile.t → string;
  pickle_loads : string → option (gmap string TracesFile.t);
  (** whether [re.compile(pattern)] accepts the pattern *)
  re_compile : string → bool;
  (** [regex.search(filename)]: [None], or the match's [groupdict()] *)
  re_search : string → string → option (gmap string (option string));
  (** [io.load(abspath, format, getdata, substitutions)]: the traces
      yielded, and the exception that ended the iteration if one did *)
  io_load : OS.fs → string → string → bool → option TracesFile.substitutions_t →
            list Trace.t * option Py.exn;
  (** [util.plural_s] *)
  plural_s : nat → string;
  (** [tr.chop(tmin, tmax, inplace=False, snap=snap)]; [None] is [NoData] *)
  trace_chop : Q → Q → Trace.t → option Trace.t;
  (** [trace.degapper] *)
  degapper : list Trace.t → list Trace.t
}.

(** ** TracesFile: the methods that touch the disk *)

Module TracesFileIO.
Import TracesFile.

Section with_externals.
Context (X : externals).

Definition self_ {A} (m : Py.M TracesFile.t A) : Py.M (TracesFile.t * world) A :=
  Py.zoom fst (λ f s, (f, s.2)) m.
Definition world_ {A} (m : Py.M world A) : Py.M (TracesFile.t * world) A :=
  Py.zoom snd (λ w s, (s.1, w)) m.

(** The loop [self.traces = []; for tr in io.load(...): self.traces.append(tr)]. *)
Definition read_traces (getdata : bool) : Py.M (TracesFile.t * world) unit :=
  self ← self_ Py.get;
  w ← world_ Py.get;
  let '(trs, err) := io_load X (fs w) (abspath self) (format self) getdata
                       (substitutions self) in
  self_ (Py.modify (set_traces trs));;
  match err with
  | Some e => Py.raise e
  | None => mret tt
  end.

Definition load_headers (mtime : option Z) : Py.M (TracesFile.t * world) unit :=
  self ← self_ Py.get;
  world_ (logger (Log.Debug ("loading headers from file: " +:+ abspath self)));;
  match mtime with
  | None =>
      m ← world_ (os (OS.stat_mtime (abspath self)));
      self_ (Py.modify (set_mtime (Some m)))
  | Some _ => mret tt
  end;;
  read_traces false;;
  self_ (Py.modify (set_data_loaded false));;
  self_ (Py.modify (set_data_use_count 0)).

Definition load_data (force : bool) : Py.M (TracesFile.t * world) unit :=
  self ← self_ Py.get;
  if negb (data_loaded self) || force then
    world_ (logger (Log.Debug ("loading data from file: " +:+ abspath self)));;
    read_traces true;;
    self_ (Py.modify (set_data_loaded true))
  else mret tt.

(** [TracesFile(parent, abspath, format, substitutions, mtime)]: the new
    object, unless the constructor raises. *)
Definition init (parent : option positive) (path fmt : string)
    (subst : option substitutions_t) (mt : option Z) : Py.M world TracesFile.t :=
  λ w,
    let self := mk (TracesGroup.init parent) path fmt [] false 0 subst None in
    let body : Py.M (TracesFile.t * world) unit :=
      load_headers mt;;
      self ← self_ Py.get;
      self_ (super (TracesGroup.update (TracesGroup.ATrace <$> traces self) true));;
      self_ (Py.modify (set_mtime mt)) in
    match body (self, w) with
    | (Py.Ok _, (self', w')) => (Py.Ok self', w')
    | (Py.Raise e, (_, w')) => (Py.Raise e, w')
    end.

(** [reload_if_modified]: whether the file was read again. *)
Definition reload_if_modified : Py.M (TracesFile.t * world) bool :=
  self ← self_ Py.get;
  mtime ← world_ (os (OS.stat_mtime (abspath self)));
  if bool_decide (Some mtime ≠ TracesFile.mtime self) then
    world_ (logger (Log.Debug ("mtime=" +:+ format_int X mtime +:+ ", reloading file: "
                                 +:+ abspath self)));;
    self_ (Py.modify (set_mtime (Some mtime)));;
    (if data_loaded self then load_data true else load_headers None);;
    self ← self_ Py.get;
    self_ (super (TracesGroup.update (TracesGroup.ATrace <$> traces self) true));;
    mret true
  else mret false.

End with_externals.
End TracesFileIO.

(** ** TracesFileCache *)

Module TracesFileCache.

Abbreviation shard := (gmap string TracesFile.t).

Record t : Type := mk {
  cachedir : string;
  dircaches : gmap string shard;
  modified : gset string
}.

Definition set_dircaches (d : gmap string shard) (c : t) : t :=
  mk (cachedir c) d (modified c).
Definition set_modified (m : gset string) (c : t) : t :=
  mk (cachedir c) (dircaches c) m.

Section with_externals.
Context (X : externals).

Definition self_ {A} (m : Py.M t A) : Py.M (t * OS.fs) A :=
  Py.zoom fst (λ c s, (c, s.2)) m.
Definition os_ {A} (m : Py.M OS.fs A) : Py.M (t * OS.fs) A :=
  Py.zoom snd (λ d s, (s.1, d)) m.

Definition _dircachepath (self : t) (abspath : string) : string :=
  pjoin X (cachedir self)
    (format_int X (Z.abs (hash X (os_path_dirname X abspath)))).

(** [copy.copy(tfile)] with [parent] set to [None]. *)
Definition without_parent (f : TracesFile.t) : TracesFile.t :=
  let g := TracesFile.base f in
  TracesFile.set_base
    (TracesGroup.mk None (TracesGroup.networks g) (TracesGroup.stations g)
       (TracesGroup.locations g) (TracesGroup.channels g) (TracesGroup.nslc_ids g)
       (TracesGroup.tmin g) (TracesGroup.tmax g) (TracesGroup.have_tuples g)
       (TracesGroup.nupdates g)) f.

Definition _load_dircache (cachefilename : string) : Py.M OS.fs shard :=
  bytes ← OS.read cachefilename;
  cache ← match pickle_loads X bytes with
          | Some c => mret c
          | None => Py.raise Py.UnpicklingError
          end;
  (* weed out files which no longer exist *)
  d ← Py.get;
  mret (filter (λ kv, OS.isfile kv.1 d = true) cache).

Definition _dump_dircache (cache : shard) (cachefilename : string) : Py.M OS.fs unit :=
  if decide (cache = ∅) then
    d ← Py.get;
    Py.when (OS.exists_ cachefilename d) (OS.remove cachefilename)
  else
    (* make a copy without the parents *)
    let cache_copy := without_parent <$> cache in
    let tmpfn := cachefilename +:+ "." +:+ format_int X (os_getpid X) +:+ ".tmp" in
    OS.write (time_now X) tmpfn (pickle_dumps X cache_copy);;
    OS.rename tmpfn cachefilename.

Definition _get_dircache (cachepath : string) : Py.M (t * OS.fs) shard :=
  self ← self_ Py.get;
  match dircaches self !! cachepath with
  | Some dc => mret dc
  | None =>
      d ← os_ Py.get;
      dc ← (if OS.isfile cachepath d then os_ (_load_dircache cachepath)
            else mret ∅);
      self_ (Py.modify (λ self, set_dircaches (<[cachepath := dc]> (dircaches self)) self));;
      mret dc
  end.

(** The cache once the shard [dc] has been remembered for [cachepath]. *)
Definition memoized (cachepath : string) (dc : shard) (self : t) : t :=
  set_dircaches (<[cachepath := dc]> (dircaches self)) self.

Definition _get_dircache_for (abspath : string) : Py.M (t * OS.fs) shard :=
  self ← self_ Py.get;
  _get_dircache (_dircachepath self abspath).

Definition get (abspath : string) : Py.M (t * OS.fs) (option TracesFile.t) :=
  dircache ← _get_dircache_for abspath;
  mret (dircache !! abspath).

Definition put (abspath : string) (tfile : TracesFile.t) : Py.M (t * OS.fs) unit :=
  self ← self_ Py.get;
  let cachepath := _dircachepath self abspath in
  dircache ← _get_dircache cachepath;
  self_ (Py.modify (λ self,
    set_dircaches (<[cachepath := <[abspath := tfile]> dircache]> (dircaches self)) self));;
  self_ (Py.modify (λ self, set_modified (modified self ∪ {[cachepath]}) self)).

Definition dump_modified : Py.M (t * OS.fs) unit :=
  self ← self_ Py.get;
  Py.for_ (elements (modified self)) (λ cachepath,
    self ← self_ Py.get;
    match dircaches self !! cachepath with
    | Some dc => os_ (_dump_dircache dc cachepath)
    | None => Py.raise Py.KeyError
    end);;
  self_ (Py.modify (set_modified ∅)).

End with_externals.
End TracesFileCache.

(** ** The loader *)

Module Loader.

(** What the generator [loader] works on: the cache object it was given
    ([None] if none), the world, and the files it has yielded so far. *)
Record state : Type := mkState {
  cache : option TracesFileCache.t;
  w : world;
  yielded : list TracesFile.t
}.

Definition world_ {A} (m : Py.M world A) : Py.M state A :=
  Py.zoom w (λ w' s, mkState (cache s) w' (yielded s)) m.

(** [if cache: <m on cache>], with [dflt] the value when there is no cache. *)
Definition with_cache {A} (dflt : A) (m : Py.M (TracesFileCache.t * OS.fs) A) :
    Py.M state A :=
  λ s, match cache s with
       | None => (Py.Ok dflt, s)
       | Some c =>
           let '(r, (c', d')) := m (c, fs (w s)) in
           (r, mkState (Some c') (set_fs d' (w s)) (yielded s))
       end.

Definition yield (tfile : TracesFile.t) : Py.M state unit :=
  Py.modify (λ s, mkState (cache s) (w s) (yielded s ++ [tfile])).

(** The exceptions of the [except] clause. *)
Definition handled (e : Py.exn) : bool :=
  match e with
  | Py.FileLoadError | Py.OSError | Py.FilenameAttributeError _ _ => true
  | _ => false
  end.

(** Truth value of [substitutions]: [None] and the empty dict are false. *)
Definition truthy (s : option TracesFile.substitutions_t) : bool :=
  match s with
  | Some d => bool_decide (d ≠ ∅)
  | None => false
  end.

Definition attribute_keys : list string :=
  ["network"; "station"; "location"; "channel"].

Definition newline : string := String (Ascii.ascii_of_nat 10) EmptyString.

Section with_externals.
Context (X : externals).

Definition batch_message (failures : list string) : string :=
  "The following file" +:+ plural_s X (length failures)
    +:+ " caused problems and will be ignored:" +:+ newline
    +:+ String.concat newline failures.

(** The body of the [try] for one file name. *)
Definition load_one (fileformat : string) (filename_attributes : option string)
    (regex : option string) (filename : string) : Py.M state TracesFile.t :=
  let abspath := os_path_abspath X filename in
  substitutions ←
    match regex with
    | Some rx =>
        match re_search X rx filename with
        | None => Py.raise (Py.FilenameAttributeError
                              (default EmptyString filename_attributes) filename)
        | Some groupdict =>
            mret (Some (filter (λ kv, kv.1 ∈ attribute_keys) groupdict))
        end
    | None => mret None
    end;
  mtime ← world_ (os (OS.stat_mtime filename));
  tfile ← with_cache None (TracesFileCache.get X abspath);
  match tfile with
  | Some cached =>
      if bool_decide (TracesFile.mtime cached ≠ Some mtime) || truthy substitutions then
        tfile ← world_ (TracesFileIO.init X None abspath fileformat substitutions (Some mtime));
        (if negb (truthy substitutions)
         then with_cache tt (TracesFileCache.put X abspath tfile)
         else mret tt);;
        mret tfile
      else mret cached
  | None =>
      tfile ← world_ (TracesFileIO.init X None abspath fileformat substitutions (Some mtime));
      (if negb (truthy substitutions)
       then with_cache tt (TracesFileCache.put X abspath tfile)
       else mret tt);;
      mret tfile
  end.

(** The [for] loop; [failures] is the list built up so far, the result
    is the list at the end of the loop. *)
Fixpoint scan (fileformat : string) (filename_attributes : option string)
    (regex : option string) (filenames : list string) (failures : list string) :
    Py.M state (list string) :=
  match filenames with
  | [] => mret failures
  | filename :: rest =>
      r ← Py.try_except
             (Some <$> load_one fileformat filename_attributes regex filename)
             handled
             (λ xerror, world_ (logger (Log.WarnExn xerror));; mret None);
      match r with
      | Some tfile =>
          yield tfile;;
          scan fileformat filename_attributes regex rest failures
      | None =>
          scan fileformat filename_attributes regex rest
               (failures ++ [os_path_abspath X filename])
      end
  end.

(** *** The scan, told as a sequence of attempts

    [attempts files s results s']: starting in [s], each file of [files]
    in turn either loads, and is yielded, or raises one of the handled
    exceptions, which is logged; [results] pairs each file name with the
    file yielded for it, if any, and [s'] is the state after the last
    attempt. *)
Definition after_yield (tfile : TracesFile.t) (s : state) : state :=
  mkState (cache s) (w s) (yielded s ++ [tfile]).




(** What "the cache is as it was" means for the cache handed to the loader:
    the same shards are marked as modified, every shard that was in memory
    is unchanged, and every lookup gives what it gave. *)
Definition cache_unchanged (d : OS.fs)
    (before after : option TracesFileCache.t) : Prop :=
  match before, after with
  | None, None => True
  | Some c, Some c' =>
      TracesFileCache.modified c' = TracesFileCache.modified c
      ∧ TracesFileCache.cachedir c' = TracesFileCache.cachedir c
      ∧ (∀ cp sh, TracesFileCache.dircaches c !! cp = Some sh →
                   TracesFileCache.dircaches c' !! cp = Some sh)
      ∧ (∀ q, (TracesFileCache.get X q (c', d)).1 = (TracesFileCache.get X q (c, d)).1)
  | _, _ => False
  end.

(** The substitutions that the loop body arrives at for [filename] are
    false: there is no pattern, or the match names none of the four
    identity attributes. *)
Definition no_substitutions (regex : option string) (filename : string)
    (substitutions : option TracesFile.substitutions_t) : Prop :=
  (regex = None ∧ substitutions = None)
  ∨ (∃ rx groupdict, regex = Some rx ∧ re_search X rx filename = Some groupdict
       ∧ substitutions = Some (filter (λ kv : string * option string,
                                         kv.1 ∈ attribute_keys) groupdict)
       ∧ filter (λ kv : string * option string, kv.1 ∈ attribute_keys) groupdict = ∅).

(** [loader], run until the generator is exhausted.  The progress bar is
    display only and is left out. *)
Definition loader (filenames : list string) (fileformat : string)
    (filename_attributes : option string) : Py.M state unit :=
  if decide (filenames = []) then
    world_ (logger (Log.Warn "No files to load from"))
  else
    regex ← match filename_attributes with
            | None => mret None
            | Some pattern =>
                if decide (pattern = EmptyString) then mret None
                else if re_compile X pattern then mret (Some pattern)
                else Py.raise Py.ReError
            end;
    failures ← scan fileformat filename_attributes regex filenames [];
    (if decide (failures = []) then mret tt
     else world_ (logger (Log.Warn (batch_message failures))));;
    with_cache tt (TracesFileCache.dump_modified X).

End with_externals.
End Loader.

(** ** SubPile and Pile *)

Module SubPile.
(** [files] holds references to the file objects, which live in the
    pile's store. *)
Record t : Type := mk {
  base : TracesGroup.t;
  files : list positive
}.
End SubPile.

Module Pile.

Definition selector (A : Type) : Type := option (A → bool).

(** [not sel or sel(x)] and [sel is None or sel(x)]. *)
Definition accepts {A} (sel : selector A) (x : A) : bool :=
  match sel with
  | None => true
  | Some f => f x
  end.

Record t : Type := mk {
  base : TracesGroup.t;
  (** the dict [subpiles], in the order of [subpiles.values()] *)
  subpiles : list ((Z * Z) * SubPile.t);
  (** [open_files]: accessor id to the set of files it holds open *)
  open_files : gmap (option string) (gset positive);
  (** the [TracesFile] objects that [SubPile.files] and [open_files]
      refer to *)
  store : gmap positive TracesFile.t
}.

Definition set_open_files (o : gmap (option string) (gset positive)) (p : t) : t :=
  mk (base p) (subpiles p) o (store p).
Definition set_store (st : gmap positive TracesFile.t) (p : t) : t :=
  mk (base p) (subpiles p) (open_files p) st.

Definition state : Type := t * world.

Definition self_ {A} (m : Py.M t A) : Py.M state A :=
  Py.zoom fst (λ p s, (p, s.2)) m.

(** A method call on the file object [fid]. *)
Definition on_file {A} (fid : positive) (m : Py.M (TracesFile.t * world) A) :
    Py.M state A :=
  λ s, match store s.1 !! fid with
       | Some f =>
           let '(r, (f', w')) := m (f, s.2) in
           (r, (set_store (<[fid := f']> (store s.1)) s.1, w'))
       | None => (Py.Raise (Py.Exception "no such object"), s)
       end.

(** Modelled from the spec: [trace.Trace.full_id] is not in this file; the
    specification orders the collected traces "by 4-part identity, then
    time".  This is [cmp(a.full_id, b.full_id) <= 0]. *)
Definition full_id_le (a b : Trace.t) : bool :=
  match String.compare (Trace.network a) (Trace.network b) with
  | Lt => true | Gt => false | Eq =>
  match String.compare (Trace.station a) (Trace.station b) with
  | Lt => true | Gt => false | Eq =>
  match String.compare (Trace.location a) (Trace.location b) with
  | Lt => true | Gt => false | Eq =>
  match String.compare (Trace.channel a) (Trace.channel b) with
  | Lt => true | Gt => false | Eq => Qle_bool (Trace.tmin a) (Trace.tmin b)
  end end end end.

(** [list.sort(cmp)] is stable: an element goes behind the elements it
    does not precede. *)
Fixpoint insert_sorted (x : Trace.t) (l : list Trace.t) : list Trace.t :=
  match l with
  | [] => [x]
  | y :: l' => if full_id_le y x then y :: insert_sorted x l' else x :: l
  end.
Definition sort (l : list Trace.t) : list Trace.t :=
  foldl (λ acc x, insert_sorted x acc) [] l.


Section with_externals.
Context (X : externals).

(** [TracesFile.chop]. *)
Definition file_chop (tmin tmax : Q) (trace_selector : selector Trace.t)
    (load_data : bool) : Py.M (TracesFile.t * world) (list Trace.t * bool) :=
  self ← TracesFileIO.self_ Py.get;
  let needed := filter (λ tr, accepts trace_selector tr = true) (TracesFile.traces self) in
  if decide (needed = []) then mret ([], false)
  else
    (if load_data then TracesFileIO.load_data X false else mret tt);;
    self ← TracesFileIO.self_ Py.get;
    mret (omap (λ tr, if accepts trace_selector tr then trace_chop X tmin tmax tr
                      else None) (TracesFile.traces self),
          load_data).

(** The loop of [SubPile.chop] over [self.files]. *)
Fixpoint subpile_chop_files (tmin tmax : Q) (group_selector : selector TracesGroup.t)
    (trace_selector : selector Trace.t) (load_data : bool) (files : list positive)
    (chopped : list Trace.t) (used_files : gset positive) :
    Py.M state (list Trace.t * gset positive) :=
  match files with
  | [] => mret (chopped, used_files)
  | file :: rest =>
      relevant ← on_file file
        (TracesFileIO.self_ (Py.gets (λ f,
           TracesGroup.is_relevant tmin tmax group_selector (TracesFile.base f))));
      if (relevant : bool) then
        '(chopped_, used) ← on_file file (file_chop tmin tmax trace_selector load_data);
        subpile_chop_files tmin tmax group_selector trace_selector load_data rest
          (chopped ++ chopped_) (if (used : bool) then used_files ∪ {[file]} else used_files)
      else
        subpile_chop_files tmin tmax group_selector trace_selector load_data rest
          chopped used_files
  end.

Definition subpile_chop (tmin tmax : Q) (group_selector : selector TracesGroup.t)
    (trace_selector : selector Trace.t) (load_data : bool) (sp : SubPile.t) :
    Py.M state (list Trace.t * gset positive) :=
  subpile_chop_files tmin tmax group_selector trace_selector load_data
    (SubPile.files sp) [] ∅.

(** The loop of [Pile.chop] over [self.subpiles.values()]. *)
Fixpoint chop_subpiles (tmin tmax : Q) (group_selector : selector TracesGroup.t)
    (trace_selector : selector Trace.t) (load_data : bool) (sps : list SubPile.t)
    (chopped : list Trace.t) (used_files : gset positive) :
    Py.M state (list Trace.t * gset positive) :=
  match sps with
  | [] => mret (chopped, used_files)
  | subpile :: rest =>
      if TracesGroup.is_relevant tmin tmax group_selector (SubPile.base subpile) then
        '(_chopped, _used_files) ←
           subpile_chop tmin tmax group_selector trace_selector load_data subpile;
        chop_subpiles tmin tmax group_selector trace_selector load_data rest
          (chopped ++ _chopped) (used_files ∪ _used_files)
      else
        chop_subpiles tmin tmax group_selector trace_selector load_data rest
          chopped used_files
  end.

Definition chop (tmin tmax : Q) (group_selector : selector TracesGroup.t)
    (trace_selector : selector Trace.t) (load_data : bool) :
    Py.M state (list Trace.t * gset positive) :=
  self ← self_ Py.get;
  chop_subpiles tmin tmax group_selector trace_selector load_data
    (snd <$> subpiles self) [] ∅.

(** The verdict of the incomplete-window filter on one trace: dropped,
    kept as it is, or extended and kept. *)
Definition weed (degap : bool) (wmax wmin tpad : Q) (tr : Trace.t) : option Trace.t :=
  let emin := (Trace.tmin tr - (wmin - tpad))%Q in
  let emax := (Trace.tmax tr + Trace.deltat tr - (wmax + tpad))%Q in
  if Qle_bool (Qabs emin) ((1 # 2) * Trace.deltat tr)
     && Qle_bool (Qabs emax) ((1 # 2) * Trace.deltat tr)
  then Some tr
  else if degap then
    if (Qltb 0 emin && Qle_bool emin (5 * Trace.deltat tr))
       && (Qle_bool (- 5 * Trace.deltat tr) emax && Qltb emax 0)
    then Some (Trace.extend (wmin - tpad) (wmax + tpad - Trace.deltat tr) tr)
    else None
  else None.

Definition _process_chopped (chopped : list Trace.t) (degap want_incomplete : bool)
    (wmax wmin tpad : Q) : list Trace.t :=
  let chopped := sort chopped in
  let chopped := if degap then degapper X chopped else chopped in
  let chopped := if negb want_incomplete
                 then omap (weed degap wmax wmin tpad) chopped
                 else chopped in
  Trace.set_window wmin wmax <$> chopped.

(** *** The generator [chopper] *)

Record args : Type := mkArgs {
  tmin : option Q;
  tmax : option Q;
  tinc : option Q;
  tpad : Q;
  group_selector : selector TracesGroup.t;
  trace_selector : selector Trace.t;
  want_incomplete : bool;
  degap : bool;
  keep_current_files_open : bool;
  accessor_id : option string;
  load_data : bool
}.

(** Where the generator stands: not started, suspended at the [yield]
    of window [iwin] with its local variables, or finished. *)
Inductive gen : Type :=
| Fresh
| Suspended (tmin tmax tinc : Q) (iwin : Z) (used_files : gset positive)
| Finished.

Definition window (tmin tmax tinc : Q) (iwin : Z) : Q * Q :=
  ((tmin + inject_Z iwin * tinc)%Q,
   Qmin (tmin + inject_Z (iwin + 1) * tinc)%Q tmax).

(** [open_files = self.open_files[accessor_id]]: the set is shared with
    the pile, every change to it is a change of the pile's entry. *)
Definition the_open_files (a : args) (p : t) : gset positive :=
  default ∅ (open_files p !! accessor_id a).
Definition set_the_open_files (a : args) (o : gset positive) : Py.M state unit :=
  self_ (Py.modify (λ p, set_open_files (<[accessor_id a := o]> (open_files p)) p)).

(** [file.use_data()] for the newly opened files and
    [open_files.update(used_files)]. *)
Definition retain_used (a : args) (used_files : gset positive) : Py.M state unit :=
  p ← self_ Py.get;
  Py.for_ (elements (used_files ∖ the_open_files a p))
    (λ file, on_file file (TracesFileIO.self_ TracesFile.use_data));;
  p ← self_ Py.get;
  set_the_open_files a (the_open_files a p ∪ used_files).

(** The body of the loop [while unused_files], for the file popped:
    [file.drop_data(); open_files.remove(file)]. *)
Definition release_one (a : args) (file : positive) : Py.M state unit :=
  on_file file (TracesFileIO.self_ TracesFile.drop_data);;
  p ← self_ Py.get;
  if decide (file ∈ the_open_files a p)
  then set_the_open_files a (the_open_files a p ∖ {[file]})
  else Py.raise Py.KeyError.

(** The statements between the [yield] and the end of the loop body,
    but for [iwin += 1]. *)
Definition release_unused (a : args) (used_files : gset positive) : Py.M state unit :=
  p ← self_ Py.get;
  let unused_files := the_open_files a p ∖ used_files in
  Py.for_ (elements unused_files) (release_one a).

(** The body of the loop [while open_files], for the file popped. *)
Definition close_one (a : args) (file : positive) : Py.M state unit :=
  p ← self_ Py.get;
  set_the_open_files a (the_open_files a p ∖ {[file]});;
  on_file file (TracesFileIO.self_ TracesFile.drop_data).

(** The statements after the loop. *)
Definition finish (a : args) : Py.M state unit :=
  if negb (keep_current_files_open a) then
    p ← self_ Py.get;
    Py.for_ (elements (the_open_files a p)) (close_one a)
  else mret tt.


(** Every reference of the pile is to a file of its store. *)
Definition well_formed (p : t) : Prop :=
  (∀ k sp file, (k, sp) ∈ subpiles p → file ∈ SubPile.files sp → file ∈ dom (store p))
  ∧ (∀ acc open, open_files p !! acc = Some open → open ⊆ dom (store p)).




(** From the head of the [while True] loop to the next [yield], or to
    the end of the generator. *)
Definition window_step (a : args) (tmin tmax tinc : Q) (iwin : Z) :
    Py.M state (option (list Trace.t) * gen) :=
  let '(wmin, wmax) := window tmin tmax tinc iwin in
  let eps := (tinc * (1 # 1000000))%Q in
  if Qgeb wmin (tmax - eps) then
    finish a;;
    mret (None, Finished)
  else
    '(chopped, used_files) ←
       chop (wmin - tpad a) (wmax + tpad a) (group_selector a) (trace_selector a)
            (load_data a);
    retain_used a used_files;;
    let processed := _process_chopped chopped (degap a) (want_incomplete a)
                       wmax wmin (tpad a) in
    mret (Some processed, Suspended tmin tmax tinc iwin used_files).

(** [self.tmin + tpad] and [self.tmax - tpad], a [TypeError] on [None]. *)
Definition default_bound (given : option Q) (own : option Q) (shift : Q) :
    Py.M state Q :=
  match given, own with
  | Some x, _ => mret x
  | None, Some x => mret (x + shift)%Q
  | None, None => Py.raise Py.TypeError
  end.

(** [chopper]: one call of [next] on the generator, from where it stands:
    the window yielded, or [None] for [StopIteration], and where the
    generator stands afterwards. *)
Definition chopper (a : args) (g : gen) : Py.M state (option (list Trace.t) * gen) :=
  match g with
  | Fresh =>
      self ← self_ Py.get;
      tmin ← default_bound (tmin a) (TracesGroup.tmin (base self)) (tpad a);
      tmax ← default_bound (tmax a) (TracesGroup.tmax (base self)) (- tpad a);
      let tinc := default (tmax - tmin)%Q (tinc a) in
      if negb (TracesGroup.is_relevant (tmin - tpad a) (tmax + tpad a)
                 (group_selector a) (base self))
      then mret (None, Finished)
      else
        (if decide (is_Some (open_files self !! accessor_id a)) then mret tt
         else set_the_open_files a ∅);;
        window_step a tmin tmax tinc 0
  | Suspended tmin tmax tinc iwin used_files =>
      release_unused a used_files;;
      window_step a tmin tmax tinc (iwin + 1)
  | Finished => mret (None, Finished)
  end.


(** Drive the generator until it stops, at most [fuel] calls of [next]:
    the windows in the order they were yielded, and where the generator
    stands at the end. *)
Fixpoint drain (fuel : nat) (a : args) (g : gen) :
    Py.M state (list (list Trace.t) * gen) :=
  match fuel with
  | O => mret ([], g)
  | S fuel' =>
      '(y, g') ← chopper a g;
      match y with
      | None => mret ([], g')
      | Some traces =>
          '(ys, g'') ← drain fuel' a g';
          mret (traces :: ys, g'')
      end
  end.

End with_externals.

(** *** Queries on the files of a pile *)

(** The file objects that a sub-pile's list refers to. *)
Definition file_objects (p : t) (sp : SubPile.t) : list TracesFile.t :=
  omap (λ file, store p !! file) (SubPile.files sp).

(** [TracesFile.get_newest_mtime]; the time range is not looked at. *)
Definition file_get_newest_mtime (trace_selector : selector Trace.t)
    (file : TracesFile.t) : option Z :=
  foldl (λ mtime tr, if accepts trace_selector tr
                     then Py.maxZ mtime (TracesFile.mtime file)
                     else mtime) None (TracesFile.traces file).

(** [SubPile.get_newest_mtime], on the sub-pile's file objects. *)
Definition subpile_get_newest_mtime (tmin tmax : Q)
    (group_selector : selector TracesGroup.t) (trace_selector : selector Trace.t)
    (files : list TracesFile.t) : option Z :=
  foldl (λ mtime file,
           if TracesGroup.is_relevant tmin tmax group_selector (TracesFile.base file)
           then Py.maxZ mtime (file_get_newest_mtime trace_selector file)
           else mtime) None files.

Definition get_newest_mtime (tmin tmax : Q)
    (group_selector : selector TracesGroup.t) (trace_selector : selector Trace.t)
    (self : t) : option Z :=
  foldl (λ mtime subpile,
           if TracesGroup.is_relevant tmin tmax group_selector (SubPile.base subpile)
           then Py.maxZ mtime
                  (subpile_get_newest_mtime tmin tmax group_selector trace_selector
                     (file_objects self subpile))
           else mtime) None (subpiles self).*2.

Section gather.
Context {K : Type} `{Countable K}.

(** [TracesFile.gather_keys]. *)
Definition file_gather_keys (gather : Trace.t → K) (sel : selector Trace.t)
    (file : TracesFile.t) : gset K :=
  foldl (λ keys tr, if accepts sel tr then keys ∪ {[ gather tr ]} else keys)
    ∅ (TracesFile.traces file).

(** [SubPile.gather_keys], on the sub-pile's file objects. *)
Definition subpile_gather_keys (gather : Trace.t → K) (sel : selector Trace.t)
    (files : list TracesFile.t) : gset K :=
  foldl (λ keys file, keys ∪ file_gather_keys gather sel file) ∅ files.

(** [Pile.gather_keys]: [sorted(keys)], the keys being ordered by [le]. *)
Definition gather_keys (le : K → K → bool) (gather : Trace.t → K)
    (sel : selector Trace.t) (self : t) : list K :=
  merge_sort (λ a b, Is_true (le a b))
    (elements (foldl (λ keys subpile,
                        keys ∪ subpile_gather_keys gather sel (file_objects self subpile))
                 ∅ (subpiles self).*2)).
End gather.

(** *** What [chop] selects

    The files that [Pile.chop] gets to: the files, relevant themselves, of
    the relevant sub-piles, in the order of the loops. *)
Definition file_is_relevant (tmin tmax : Q) (group_selector : selector TracesGroup.t)
    (p : t) (file : positive) : bool :=
  match store p !! file with
  | Some f => TracesGroup.is_relevant tmin tmax group_selector (TracesFile.base f)
  | None => false
  end.

(** The traces of a file that the selector accepts ([needed] in
    [TracesFile.chop]). *)
Definition needed (trace_selector : selector Trace.t) (f : TracesFile.t) : list Trace.t :=
  filter (λ tr, accepts trace_selector tr = true) (TracesFile.traces f).


Section chop_spec.
Context (X : externals).

(** The file as [TracesFile.chop] leaves it on a disk [d] on which
    [io.load] succeeds: its data is loaded if that was asked for and some
    trace is needed. *)
Definition file_after_chop (d : OS.fs) (trace_selector : selector Trace.t)
    (load_data : bool) (f : TracesFile.t) : TracesFile.t :=
  if decide (needed trace_selector f = []) then f
  else if load_data && negb (TracesFile.data_loaded f)
  then TracesFile.set_data_loaded true
         (TracesFile.set_traces
            (io_load X d (TracesFile.abspath f) (TracesFile.format f) true
               (TracesFile.substitutions f)).1 f)
  else f.




End chop_spec.



(** *** Adding and removing files

    A file is referred to by its place in the store, a sub-pile by the key
    it has in [subpiles].  No listener is registered with the pile, so
    [notify_listeners] has nothing to do. *)

Definition set_subpiles (sps : list ((Z * Z) * SubPile.t)) (p : t) : t :=
  mk (base p) sps (open_files p) (store p).
Definition set_base (g : TracesGroup.t) (p : t) : t :=
  mk g (subpiles p) (open_files p) (store p).

(** A method of the base class called on the pile. *)
Definition super {A} (m : Py.M TracesGroup.t A) : Py.M t A :=
  Py.zoom base set_base m.

(** The reference that a file keeps in [parent] to the sub-pile of key [k],
    and the one a sub-pile keeps to the pile. *)
Definition subpile_ref (k : Z * Z) : positive := encode k.
Definition pile_ref : positive := 1.

Definition stored (file : positive) : Py.M t TracesFile.t :=
  p ← Py.get;
  match store p !! file with
  | Some f => mret f
  | None => Py.raise (Py.Exception "no such object")
  end.

(** A method call on the file object [file] that needs no disk. *)
Definition on_stored {A} (file : positive) (m : Py.M TracesFile.t A) : Py.M t A :=
  λ p, match store p !! file with
       | Some f => let '(r, f') := m f in (r, set_store (<[file := f']> (store p)) p)
       | None => (Py.Raise (Py.Exception "no such object"), p)
       end.

Definition lookup_subpile (k : Z * Z) (p : t) : option SubPile.t :=
  snd <$> (snd <$> list_find (λ e, e.1 = k) (subpiles p)).

(** A method call on the sub-pile [self.subpiles[k]]. *)
Definition on_subpile {A} (k : Z * Z) (m : Py.M SubPile.t A) : Py.M t A :=
  λ p, match list_find (λ e, e.1 = k) (subpiles p) with
       | Some (i, (_, sp)) =>
           let '(r, sp') := m sp in
           (r, set_subpiles (<[i := (k, sp')]> (subpiles p)) p)
       | None => (Py.Raise Py.KeyError, p)
       end.

(** A method of the base class called on the sub-pile of key [k]. *)
Definition subpile_super {A} (k : Z * Z) (m : Py.M TracesGroup.t A) : Py.M t A :=
  on_subpile k (Py.zoom SubPile.base (λ g sp, SubPile.mk g (SubPile.files sp)) m).

(** What [update] reads when it is given file objects, resp. sub-piles. *)
Definition files_as_content (p : t) (sp : SubPile.t) : list TracesGroup.child :=
  (λ f, TracesGroup.Group (TracesFile.base f)) <$> file_objects p sp.
Definition subpiles_as_content (sps : list ((Z * Z) * SubPile.t)) :
    list TracesGroup.child :=
  (λ e, TracesGroup.Group (SubPile.base e.2)) <$> sps.

(** [SubPile.add_file]. *)
Definition subpile_add_file (k : Z * Z) (file : positive) : Py.M t unit :=
  on_subpile k (Py.modify (λ sp, SubPile.mk (SubPile.base sp) (SubPile.files sp ++ [file])));;
  on_stored file (TracesFile.super (TracesGroup.set_parent (Some (subpile_ref k))));;
  f ← stored file;
  subpile_super k (TracesGroup.update [TracesGroup.Group (TracesFile.base f)] false).

(** [l.remove(x)]: the first occurrence goes; [None] is [ValueError]. *)
Fixpoint list_remove (x : positive) (l : list positive) : option (list positive) :=
  match l with
  | [] => None
  | y :: l' => if decide (x = y) then Some l' else (y ::.) <$> list_remove x l'
  end.

(** [SubPile.remove_file]; the [ValueError] of [list.remove] is given by
    its message. *)
Definition subpile_remove_file (k : Z * Z) (file : positive) : Py.M t unit :=
  on_subpile k
    (sp ← Py.get;
     match list_remove file (SubPile.files sp) with
     | Some l => Py.put (SubPile.mk (SubPile.base sp) l)
     | None => Py.raise (Py.Exception "list.remove(x): x not in list")
     end);;
  on_stored file (TracesFile.super (TracesGroup.set_parent None));;
  p ← Py.get;
  match lookup_subpile k p with
  | Some sp => subpile_super k (TracesGroup.update (files_as_content p sp) true)
  | None => Py.raise Py.KeyError
  end.

(** [int(x)] of a float: truncation towards zero. *)
Definition int_of_float (q : Q) : Z := Z.quot (Qnum q) (Z.pos (Qden q)).

(** The file [f] with the sub-pile of key [k] as its parent. *)
Definition adopted (k : Z * Z) (f : TracesFile.t) : TracesFile.t :=
  TracesFile.set_base
    (TracesGroup.set_parent (Some (subpile_ref k)) (TracesFile.base f)).2 f.



(** [Pile.__init__], given the store of file objects that are around. *)
Definition init (objects : gmap positive TracesFile.t) : t :=
  mk (TracesGroup.update [] true (TracesGroup.init None)).2 [] ∅ objects.

Section structure.
(** [time.gmtime(t)[0:2]], the year and the month of a time stamp; and the
    order in which the dict [subpiles] iterates once it has got a new
    entry. *)
Context (gmtime : Z → Z * Z).
Context (arrange : list ((Z * Z) * SubPile.t) → (Z * Z) * SubPile.t →
                   list ((Z * Z) * SubPile.t)).

Definition dispatch_key (file : TracesFile.t) : Py.M t (Z * Z) :=
  match TracesGroup.tmin (TracesFile.base file) with
  | None => Py.raise Py.TypeError
  | Some tmin => mret (gmtime (int_of_float tmin))
  end.


(** [dispatch]: the key of the sub-pile the file belongs to, which is
    created if need be. *)
Definition dispatch (file : TracesFile.t) : Py.M t (Z * Z) :=
  k ← dispatch_key file;
  self ← Py.get;
  (if decide (k ∈ (subpiles self).*1) then mret tt
   else Py.modify (set_subpiles
          (arrange (subpiles self) (k, SubPile.mk (TracesGroup.init (Some pile_ref)) []))));;
  mret k.

Definition add_file (file : positive) : Py.M t unit :=
  f ← stored file;
  subpile ← dispatch f;
  subpile_add_file subpile file;;
  f ← stored file;
  super (TracesGroup.update [TracesGroup.Group (TracesFile.base f)] false).



Definition remove_file (file : positive) : Py.M t unit :=
  f ← stored file;
  match TracesGroup.get_parent (TracesFile.base f) with
  | None => Py.raise Py.AttributeError
  | Some r =>
      match decode r with
      | Some subpile => subpile_remove_file subpile file
      | None => Py.raise (Py.Exception "no such object")
      end
  end;;
  self ← Py.get;
  super (TracesGroup.update (subpiles_as_content (subpiles self)) true).

End structure.

Section more_with_externals.
Context (X : externals).

(** The loop of [SubPile.reload_modified]. *)
Fixpoint subpile_reload_files (files : list positive) (modified : bool) :
    Py.M state bool :=
  match files with
  | [] => mret modified
  | file :: rest =>
      m ← on_file file (TracesFileIO.reload_if_modified X);
      subpile_reload_files rest (modified || m)
  end.

Definition subpile_reload_modified (k : Z * Z) : Py.M state bool :=
  self ← self_ Py.get;
  match lookup_subpile k self with
  | None => Py.raise Py.KeyError
  | Some sp =>
      modified ← subpile_reload_files (SubPile.files sp) false;
      (if (modified : bool) then
         self ← self_ Py.get;
         self_ (subpile_super k (TracesGroup.update (files_as_content self sp) true))
       else mret tt);;
      mret modified
  end.

(** The loop of [Pile.reload_modified]. *)
Fixpoint reload_subpiles (keys : list (Z * Z)) (modified : bool) : Py.M state bool :=
  match keys with
  | [] => mret modified
  | k :: rest =>
      m ← subpile_reload_modified k;
      reload_subpiles rest (modified || m)
  end.

Definition reload_modified : Py.M state bool :=
  self ← self_ Py.get;
  modified ← reload_subpiles (subpiles self).*1 false;
  (if (modified : bool) then
     self ← self_ Py.get;
     self_ (super (TracesGroup.update (subpiles_as_content (subpiles self)) true))
   else mret tt);;
  mret modified.

(** [all]: the traces of all the windows of a chopper, the generator being
    run for at most [fuel] calls of [next]; [None] if it has not stopped by
    then. *)
Definition all (fuel : nat) (a : args) : Py.M state (option (list Trace.t)) :=
  '(windows, g) ← drain X fuel a Fresh;
  mret (match g with
        | Finished => Some (concat windows)
        | _ => None
        end).

End more_with_externals.

End Pile.

(** ** A sample world

    Concrete collaborators and objects, on which the definitions above can
    be run. *)

Module Sample.

Global Instance Q_eq_dec : EqDecision Q.
Proof. solve_decision. Defined.
Global Instance Q_countable : Countable Q :=
  inj_countable' (λ q, (Qnum q, Qden q)) (λ p, Qmake p.1 p.2)
    (λ q, match q with Qmake _ _ => eq_refl end).

Global Instance trace_eq_dec : EqDecision Trace.t.
Proof. solve_decision. Defined.
Global Instance trace_countable : Countable Trace.t :=
  inj_countable'
    (λ tr, (Trace.network tr, Trace.station tr, Trace.location tr, Trace.channel tr,
            Trace.tmin tr, Trace.tmax tr, Trace.deltat tr, Trace.ydata tr,
            Trace.wmin tr, Trace.wmax tr))
    (λ '(a, b, c, d, e, f, g, h, i, j), Trace.mk a b c d e f g h i j)
    (λ tr, match tr with Trace.mk _ _ _ _ _ _ _ _ _ _ => eq_refl end).

Global Instance coll_eq_dec `{Countable A} : EqDecision (TracesGroup.coll A).
Proof. solve_decision. Defined.
Global Instance coll_countable `{Countable A} : Countable (TracesGroup.coll A) :=
  inj_countable'
    (λ c, match c with
          | TracesGroup.AsSet s => inl s
          | TracesGroup.AsTuple l => inr l
          end)
    (λ x, match x with
          | inl s => TracesGroup.AsSet s
          | inr l => TracesGroup.AsTuple l
          end)
    (λ c, match c with
          | TracesGroup.AsSet _ => eq_refl
          | TracesGroup.AsTuple _ => eq_refl
          end).

Global Instance group_eq_dec : EqDecision TracesGroup.t.
Proof. solve_decision. Defined.
Global Instance group_countable : Countable TracesGroup.t :=
  inj_countable'
    (λ g, (TracesGroup.parent g, TracesGroup.networks g, TracesGroup.stations g,
           TracesGroup.locations g, TracesGroup.channels g, TracesGroup.nslc_ids g,
           TracesGroup.tmin g, TracesGroup.tmax g, TracesGroup.have_tuples g,
           TracesGroup.nupdates g))
    (λ '(a, b, c, d, e, f, g, h, i, j), TracesGroup.mk a b c d e f g h i j)
    (λ g, match g with TracesGroup.mk _ _ _ _ _ _ _ _ _ _ => eq_refl end).

Global Instance file_eq_dec : EqDecision TracesFile.t.
Proof. solve_decision. Defined.
Global Instance file_countable : Countable TracesFile.t :=
  inj_countable'
    (λ f, (TracesFile.base f, TracesFile.abspath f, TracesFile.format f,
           TracesFile.traces f, TracesFile.data_loaded f, TracesFile.data_use_count f,
           TracesFile.substitutions f, TracesFile.mtime f))
    (λ '(a, b, c, d, e, f, g, h), TracesFile.mk a b c d e f g h)
    (λ f, match f with TracesFile.mk _ _ _ _ _ _ _ _ => eq_refl end).

(** A serialisation of shards: the binary digits of the shard's code. *)
Fixpoint digits (p : positive) : string :=
  match p with
  | xH => EmptyString
  | xO q => String "0"%char (digits q)
  | xI q => String "1"%char (digits q)
  end.
Fixpoint undigits (s : string) : option positive :=
  match s with
  | EmptyString => Some xH
  | String c r =>
      q ← undigits r;
      if decide (c = "0"%char) then Some (xO q)
      else if decide (c = "1"%char) then Some (xI q)
      else None
  end.

Definition dumps (d : gmap string TracesFile.t) : string := digits (encode d).
Definition loads (s : string) : option (gmap string TracesFile.t) :=
  undigits s ≫= decode.

(** A trace of identity N.S..Z over [[lo, hi]], one sample a second. *)
Definition trace (lo hi : Q) (data : bool) : Trace.t :=
  Trace.mk "N" "S" EmptyString "Z" lo hi 1 (if data then Some [] else None) None None.

(** A reader of a toy format: the bytes name the time range. *)
Definition load (d : OS.fs) (path fmt : string) (getdata : bool)
    (subst : option TracesFile.substitutions_t) : list Trace.t * option Py.exn :=
  match d !! path with
  | Some (OS.File _ "0-9") => ([trace 0 9 getdata], None)
  | Some (OS.File _ "10-19") => ([trace 10 19 getdata], None)
  | Some (OS.File _ _) => ([], Some Py.FileLoadError)
  | _ => ([], Some Py.OSError)
  end.

(** [chop] keeps the part of the trace inside the window. *)
Definition chop (lo hi : Q) (tr : Trace.t) : option Trace.t :=
  if Qltb hi (Trace.tmin tr) || Qltb (Trace.tmax tr) lo then None
  else Some (Trace.mk (Trace.network tr) (Trace.station tr) (Trace.location tr)
               (Trace.channel tr)
               (if Qltb (Trace.tmin tr) lo then lo else Trace.tmin tr)
               (if Qltb hi (Trace.tmax tr) then hi else Trace.tmax tr)
               (Trace.deltat tr) (Trace.ydata tr) None None).

(** A degapper in the sense of the specification: successive traces of
    one identity and sample interval that abut or overlap are merged. *)
Fixpoint degap_into (tr : Trace.t) (rest : list Trace.t) : list Trace.t :=
  match rest with
  | [] => [tr]
  | b :: rest' =>
      if bool_decide (Trace.nslc_id tr = Trace.nslc_id b)
         && Qeq_bool (Trace.deltat tr) (Trace.deltat b)
         && Qle_bool (Trace.tmin b) (Trace.tmax tr + Trace.deltat tr)
      then degap_into (Trace.extend (Trace.tmin tr)
                         (if Qltb (Trace.tmax tr) (Trace.tmax b)
                          then Trace.tmax b else Trace.tmax tr) tr) rest'
      else tr :: degap_into b rest'
  end.
Definition degap (l : list Trace.t) : list Trace.t :=
  match l with
  | [] => []
  | tr :: rest => degap_into tr rest
  end.

Definition X : externals := {|
  hash := λ s, Z.of_nat (String.length s);
  os_path_dirname := λ _, "/data";
  os_path_abspath := λ s, s;
  pjoin := λ a b, a +:+ "/" +:+ b;
  format_int := λ n, digits (encode n);
  os_getpid := 42;
  time_now := 1000;
  pickle_dumps := dumps;
  pickle_loads := loads;
  re_compile := λ _, true;
  re_search := λ rx s,
    if decide (rx = "(?P<station>S)") then
      if String.prefix "/data/S" s then Some {[ "station" := Some "S" ]} else None
    else if String.prefix "/data/" s then Some ∅ else None;
  io_load := load;
  plural_s := λ n, if decide (n = 1%nat) then EmptyString else "s";
  trace_chop := chop;
  degapper := degap
|}.

Definition file (path : string) (loaded : bool) (n : Z) : TracesFile.t :=
  TracesFile.mk (TracesGroup.init None) path "mseed"
    [Trace.mk "N" "S" EmptyString "Z" 0 9 1 (Some [1%Q; 2%Q]) None None]
    loaded n None (Some 17).

(** Aggregates as [update] leaves them: a group spanning [[lo, hi]] and
    an emptied one. *)
Definition group (lo hi : Q) : TracesGroup.t :=
  TracesGroup.mk None (TracesGroup.AsTuple ["N"]) (TracesGroup.AsTuple ["S"])
    (TracesGroup.AsTuple [EmptyString]) (TracesGroup.AsTuple ["Z"])
    (TracesGroup.AsTuple [("N", "S", EmptyString, "Z")]) (Some lo) (Some hi) true 1.
Definition emptied : TracesGroup.t :=
  TracesGroup.mk None (TracesGroup.AsTuple []) (TracesGroup.AsTuple [])
    (TracesGroup.AsTuple []) (TracesGroup.AsTuple []) (TracesGroup.AsTuple [])
    None None true 2.

(** A disk with two readable data files and one that does not parse. *)
Definition disk : OS.fs :=
  {[ "/data/a" := OS.File 17 "0-9"; "/data/x" := OS.File 5 "junk";
     "/data/S1" := OS.File 17 "10-19" ]}.

(** A cache that holds an entry for "/data/S1" with the file's current
    modification time. *)
Definition shard_path : string :=
  pjoin X "/cache" (format_int X (Z.abs (hash X (os_path_dirname X "/data/S1")))).
Definition cached : TracesFileCache.t :=
  TracesFileCache.mk "/cache" {[ shard_path := {[ "/data/S1" := file "/data/S1" false 0 ]} ]} ∅.
Definition start_cached : Loader.state :=
  Loader.mkState (Some cached) (mkWorld disk []) [].
Definition station_pattern : string := "(?P<station>S)".

(** A file as the loader leaves it: headers only. *)
Definition header_file (path : string) (lo hi : Q) : TracesFile.t :=
  TracesFile.mk (group lo hi) path "mseed" [trace lo hi false] false 0 None (Some 17).

(** A pile of two files, "/data/a" over [[0, 9]] and "/data/S1" over
    [[10, 19]], in one sub-pile. *)
Definition pile : Pile.t :=
  Pile.mk (group 0 19)
    [((1970, 1), SubPile.mk (group 0 19) [1%positive; 2%positive])]
    ∅
    {[ 1%positive := header_file "/data/a" 0 9;
       2%positive := header_file "/data/S1" 10 19 ]}.





(** A cache object that has read nothing yet, and one that holds an entry
    for "/data/a" which it has not written. *)
Definition fresh_cache : TracesFileCache.t := TracesFileCache.mk "/cache" ∅ ∅.
Definition dirty_cache : TracesFileCache.t :=
  TracesFileCache.mk "/cache" {[ shard_path := {[ "/data/a" := file "/data/a" false 0 ]} ]}
    {[ shard_path ]}.

(** A calendar of twelve months of thirty days, and a dict that iterates
    in the order of insertion. *)
Definition gmtime (t : Z) : Z * Z :=
  (1970 + t / 31104000, 1 + (t mod 31104000) / 2592000).
Definition arrange (sps : list ((Z * Z) * SubPile.t)) (e : (Z * Z) * SubPile.t) :
    list ((Z * Z) * SubPile.t) :=
  sps ++ [e].

(** A new pile, the two file objects being around, and the pile once it
    has got the first of them. *)
Definition new_pile : Pile.t :=
  Pile.init {[ 1%positive := header_file "/data/a" 0 9;
               2%positive := header_file "/data/S1" 10 19 ]}.
Definition pile_of_one : Pile.t := (Pile.add_file gmtime arrange 1 new_pile).2.

(** The whole pile in one window, and windows of length zero over
    [[0, 27]]. *)
Definition whole : Pile.args :=
  Pile.mkArgs None None None 0 None None true false false None true.


End Sample.

Ltac py_unfold :=
  unfold mbind, mret, fmap, M_bind, M_ret, M_fmap, Py.bind, Py.ret, Py.raise, Py.get,
    Py.gets, Py.put, Py.modify, Py.when, Py.zoom, Py.try_except in *.

(** * Properties *)

(** ** Reference counting of a file's data *)


(** C7. [use_data] on a file whose data is not loaded raises and leaves
    the file, hence its use count, as it was; on a file whose data is loaded
    it returns and the use count is one more, nothing else changes. *)
Theorem use_data_contract (f : TracesFile.t) :
  TracesFile.use_data f =
    if TracesFile.data_loaded f
    then (Py.Ok tt, TracesFile.set_data_use_count (TracesFile.data_use_count f + 1) f)
    else (Py.Raise (Py.Exception "Data not loaded"), f).
Proof.
  unfold TracesFile.use_data. py_unfold.
  destruct (TracesFile.data_loaded f); reflexivity.
Qed.

(** C5. On a file with loaded data and use count [n], [use_data] followed
    by one [drop_data] returns, leaves the use count at [n], leaves the data
    loaded (and the traces untouched) when [n] is not zero, and leaves the
    data unloaded with every trace's samples dropped when [n] is zero. *)
Theorem use_then_drop (f : TracesFile.t) :
  TracesFile.data_loaded f = true →
  ∃ f', (TracesFile.use_data ;; TracesFile.drop_data) f = (Py.Ok tt, f')
    ∧ TracesFile.data_use_count f' = TracesFile.data_use_count f
    ∧ (TracesFile.data_use_count f ≠ 0 →
         TracesFile.data_loaded f' = true ∧ TracesFile.traces f' = TracesFile.traces f)
    ∧ (TracesFile.data_use_count f = 0 →
         TracesFile.data_loaded f' = false
         ∧ Forall (λ tr, Trace.ydata tr = None) (TracesFile.traces f')
         ∧ TracesFile.traces f' = Trace.drop_data <$> TracesFile.traces f).
Proof.
  intros Hl. destruct f as [g p fmt trs ld n sb mt]. simpl in *. subst ld.
  unfold TracesFile.use_data, TracesFile.drop_data. py_unfold. simpl.
  destruct (decide (n + 1 = 1)) as [E|E]; simpl; eexists; (split; [reflexivity|]);
    simpl; (split; [lia|]); split; intros Hn; try lia.
  - split; [reflexivity|]. split; [|reflexivity].
    apply Forall_fmap, Forall_forall. reflexivity.
  - split; reflexivity.
Qed.

Lemma use_then_drop_witness :
  TracesFile.data_loaded (Sample.file "/data/a" true 0) = true
  ∧ ∃ f', (TracesFile.use_data ;; TracesFile.drop_data) (Sample.file "/data/a" true 0) = (Py.Ok tt, f')
    ∧ TracesFile.data_use_count f' = 0
    ∧ (0 ≠ 0 → TracesFile.data_loaded f' = true
               ∧ TracesFile.traces f' = TracesFile.traces (Sample.file "/data/a" true 0))
    ∧ (0 = 0 → TracesFile.data_loaded f' = false
               ∧ Forall (λ tr, Trace.ydata tr = None) (TracesFile.traces f')
               ∧ TracesFile.traces f' = Trace.drop_data <$> TracesFile.traces (Sample.file "/data/a" true 0)).
Proof.
  split; [reflexivity|].
  apply (use_then_drop (Sample.file "/data/a" true 0)). reflexivity.
Defined.

(** [drop_data] of a file whose data is loaded and whose use count is zero
    decrements the count to [-1] and keeps the data: there is no floor on
    this path. *)
Lemma drop_data_loaded_idle_goes_negative :
  TracesFile.data_use_count (Sample.file "/data/a" true 0) = 0
  ∧ TracesFile.drop_data (Sample.file "/data/a" true 0) = (Py.Ok tt, Sample.file "/data/a" true (-1))
  ∧ ¬ (∀ f, TracesFile.data_use_count f = 0 →
          ∃ f', TracesFile.drop_data f = (Py.Ok tt, f')
                ∧ TracesFile.data_use_count f' = 0).
Proof.
  split; [reflexivity|]. split; [reflexivity|].
  intros H. destruct (H (Sample.file "/data/a" true 0) eq_refl) as (f' & E & Hc).
  vm_compute in E. inversion E; subst f'. discriminate Hc.
Qed.

(** C6 (as the code has it). [drop_data] never raises; on a file whose data
    is not loaded it sets the use count to zero, whatever it was, and
    changes nothing else. *)
Theorem drop_data_tolerated (f : TracesFile.t) :
  ∃ f', TracesFile.drop_data f = (Py.Ok tt, f')
    ∧ (TracesFile.data_loaded f = false →
         f' = TracesFile.set_data_use_count 0 f
         ∧ TracesFile.data_use_count f' = 0).
Proof.
  unfold TracesFile.drop_data. py_unfold.
  destruct (TracesFile.data_loaded f) eqn:Hl.
  - destruct (decide (TracesFile.data_use_count f = 1)); eexists; (split; [reflexivity|]);
      intros; discriminate.
  - eexists. split; [reflexivity|]. intros _. split; reflexivity.
Qed.

Lemma drop_data_tolerated_witness :
  ∃ f', TracesFile.drop_data (Sample.file "/data/a" false 0) = (Py.Ok tt, f')
    ∧ (false = false →
         f' = TracesFile.set_data_use_count 0 (Sample.file "/data/a" false 0)
         ∧ TracesFile.data_use_count f' = 0).
Proof. apply (drop_data_tolerated (Sample.file "/data/a" false 0)). Defined.

(** ** The metadata cache: writing a shard and reading it back *)

Lemma without_parent_facts (f : TracesFile.t) :
  let f' := TracesFileCache.without_parent f in
  TracesGroup.parent (TracesFile.base f') = None
  ∧ TracesGroup.networks (TracesFile.base f') = TracesGroup.networks (TracesFile.base f)
  ∧ TracesGroup.stations (TracesFile.base f') = TracesGroup.stations (TracesFile.base f)
  ∧ TracesGroup.locations (TracesFile.base f') = TracesGroup.locations (TracesFile.base f)
  ∧ TracesGroup.channels (TracesFile.base f') = TracesGroup.channels (TracesFile.base f)
  ∧ TracesGroup.nslc_ids (TracesFile.base f') = TracesGroup.nslc_ids (TracesFile.base f)
  ∧ TracesGroup.tmin (TracesFile.base f') = TracesGroup.tmin (TracesFile.base f)
  ∧ TracesGroup.tmax (TracesFile.base f') = TracesGroup.tmax (TracesFile.base f)
  ∧ TracesFile.mtime f' = TracesFile.mtime f
  ∧ TracesFile.abspath f' = TracesFile.abspath f
  ∧ TracesFile.traces f' = TracesFile.traces f.
Proof. cbv zeta. repeat split. Qed.

Lemma dump_empty (X : externals) (fn : string) (d : OS.fs) :
  TracesFileCache._dump_dircache X ∅ fn d =
    match d !! fn with
    | Some (OS.File _ _) => (Py.Ok tt, delete fn d)
    | Some (OS.Dir _) => (Py.Raise Py.OSError, d)
    | None => (Py.Ok tt, d)
    end.
Proof.
  unfold TracesFileCache._dump_dircache, OS.remove, OS.exists_.
  rewrite decide_True by reflexivity. py_unfold.
  destruct (d !! fn) as [[m b|m]|] eqn:E; simpl; rewrite ?E; reflexivity.
Qed.

Lemma bind_ok {S A B} (m : Py.M S A) (k : A → Py.M S B) s a s' :
  m s = (Py.Ok a, s') → (m ≫= k) s = k a s'.
Proof. intros E. unfold mbind, M_bind, Py.bind. rewrite E. reflexivity. Qed.

Lemma bind_raise {S A B} (m : Py.M S A) (k : A → Py.M S B) s e s' :
  m s = (Py.Raise e, s') → (m ≫= k) s = (Py.Raise e, s').
Proof. intros E. unfold mbind, M_bind, Py.bind. rewrite E. reflexivity. Qed.

Lemma write_ok (now : Z) (p b : string) (d : OS.fs) :
  OS.isdir p d = false → OS.write now p b d = (Py.Ok tt, <[p := OS.File now b]> d).
Proof.
  unfold OS.isdir, OS.write. py_unfold.
  destruct (d !! p) as [[?|?]|]; try reflexivity. discriminate.
Qed.

Lemma rename_ok (src dst : string) (m : Z) (b : string) (d : OS.fs) :
  d !! src = Some (OS.File m b) → OS.isdir dst d = false →
  OS.rename src dst d = (Py.Ok tt, <[dst := OS.File m b]> (delete src d)).
Proof.
  unfold OS.isdir, OS.rename. py_unfold. intros Hs Hd. rewrite Hs.
  destruct (d !! dst) as [[?|?]|]; try reflexivity. discriminate.
Qed.

Lemma dump_nonempty (X : externals) (cache : TracesFileCache.shard) (fn : string)
    (d : OS.fs) :
  cache ≠ ∅ →
  let tmpfn := fn +:+ "." +:+ format_int X (os_getpid X) +:+ ".tmp" in
  let written := OS.File (time_now X)
                   (pickle_dumps X (TracesFileCache.without_parent <$> cache)) in
  OS.isdir tmpfn d = false →
  OS.isdir fn d = false →
  TracesFileCache._dump_dircache X cache fn d
  = (Py.Ok tt, <[fn := written]> (delete tmpfn (<[tmpfn := written]> d))).
Proof.
  intros Hne tmpfn written Htmp Hfn.
  unfold TracesFileCache._dump_dircache. rewrite decide_False by assumption.
  fold tmpfn.
  erewrite bind_ok by (apply write_ok; assumption).
  apply rename_ok; [apply lookup_insert_eq|].
  unfold OS.isdir in *. rewrite lookup_insert. case_decide; [reflexivity|assumption].
Qed.

Lemma load_pickled (X : externals) (fn : string) (d : OS.fs) (m : Z)
    (c : TracesFileCache.shard) :
  d !! fn = Some (OS.File m (pickle_dumps X c)) →
  pickle_loads X (pickle_dumps X c) = Some c →
  TracesFileCache._load_dircache X fn d =
    (Py.Ok (filter (λ kv, OS.isfile kv.1 d = true) c), d).
Proof.
  intros Hfn Hrt. unfold TracesFileCache._load_dircache, OS.read. py_unfold.
  rewrite Hfn, Hrt. reflexivity.
Qed.

(** C8. A shard that is not empty is written (through a temporary file) and,
    when read back from a file system in which the shard's file is still
    the one written, comes back as: for every path that is a regular file
    at that time, the entry that was dumped, with the same lookup sets, time
    span, modification time and traces and with [parent] set to [None];
    and no entry for any other path.  An empty shard is not written: its
    file, if there is one, is removed.  Writing touches no path but the
    shard's and the temporary file's. *)
Theorem dump_then_load (X : externals) (cache : TracesFileCache.shard) (fn : string)
    (d : OS.fs) :
  (∀ c, pickle_loads X (pickle_dumps X c) = Some c) →
  OS.isdir (fn +:+ "." +:+ format_int X (os_getpid X) +:+ ".tmp") d = false →
  OS.isdir fn d = false →
  ∃ d1, TracesFileCache._dump_dircache X cache fn d = (Py.Ok tt, d1)
    ∧ (∀ path, path ≠ fn →
         path ≠ fn +:+ "." +:+ format_int X (os_getpid X) +:+ ".tmp" →
         d1 !! path = d !! path)
    ∧ (cache = ∅ → d1 !! fn = None)
    ∧ (cache ≠ ∅ →
        ∀ d2, d2 !! fn = d1 !! fn →
        ∃ loaded, TracesFileCache._load_dircache X fn d2 = (Py.Ok loaded, d2)
          ∧ (∀ path, OS.isfile path d2 = false → loaded !! path = None)
          ∧ (∀ path, OS.isfile path d2 = true →
                loaded !! path = TracesFileCache.without_parent <$> cache !! path)
          ∧ (∀ path f', loaded !! path = Some f' →
                ∃ f, cache !! path = Some f
                  ∧ TracesGroup.parent (TracesFile.base f') = None
                  ∧ TracesGroup.networks (TracesFile.base f') = TracesGroup.networks (TracesFile.base f)
                  ∧ TracesGroup.stations (TracesFile.base f') = TracesGroup.stations (TracesFile.base f)
                  ∧ TracesGroup.locations (TracesFile.base f') = TracesGroup.locations (TracesFile.base f)
                  ∧ TracesGroup.channels (TracesFile.base f') = TracesGroup.channels (TracesFile.base f)
                  ∧ TracesGroup.nslc_ids (TracesFile.base f') = TracesGroup.nslc_ids (TracesFile.base f)
                  ∧ TracesGroup.tmin (TracesFile.base f') = TracesGroup.tmin (TracesFile.base f)
                  ∧ TracesGroup.tmax (TracesFile.base f') = TracesGroup.tmax (TracesFile.base f))).
Proof.
  intros Hrt Htmp Hfn.
  destruct (decide (cache = ∅)) as [He|Hne].
  - subst cache. rewrite dump_empty. unfold OS.isdir in Hfn.
    destruct (d !! fn) as [[m b|m]|] eqn:E; try discriminate.
    + eexists. split; [reflexivity|].
      split; [intros path ? _; by apply lookup_delete_ne|].
      split; [intros _; apply lookup_delete_eq|]. done.
    + eexists. split; [reflexivity|]. split; [done|]. split; [intros _; exact E|]. done.
  - rewrite (dump_nonempty X cache fn d Hne Htmp Hfn).
    eexists. split; [reflexivity|].
    split; [intros path ? ?; by rewrite lookup_insert_ne, lookup_delete_ne, lookup_insert_ne|].
    split; [done|]. intros _ d2 H2.
    rewrite lookup_insert_eq in H2.
    eexists. split; [apply (load_pickled X fn d2 _ _ H2 (Hrt _))|].
    assert (Hlk : ∀ path,
      filter (λ kv : string * TracesFile.t, OS.isfile kv.1 d2 = true)
        (TracesFileCache.without_parent <$> cache) !! path
      = if OS.isfile path d2 then TracesFileCache.without_parent <$> cache !! path else None).
    { intros path. destruct (OS.isfile path d2) eqn:E.
      - apply option_eq. intros x. rewrite map_lookup_filter_Some, lookup_fmap. simpl.
        split; [intros [? _]; assumption | intros ?; split; assumption].
      - apply map_lookup_filter_None. right. intros x _. simpl. congruence. }
    split; [|split].
    + intros path Hp. rewrite Hlk, Hp. done.
    + intros path Hp. rewrite Hlk, Hp. done.
    + intros path f' Hf'. rewrite Hlk in Hf'.
      destruct (OS.isfile path d2); [|done].
      destruct (cache !! path) as [f|]; [|done]. simpl in Hf'. inversion Hf'; subst f'.
      exists f. split; [done|]. repeat split.
Qed.

(** ** The incomplete-window filter of [_process_chopped] *)










(** ** The loader and the cache *)

Lemma stat_mtime_fs (p : string) (d : OS.fs) r d' :
  OS.stat_mtime p d = (r, d') → d' = d.
Proof.
  unfold OS.stat_mtime. py_unfold. repeat case_match; naive_solver.
Qed.

Lemma read_traces_frame X getdata f w r f' w' :
  TracesFileIO.read_traces X getdata (f, w) = (r, (f', w')) → w' = w.
Proof.
  unfold TracesFileIO.read_traces, TracesFileIO.self_, TracesFileIO.world_. py_unfold. simpl.
  repeat case_match; naive_solver.
Qed.


Lemma init_frame X parent path fmt subst mt w r w' :
  TracesFileIO.init X parent path fmt subst mt w = (r, w') →
  fs w' = fs w ∧ ∃ l, log w' = log w ++ l ∧ Forall Log.is_debug l.
Proof.
  unfold TracesFileIO.init, TracesFileIO.load_headers, TracesFileIO.read_traces, TracesFileIO.self_, TracesFileIO.world_, logger, os, OS.stat_mtime, TracesFile.super.
  py_unfold. simpl. 
  repeat case_match; simplify_eq/=.
  all: try (intros; simplify_eq/=; split; [done|]; eexists; split; [done|]; repeat constructor; eexists; done).
Qed.

Lemma load_dircache_fs X cp (d : OS.fs) r d' :
  TracesFileCache._load_dircache X cp d = (r, d') → d' = d.
Proof.
  unfold TracesFileCache._load_dircache, OS.read. py_unfold.
  repeat case_match; naive_solver.
Qed.


Lemma get_unfold X p c (d : OS.fs) :
  TracesFileCache.get X p (c, d) =
    let cp := TracesFileCache._dircachepath X c p in
    match TracesFileCache.dircaches c !! cp with
    | Some dc => (Py.Ok (dc !! p), (c, d))
    | None =>
        if OS.isfile cp d then
          match TracesFileCache._load_dircache X cp d with
          | (Py.Ok dc, _) => (Py.Ok (dc !! p), (TracesFileCache.memoized cp dc c, d))
          | (Py.Raise e, _) => (Py.Raise e, (c, d))
          end
        else (Py.Ok None, (TracesFileCache.memoized cp ∅ c, d))
    end.
Proof.
  unfold TracesFileCache.get, TracesFileCache._get_dircache_for,
    TracesFileCache._get_dircache, TracesFileCache.self_, TracesFileCache.os_.
  py_unfold. cbn.
  destruct (TracesFileCache.dircaches c !! _) eqn:E; cbn; [reflexivity|].
  destruct (OS.isfile _ d) eqn:Ef; cbn; [|reflexivity].
  destruct (TracesFileCache._load_dircache X _ d) as [[dc|e] d'] eqn:El; cbn;
    apply load_dircache_fs in El as ->; reflexivity.
Qed.

Lemma get_agrees X p c (d : OS.fs) r c' d' :
  TracesFileCache.get X p (c, d) = (r, (c', d')) →
  d' = d
  ∧ TracesFileCache.modified c' = TracesFileCache.modified c
  ∧ TracesFileCache.cachedir c' = TracesFileCache.cachedir c
  ∧ (∀ cp sh, TracesFileCache.dircaches c !! cp = Some sh →
               TracesFileCache.dircaches c' !! cp = Some sh)
  ∧ (∀ q, (TracesFileCache.get X q (c', d)).1 = (TracesFileCache.get X q (c, d)).1).
Proof.
  rewrite get_unfold. cbv zeta.
  set (cp := TracesFileCache._dircachepath X c p).
  destruct (TracesFileCache.dircaches c !! cp) as [dc|] eqn:E.
  { intros [= <- <- <-]. done. }
  assert (Hmemo : ∀ dc,
    (OS.isfile cp d = true → TracesFileCache._load_dircache X cp d = (Py.Ok dc, d)) →
    (OS.isfile cp d = false → dc = ∅) →
    ∀ q, (TracesFileCache.get X q (TracesFileCache.memoized cp dc c, d)).1
         = (TracesFileCache.get X q (c, d)).1).
  { intros dc H1 H2 q. rewrite !get_unfold. cbv zeta.
    change (TracesFileCache._dircachepath X (TracesFileCache.memoized cp dc c) q)
      with (TracesFileCache._dircachepath X c q).
    set (cq := TracesFileCache._dircachepath X c q).
    unfold TracesFileCache.memoized at 1. simpl.
    destruct (decide (cp = cq)) as [Heq|Hne].
    - rewrite <- Heq, lookup_insert_eq, E.
      destruct (OS.isfile cp d) eqn:Ef.
      + rewrite H1 by done. done.
      + rewrite H2 by done. done.
    - rewrite lookup_insert_ne by done.
      destruct (TracesFileCache.dircaches c !! cq); [done|].
      destruct (OS.isfile cq d); [|done].
      destruct (TracesFileCache._load_dircache X cq d) as [[?|?] ?]; done. }
  destruct (OS.isfile cp d) eqn:Ef.
  - destruct (TracesFileCache._load_dircache X cp d) as [[dc|e] d1] eqn:El.
    + pose proof (load_dircache_fs _ _ _ _ _ El) as ->.
      intros [= <- <- <-]. split; [done|]. split; [done|]. split; [done|]. split.
      * intros cp' sh H. simpl. rewrite lookup_insert_ne; [done|]. congruence.
      * apply Hmemo; [done|congruence].
    + intros [= <- <- <-]. done.
  - intros [= <- <- <-]. split; [done|]. split; [done|]. split; [done|]. split.
    + intros cp' sh H. simpl. rewrite lookup_insert_ne; [done|]. congruence.
    + apply Hmemo; [congruence|done].
Qed.

Lemma set_fs_same (w : world) : set_fs (fs w) w = w.
Proof. destruct w; reflexivity. Qed.

Lemma init_ok X parent path fmt subst mt w tfile w' :
  TracesFileIO.init X parent path fmt subst mt w = (Py.Ok tfile, w') →
  io_load X (fs w) path fmt false subst = (TracesFile.traces tfile, None)
  ∧ TracesFile.abspath tfile = path
  ∧ TracesFile.substitutions tfile = subst
  ∧ TracesFile.mtime tfile = mt
  ∧ TracesFile.data_loaded tfile = false
  ∧ TracesFile.data_use_count tfile = 0.
Proof.
  unfold TracesFileIO.init, TracesFileIO.load_headers, TracesFileIO.read_traces, TracesFileIO.self_, TracesFileIO.world_, logger, os, OS.stat_mtime, TracesFile.super.
  py_unfold. simpl.
  repeat case_match; simplify_eq/=; intros; simplify_eq/=; done.
Qed.

Lemma with_cache_get X p s r s' :
  Loader.with_cache None (TracesFileCache.get X p) s = (r, s') →
  Loader.w s' = Loader.w s ∧ Loader.yielded s' = Loader.yielded s
  ∧ match Loader.cache s, Loader.cache s' with
    | None, None => r = Py.Ok None
    | Some c, Some c' =>
        TracesFileCache.get X p (c, fs (Loader.w s)) = (r, (c', fs (Loader.w s)))
    | _, _ => False
    end.
Proof.
  unfold Loader.with_cache. destruct (Loader.cache s) as [c|] eqn:Ec.
  - destruct (TracesFileCache.get X p (c, fs (Loader.w s))) as [r0 [c' d']] eqn:Eg.
    pose proof (get_agrees _ _ _ _ _ _ _ Eg) as (-> & _).
    intros [= <- <-]. simpl. rewrite set_fs_same. done.
  - intros [= <- <-]. rewrite Ec. done.
Qed.

Lemma cache_unchanged_refl X d c : Loader.cache_unchanged X d c c.
Proof. destruct c; simpl; done. Qed.

Lemma bind_inv {S A B} (m : Py.M S A) (k : A → Py.M S B) s r s' :
  (m ≫= k) s = (r, s') →
  (∃ e, m s = (Py.Raise e, s') ∧ r = Py.Raise e)
  ∨ (∃ a s1, m s = (Py.Ok a, s1) ∧ k a s1 = (r, s')).
Proof.
  unfold mbind, M_bind, Py.bind. destruct (m s) as [[a|e] s1].
  - intros H. right. eauto.
  - intros [= <- <-]. left. eauto.
Qed.

Lemma world_inv {A} (m : Py.M world A) s r s' :
  Loader.world_ m s = (r, s') →
  ∃ w', m (Loader.w s) = (r, w')
        ∧ s' = Loader.mkState (Loader.cache s) w' (Loader.yielded s).
Proof.
  unfold Loader.world_, Py.zoom. destruct (m (Loader.w s)) as [r0 w'].
  intros [= <- <-]. eauto.
Qed.

Lemma world_stat filename s r s' :
  Loader.world_ (os (OS.stat_mtime filename)) s = (r, s') →
  s' = s ∧ OS.stat_mtime filename (fs (Loader.w s)) = (r, fs (Loader.w s)).
Proof.
  intros H. apply world_inv in H as (w' & H & ->).
  unfold os, Py.zoom in H.
  destruct (OS.stat_mtime filename (fs (Loader.w s))) as [r0 d'] eqn:E.
  pose proof (stat_mtime_fs _ _ _ _ E) as ->. inversion H; subst.
  rewrite set_fs_same. destruct s; done.
Qed.

Lemma get_unchanged X p s r s' :
  match Loader.cache s, Loader.cache s' with
  | None, None => r = Py.Ok None
  | Some c, Some c' =>
      TracesFileCache.get X p (c, fs (Loader.w s)) = (r, (c', fs (Loader.w s)))
  | _, _ => False
  end →
  Loader.cache_unchanged X (fs (Loader.w s)) (Loader.cache s) (Loader.cache s').
Proof.
  unfold Loader.cache_unchanged.
  destruct (Loader.cache s) as [c|], (Loader.cache s') as [c'|]; try done.
  intros H. apply get_agrees in H as (_ & ? & ? & ? & ?). done.
Qed.

(** C10. For a file name from which the pattern yields substitutions (the
    dict of identity attributes is not empty), whatever the cache holds,
    also an entry with the file's current modification time: if the attempt
    returns a file, it is the one that [TracesFile(...)] builds from what
    [io.load] reads now; and, however the attempt ends, nothing is put into
    the cache: the same shards are marked modified, the shards in memory are
    the same, every lookup gives what it gave, and the disk is untouched. *)
Theorem load_one_with_substitutions (X : externals) (fileformat : string)
    (filename_attributes : option string) (rx filename : string)
    (groupdict : gmap string (option string)) (s : Loader.state)
    (r : Py.outcome TracesFile.t) (s' : Loader.state) :
  re_search X rx filename = Some groupdict →
  filter (λ kv : string * option string, kv.1 ∈ Loader.attribute_keys) groupdict ≠ ∅ →
  Loader.load_one X fileformat filename_attributes (Some rx) filename s = (r, s') →
  let substitutions := Some (filter (λ kv : string * option string,
                                       kv.1 ∈ Loader.attribute_keys) groupdict) in
  let abspath := os_path_abspath X filename in
  (∀ tfile, r = Py.Ok tfile →
     ∃ mtime,
       OS.stat_mtime filename (fs (Loader.w s)) = (Py.Ok mtime, fs (Loader.w s))
       ∧ TracesFileIO.init X None abspath fileformat substitutions (Some mtime) (Loader.w s)
         = (Py.Ok tfile, Loader.w s')
       ∧ io_load X (fs (Loader.w s)) abspath fileformat false substitutions
         = (TracesFile.traces tfile, None))
  ∧ fs (Loader.w s') = fs (Loader.w s)
  ∧ Loader.yielded s' = Loader.yielded s
  ∧ Loader.cache_unchanged X (fs (Loader.w s)) (Loader.cache s) (Loader.cache s').
Proof.
  intros Hre Hne Hrun substitutions abspath.
  unfold Loader.load_one in Hrun. rewrite Hre in Hrun.
  fold abspath in Hrun.
  assert (Ht : Loader.truthy substitutions = true).
  { unfold substitutions, Loader.truthy. apply bool_decide_eq_true. exact Hne. }
  fold substitutions in Hrun.
  rewrite (bind_ok _ _ s substitutions s) in Hrun by reflexivity.
  apply bind_inv in Hrun as [(e & Hst & ->)|(mtime & s1 & Hst & Hrun)].
  { apply world_stat in Hst as (<- & _).
    split; [discriminate|]. split; [done|]. split; [done|]. apply cache_unchanged_refl. }
  apply world_stat in Hst as (<- & Hst).
  apply bind_inv in Hrun as [(e & Hget & ->)|(cached & s2 & Hget & Hrun)];
    apply with_cache_get in Hget as (Hw2 & Hy2 & Hc2).
  { split; [discriminate|]. rewrite Hw2, Hy2. split; [done|]. split; [done|].
    eapply get_unchanged, Hc2. }
  assert (Hinit : (Loader.world_ (TracesFileIO.init X None abspath fileformat
                     substitutions (Some mtime))
                   ≫= λ tfile0, mret () ≫= λ _, mret tfile0) s2 = (r, s')).
  { destruct cached as [cached|]; rewrite Ht, ?orb_true_r in Hrun; exact Hrun. }
  clear Hrun.
  apply bind_inv in Hinit as [(e & Hi & ->)|(tfile & s3 & Hi & Hrun)];
    apply world_inv in Hi as (w3 & Hi & ->).
  { pose proof (init_frame _ _ _ _ _ _ _ _ _ Hi) as (Hfs & _). simpl.
    split; [discriminate|]. rewrite Hfs, Hw2, Hy2. split; [done|]. split; [done|].
    eapply get_unchanged, Hc2. }
  inversion Hrun; subst r s'. clear Hrun. simpl.
  pose proof (init_frame _ _ _ _ _ _ _ _ _ Hi) as (Hfs & _).
  rewrite Hw2 in Hi, Hfs.
  split; [|rewrite Hfs, Hy2; split; [done|]; split; [done|]; eapply get_unchanged, Hc2].
  intros ? [= <-]. exists mtime. split; [exact Hst|]. split; [exact Hi|].
  apply (init_ok _ _ _ _ _ _ _ _ _ Hi).
Qed.

(** ** The scan of the loader *)

Lemma put_fs X p f c (d : OS.fs) r c' d' :
  TracesFileCache.put X p f (c, d) = (r, (c', d')) → d' = d.
Proof.
  unfold TracesFileCache.put, TracesFileCache._get_dircache,
    TracesFileCache.self_, TracesFileCache.os_. py_unfold. cbn.
  destruct (TracesFileCache.dircaches c !! _); cbn; [intros [= <- <- <-]; done|].
  destruct (OS.isfile _ d); cbn; [|intros [= <- <- <-]; done].
  destruct (TracesFileCache._load_dircache X _ d) as [[dc|e] d1] eqn:El; cbn;
    apply load_dircache_fs in El as ->; intros [= <- <- <-]; done.
Qed.

Lemma with_cache_world {A} (dflt : A) (m : Py.M (TracesFileCache.t * OS.fs) A) s r s' :
  Loader.with_cache dflt m s = (r, s') →
  log (Loader.w s') = log (Loader.w s) ∧ Loader.yielded s' = Loader.yielded s.
Proof.
  unfold Loader.with_cache. destruct (Loader.cache s).
  - destruct (m _) as [r0 [c' d']]. intros [= <- <-]. done.
  - intros [= <- <-]. done.
Qed.

Lemma with_cache_put X p f s r s' :
  Loader.with_cache () (TracesFileCache.put X p f) s = (r, s') →
  Loader.w s' = Loader.w s ∧ Loader.yielded s' = Loader.yielded s
  ∧ (Loader.cache s = None → Loader.cache s' = None).
Proof.
  unfold Loader.with_cache. destruct (Loader.cache s) eqn:Ec.
  - destruct (TracesFileCache.put X p f _) as [r0 [c' d']] eqn:E.
    apply put_fs in E as ->. intros [= <- <-]. simpl. rewrite set_fs_same. done.
  - intros [= <- <-]. done.
Qed.

(** One attempt changes neither the disk nor the list of yielded files, and
    logs nothing but debug messages. *)
Lemma load_one_frame X fmt fa regex filename s r s' :
  Loader.load_one X fmt fa regex filename s = (r, s') →
  fs (Loader.w s') = fs (Loader.w s)
  ∧ Loader.yielded s' = Loader.yielded s
  ∧ (Loader.cache s = None → Loader.cache s' = None)
  ∧ ∃ l, log (Loader.w s') = log (Loader.w s) ++ l ∧ Forall Log.is_debug l.
Proof.
  intros Hrun. unfold Loader.load_one in Hrun.
  assert (Hnil : ∀ s : Loader.state, ∃ l, log (Loader.w s) = log (Loader.w s) ++ l
                                        ∧ Forall Log.is_debug l).
  { intros. exists []. rewrite app_nil_r. done. }
  apply bind_inv in Hrun as [(e & Hsub & ->)|(subst & s1 & Hsub & Hrun)].
  { repeat case_match; inversion Hsub; subst; done. }
  assert (s1 = s) as -> by (repeat case_match; inversion Hsub; subst; done).
  clear Hsub.
  apply bind_inv in Hrun as [(e & Hst & ->)|(mtime & s1 & Hst & Hrun)];
    apply world_stat in Hst as (-> & Hst); [done|].
  apply bind_inv in Hrun as [(e & Hget & ->)|(cached & s2 & Hget & Hrun)];
    apply with_cache_get in Hget as (Hw2 & Hy2 & Hc2).
  { rewrite Hw2. split; [done|]. split; [done|]. split; [|done].
    intros E. rewrite E in Hc2. by destruct (Loader.cache s'). }
  assert (Hn2 : Loader.cache s = None → Loader.cache s2 = None).
  { intros E. rewrite E in Hc2. by destruct (Loader.cache s2). }
  assert (Hinit : ∀ s3 r s', (Loader.world_ (TracesFileIO.init X None (os_path_abspath X filename)
                     fmt subst (Some mtime))
       ≫= λ tfile0, (if negb (Loader.truthy subst)
                      then Loader.with_cache () (TracesFileCache.put X
                             (os_path_abspath X filename) tfile0)
                      else mret ()) ≫= λ _, mret tfile0) s3 = (r, s') →
       fs (Loader.w s') = fs (Loader.w s3)
       ∧ Loader.yielded s' = Loader.yielded s3
       ∧ (Loader.cache s3 = None → Loader.cache s' = None)
       ∧ ∃ l, log (Loader.w s') = log (Loader.w s3) ++ l ∧ Forall Log.is_debug l).
  { clear. intros s3 r s' H.
    apply bind_inv in H as [(e & Hi & ->)|(tfile & s4 & Hi & H)];
      apply world_inv in Hi as (w4 & Hi & ->);
      apply init_frame in Hi as (Hfs & Hlog); [done|].
    apply bind_inv in H as [(e & Hp & ->)|([] & s5 & Hp & H)].
    - destruct (negb _); [|discriminate].
      apply with_cache_put in Hp as (-> & -> & ?). done.
    - inversion H; subst. destruct (negb _).
      + apply with_cache_put in Hp as (-> & -> & ?). done.
      + inversion Hp; subst. done. }
  rewrite <- Hw2, <- Hy2.
  assert (Hfin : ∀ s', (fs (Loader.w s') = fs (Loader.w s2)
       ∧ Loader.yielded s' = Loader.yielded s2
       ∧ (Loader.cache s2 = None → Loader.cache s' = None)
       ∧ ∃ l, log (Loader.w s') = log (Loader.w s2) ++ l ∧ Forall Log.is_debug l) →
       fs (Loader.w s') = fs (Loader.w s2)
       ∧ Loader.yielded s' = Loader.yielded s2
       ∧ (Loader.cache s = None → Loader.cache s' = None)
       ∧ ∃ l, log (Loader.w s') = log (Loader.w s2) ++ l ∧ Forall Log.is_debug l).
  { intros ? (? & ? & ? & ?). repeat split; auto. }
  destruct cached as [cached|]; [|eapply Hfin, Hinit, Hrun].
  destruct (_ || _); [eapply Hfin, Hinit, Hrun|].
  inversion Hrun; subst. repeat split; auto.
Qed.

Lemma try_except_ok {S A B} (f : A → B) (m : Py.M S A) handled h s a s' :
  m s = (Py.Ok a, s') → Py.try_except (f <$> m) handled h s = (Py.Ok (f a), s').
Proof.
  intros E. unfold Py.try_except, fmap, M_fmap, Py.bind, Py.ret. rewrite E. reflexivity.
Qed.

Lemma try_except_handled {S A B} (f : A → B) (m : Py.M S A) handled h s e s' :
  m s = (Py.Raise e, s') → handled e = true →
  Py.try_except (f <$> m) handled h s = h e s'.
Proof.
  intros E He. unfold Py.try_except, fmap, M_fmap, Py.bind, Py.ret.
  rewrite E, He. reflexivity.
Qed.




(** ** The properties above, on the sample world *)

Lemma undigits_digits (p : positive) : Sample.undigits (Sample.digits p) = Some p.
Proof.
  induction p as [p IH|p IH|]; simpl; [rewrite IH..|]; reflexivity.
Qed.

Lemma sample_pickle_round_trip (c : TracesFileCache.shard) :
  pickle_loads Sample.X (pickle_dumps Sample.X c) = Some c.
Proof.
  simpl. unfold Sample.loads, Sample.dumps. rewrite undigits_digits. simpl.
  apply decode_encode.
Qed.

Lemma dump_then_load_witness :
  ((∀ c, pickle_loads Sample.X (pickle_dumps Sample.X c) = Some c)
   ∧ OS.isdir ("/cache/5" +:+ "." +:+ format_int Sample.X (os_getpid Sample.X) +:+ ".tmp")
       Sample.disk = false
   ∧ OS.isdir "/cache/5" Sample.disk = false)
  ∧ ∃ d1, TracesFileCache._dump_dircache Sample.X
            {[ "/data/a" := Sample.file "/data/a" false 0;
               "/data/gone" := Sample.file "/data/gone" false 0 ]} "/cache/5" Sample.disk
          = (Py.Ok tt, d1)
      ∧ ∃ loaded, TracesFileCache._load_dircache Sample.X "/cache/5" d1 = (Py.Ok loaded, d1)
          ∧ loaded !! "/data/gone" = None
          ∧ loaded !! "/data/a"
            = Some (TracesFileCache.without_parent (Sample.file "/data/a" false 0)).
Proof.
  assert (H1 : ∀ c, pickle_loads Sample.X (pickle_dumps Sample.X c) = Some c)
    by exact sample_pickle_round_trip.
  assert (H2 : OS.isdir ("/cache/5" +:+ "." +:+ format_int Sample.X (os_getpid Sample.X)
                           +:+ ".tmp") Sample.disk = false) by (vm_compute; reflexivity).
  assert (H3 : OS.isdir "/cache/5" Sample.disk = false) by (vm_compute; reflexivity).
  split; [auto|].
  destruct (dump_then_load Sample.X
              {[ "/data/a" := Sample.file "/data/a" false 0;
                 "/data/gone" := Sample.file "/data/gone" false 0 ]}
              "/cache/5" Sample.disk H1 H2 H3) as (d1 & Hd & Hframe & _ & Hload).
  exists d1. split; [exact Hd|].
  assert (Hne : ({[ "/data/a" := Sample.file "/data/a" false 0;
                    "/data/gone" := Sample.file "/data/gone" false 0 ]}
                  : TracesFileCache.shard) ≠ ∅) by apply insert_non_empty.
  destruct (Hload Hne d1 eq_refl) as (loaded & Hl & Hgone & Hkept & _).
  exists loaded. split; [exact Hl|].
  assert (Hsame : ∀ path, path ≠ "/cache/5" →
            path ≠ "/cache/5" +:+ "." +:+ format_int Sample.X (os_getpid Sample.X) +:+ ".tmp" →
            OS.isfile path d1 = OS.isfile path Sample.disk).
  { intros path ? ?. unfold OS.isfile. by rewrite Hframe. }
  split.
  - apply Hgone. rewrite Hsame by (vm_compute; discriminate). reflexivity.
  - rewrite Hkept by (rewrite Hsame by (vm_compute; discriminate); reflexivity).
    rewrite lookup_insert_eq. reflexivity.
Defined.






Lemma sample_substitutions :
  filter (λ kv : string * option string, kv.1 ∈ Loader.attribute_keys)
    ({[ "station" := Some "S" ]} : gmap string (option string))
  = {[ "station" := Some "S" ]}.
Proof.
  apply map_filter_singleton_True. cbn [fst]. unfold Loader.attribute_keys.
  apply list_elem_of_further, list_elem_of_here.
Qed.

Lemma sample_load_with_substitutions :
  ∃ tfile s',
    Loader.load_one Sample.X "mseed" (Some Sample.station_pattern) (Some Sample.station_pattern)
      "/data/S1" Sample.start_cached = (Py.Ok tfile, s')
    ∧ TracesFile.traces tfile = [Sample.trace 10 19 false].
Proof.
  eexists _, _. split; [vm_compute; reflexivity|]. reflexivity.
Qed.

Lemma load_one_with_substitutions_witness :
  ∃ tfile s',
    (re_search Sample.X Sample.station_pattern "/data/S1" = Some {[ "station" := Some "S" ]}
     ∧ filter (λ kv : string * option string, kv.1 ∈ Loader.attribute_keys)
         ({[ "station" := Some "S" ]} : gmap string (option string)) ≠ ∅
     ∧ Loader.load_one Sample.X "mseed" (Some Sample.station_pattern) (Some Sample.station_pattern)
         "/data/S1" Sample.start_cached = (Py.Ok tfile, s'))
    ∧ (TracesFileCache.get Sample.X "/data/S1" (Sample.cached, Sample.disk)).1
      = Py.Ok (Some (Sample.file "/data/S1" false 0))
    ∧ TracesFile.mtime (Sample.file "/data/S1" false 0) = Some 17
    ∧ OS.stat_mtime "/data/S1" Sample.disk = (Py.Ok 17, Sample.disk)
    ∧ TracesFile.traces tfile = [Sample.trace 10 19 false]
    ∧ io_load Sample.X Sample.disk "/data/S1" "mseed" false (Some {[ "station" := Some "S" ]})
      = (TracesFile.traces tfile, None)
    ∧ Loader.cache_unchanged Sample.X Sample.disk (Some Sample.cached) (Loader.cache s').
Proof.
  destruct sample_load_with_substitutions as (tfile & s' & H3 & Htr).
  exists tfile, s'.
  assert (H1 : re_search Sample.X Sample.station_pattern "/data/S1"
               = Some {[ "station" := Some "S" ]}) by (vm_compute; reflexivity).
  assert (H2 : filter (λ kv : string * option string, kv.1 ∈ Loader.attribute_keys)
                 ({[ "station" := Some "S" ]} : gmap string (option string)) ≠ ∅).
  { rewrite sample_substitutions. apply insert_non_empty. }
  split; [auto|].
  split; [vm_compute; reflexivity|]. split; [reflexivity|].
  split; [vm_compute; reflexivity|]. split; [exact Htr|].
  destruct (load_one_with_substitutions Sample.X "mseed" (Some Sample.station_pattern)
              Sample.station_pattern "/data/S1" _ Sample.start_cached _ _ H1 H2 H3)
    as (Hfresh & _ & _ & Hcache).
  split; [|exact Hcache].
  destruct (Hfresh tfile eq_refl) as (mtime & _ & _ & Hio).
  rewrite sample_substitutions in Hio. exact Hio.
Defined.

(** ** Rebuilding an aggregate from its children *)

(** C4, on the code.  A full rebuild from a child spanning [[5, 10]]
    followed by an emptied aggregate, whose span is [None], leaves the node
    without a [tmin], although the minimum of the children's [tmin] is [5];
    the maximum is kept.  With the same children in the other order the
    node's [tmin] is [5]. *)
Theorem update_rebuild_after_emptied_child :
  let kids := [TracesGroup.Group (Sample.group 5 10); TracesGroup.Group Sample.emptied] in
  (∃ g, TracesGroup.update kids true (TracesGroup.init None) = (Py.Ok tt, g)
        ∧ TracesGroup.tmin g = None ∧ TracesGroup.tmax g = Some 10%Q)
  ∧ (∃ g, TracesGroup.update (reverse kids) true (TracesGroup.init None) = (Py.Ok tt, g)
          ∧ TracesGroup.tmin g = Some 5%Q ∧ TracesGroup.tmax g = Some 10%Q).
Proof.
  split; (eexists; split; [vm_compute; reflexivity|]; split; reflexivity).
Qed.

Lemma loop_sets (content : list TracesGroup.child) (p : option positive) (n s l c : gset string)
    (i : gset TracesGroup.nslc) (lo hi : option Q) (ht : bool) (k : Z) :
  Py.for_ content (λ c, TracesGroup.absorb_ids c;; TracesGroup.absorb_span c)
    (TracesGroup.mk p (TracesGroup.AsSet n) (TracesGroup.AsSet s) (TracesGroup.AsSet l) (TracesGroup.AsSet c) (TracesGroup.AsSet i) lo hi ht k)
  = (Py.Ok tt,
     TracesGroup.mk p (TracesGroup.AsSet (n ∪ ⋃ (TracesGroup.child_networks <$> content)))
          (TracesGroup.AsSet (s ∪ ⋃ (TracesGroup.child_stations <$> content)))
          (TracesGroup.AsSet (l ∪ ⋃ (TracesGroup.child_locations <$> content)))
          (TracesGroup.AsSet (c ∪ ⋃ (TracesGroup.child_channels <$> content)))
          (TracesGroup.AsSet (i ∪ ⋃ (TracesGroup.child_nslc_ids <$> content)))
          (TracesGroup.span_lo lo content) (TracesGroup.span_hi hi content) ht k).
Proof.
  revert n s l c i lo hi.
  induction content as [|x content IH]; intros n s l c i lo hi.
  - simpl. unfold Py.ret. rewrite !(right_id_L ∅ (∪)). reflexivity.
  - cbn [Py.for_].
    assert (Hx : (TracesGroup.absorb_ids x;; TracesGroup.absorb_span x)
                   (TracesGroup.mk p (TracesGroup.AsSet n) (TracesGroup.AsSet s) (TracesGroup.AsSet l) (TracesGroup.AsSet c) (TracesGroup.AsSet i) lo hi ht k)
                 = (Py.Ok tt,
                    TracesGroup.mk p (TracesGroup.AsSet (n ∪ TracesGroup.child_networks x)) (TracesGroup.AsSet (s ∪ TracesGroup.child_stations x))
                      (TracesGroup.AsSet (l ∪ TracesGroup.child_locations x)) (TracesGroup.AsSet (c ∪ TracesGroup.child_channels x))
                      (TracesGroup.AsSet (i ∪ TracesGroup.child_nslc_ids x))
                      (match lo with None => TracesGroup.child_tmin x | Some _ => Py.min lo (TracesGroup.child_tmin x) end)
                      (match hi with None => TracesGroup.child_tmax x | Some _ => Py.max hi (TracesGroup.child_tmax x) end)
                      ht k)).
    { destruct x; reflexivity. }
    unfold Py.bind at 1. rewrite Hx. rewrite IH.
    simpl. rewrite !(assoc_L (∪)). reflexivity.
Qed.

Lemma small_to_tuple_to_set `{Countable A} (c : TracesGroup.coll A) :
  TracesGroup.to_set (TracesGroup.small_to_tuple c).1 = TracesGroup.to_set c.
Proof.
  unfold TracesGroup.small_to_tuple. case_decide; [|reflexivity].
  destruct c as [s|l]; simpl; [apply list_to_set_elements_L | reflexivity].
Qed.

(** What a full rebuild computes, whatever the children are. *)
Lemma update_rebuild (content : list TracesGroup.child) (g : TracesGroup.t) :
  ∃ g', TracesGroup.update content true g = (Py.Ok tt, g')
    ∧ TracesGroup.to_set (TracesGroup.networks g') = ⋃ (TracesGroup.child_networks <$> content)
    ∧ TracesGroup.to_set (TracesGroup.stations g') = ⋃ (TracesGroup.child_stations <$> content)
    ∧ TracesGroup.to_set (TracesGroup.locations g') = ⋃ (TracesGroup.child_locations <$> content)
    ∧ TracesGroup.to_set (TracesGroup.channels g') = ⋃ (TracesGroup.child_channels <$> content)
    ∧ TracesGroup.to_set (TracesGroup.nslc_ids g') = ⋃ (TracesGroup.child_nslc_ids <$> content)
    ∧ TracesGroup.tmin g' = TracesGroup.span_lo None content
    ∧ TracesGroup.tmax g' = TracesGroup.span_hi None content
    ∧ TracesGroup.parent g' = TracesGroup.parent g
    ∧ TracesGroup.nupdates g' = TracesGroup.nupdates g + 1.
Proof.
  unfold TracesGroup.update, TracesGroup.empty, TracesGroup._convert_small_sets_to_tuples. py_unfold.
  rewrite loop_sets.
  eexists. split; [reflexivity|].
  rewrite !(left_id_L ∅ (∪)).
  repeat match goal with
         | |- context [TracesGroup.small_to_tuple ?c] =>
             let E := fresh "E" in
             pose proof (small_to_tuple_to_set c) as E;
             destruct (TracesGroup.small_to_tuple c); simpl in E
         end.
  simpl. repeat split; assumption.
Qed.

Lemma span_lo_from (content : list TracesGroup.child) (a : Q) :
  Forall (λ c, is_Some (TracesGroup.child_tmin c)) content →
  ∃ m, TracesGroup.span_lo (Some a) content = Some m
    ∧ (m <= a)%Q
    ∧ (∀ c x, c ∈ content → TracesGroup.child_tmin c = Some x → (m <= x)%Q)
    ∧ (m = a ∨ ∃ c, c ∈ content ∧ TracesGroup.child_tmin c = Some m).
Proof.
  revert a. induction content as [|c content IH]; intros a Hall.
  - exists a. split; [reflexivity|]. split; [apply Qle_refl|].
    split; [|left; reflexivity]. intros c x Hc. inversion Hc.
  - apply Forall_cons in Hall as [[x Hx] Hall].
    unfold TracesGroup.span_lo. cbn [foldl]. rewrite Hx. unfold Py.min, Py.lt.
    destruct (Qle_bool a x) eqn:E; cbn [negb].
    + apply Qle_bool_iff in E.
      destruct (IH a Hall) as (m & Hm & Hma & Hlow & Hatt).
      exists m. split; [exact Hm|]. split; [exact Hma|]. split.
      * intros c' x' Hc' Hx'. apply elem_of_cons in Hc' as [->|Hc'].
        -- rewrite Hx in Hx'. inversion Hx'; subst x'. eapply Qle_trans; eassumption.
        -- eapply Hlow; eassumption.
      * destruct Hatt as [->|(c' & Hc' & Hx')]; [left; reflexivity|].
        right. exists c'. split; [apply elem_of_cons; right; exact Hc'|exact Hx'].
    + assert (Hlt : (x < a)%Q).
      { apply Qnot_le_lt. intros Hle. apply Qle_bool_iff in Hle. congruence. }
      destruct (IH x Hall) as (m & Hm & Hmx & Hlow & Hatt).
      exists m. split; [exact Hm|]. split; [lra|]. split.
      * intros c' x' Hc' Hx'. apply elem_of_cons in Hc' as [->|Hc'].
        -- rewrite Hx in Hx'. inversion Hx'; subst x'. exact Hmx.
        -- eapply Hlow; eassumption.
      * right. destruct Hatt as [->|(c' & Hc' & Hx')].
        -- exists c. split; [apply elem_of_cons; left; reflexivity|exact Hx].
        -- exists c'. split; [apply elem_of_cons; right; exact Hc'|exact Hx'].
Qed.

Lemma span_hi_from (content : list TracesGroup.child) (a : Q) :
  Forall (λ c, is_Some (TracesGroup.child_tmax c)) content →
  ∃ m, TracesGroup.span_hi (Some a) content = Some m
    ∧ (a <= m)%Q
    ∧ (∀ c x, c ∈ content → TracesGroup.child_tmax c = Some x → (x <= m)%Q)
    ∧ (m = a ∨ ∃ c, c ∈ content ∧ TracesGroup.child_tmax c = Some m).
Proof.
  revert a. induction content as [|c content IH]; intros a Hall.
  - exists a. split; [reflexivity|]. split; [apply Qle_refl|].
    split; [|left; reflexivity]. intros c x Hc. inversion Hc.
  - apply Forall_cons in Hall as [[x Hx] Hall].
    unfold TracesGroup.span_hi. cbn [foldl]. rewrite Hx. unfold Py.max, Py.lt.
    destruct (Qle_bool x a) eqn:E; cbn [negb].
    + apply Qle_bool_iff in E.
      destruct (IH a Hall) as (m & Hm & Hma & Hlow & Hatt).
      exists m. split; [exact Hm|]. split; [exact Hma|]. split.
      * intros c' x' Hc' Hx'. apply elem_of_cons in Hc' as [->|Hc'].
        -- rewrite Hx in Hx'. inversion Hx'; subst x'. eapply Qle_trans; eassumption.
        -- eapply Hlow; eassumption.
      * destruct Hatt as [->|(c' & Hc' & Hx')]; [left; reflexivity|].
        right. exists c'. split; [apply elem_of_cons; right; exact Hc'|exact Hx'].
    + assert (Hlt : (a < x)%Q).
      { apply Qnot_le_lt. intros Hle. apply Qle_bool_iff in Hle. congruence. }
      destruct (IH x Hall) as (m & Hm & Hmx & Hlow & Hatt).
      exists m. split; [exact Hm|]. split; [lra|]. split.
      * intros c' x' Hc' Hx'. apply elem_of_cons in Hc' as [->|Hc'].
        -- rewrite Hx in Hx'. inversion Hx'; subst x'. exact Hmx.
        -- eapply Hlow; eassumption.
      * right. destruct Hatt as [->|(c' & Hc' & Hx')].
        -- exists c. split; [apply elem_of_cons; left; reflexivity|exact Hx].
        -- exists c'. split; [apply elem_of_cons; right; exact Hc'|exact Hx'].
Qed.

(** A full rebuild from children that all have a time span: the node's
    span is the minimum of their [TracesGroup.tmin] and the maximum of their [TracesGroup.tmax],
    and its lookup sets are the unions of theirs. *)
Lemma update_rebuild_of_spanned_children (content : list TracesGroup.child) (g : TracesGroup.t) :
  content ≠ [] →
  Forall (λ c, is_Some (TracesGroup.child_tmin c) ∧ is_Some (TracesGroup.child_tmax c)) content →
  ∃ g' lo hi, TracesGroup.update content true g = (Py.Ok tt, g')
    ∧ TracesGroup.to_set (TracesGroup.networks g') = ⋃ (TracesGroup.child_networks <$> content)
    ∧ TracesGroup.to_set (TracesGroup.stations g') = ⋃ (TracesGroup.child_stations <$> content)
    ∧ TracesGroup.to_set (TracesGroup.locations g') = ⋃ (TracesGroup.child_locations <$> content)
    ∧ TracesGroup.to_set (TracesGroup.channels g') = ⋃ (TracesGroup.child_channels <$> content)
    ∧ TracesGroup.to_set (TracesGroup.nslc_ids g') = ⋃ (TracesGroup.child_nslc_ids <$> content)
    ∧ TracesGroup.tmin g' = Some lo
    ∧ (∀ c x, c ∈ content → TracesGroup.child_tmin c = Some x → (lo <= x)%Q)
    ∧ (∃ c, c ∈ content ∧ TracesGroup.child_tmin c = Some lo)
    ∧ TracesGroup.tmax g' = Some hi
    ∧ (∀ c x, c ∈ content → TracesGroup.child_tmax c = Some x → (x <= hi)%Q)
    ∧ (∃ c, c ∈ content ∧ TracesGroup.child_tmax c = Some hi).
Proof.
  intros Hne Hall.
  destruct (update_rebuild content g) as (g' & Hu & Hn & Hs & Hl & Hc & Hi & Hlo & Hhi & _).
  destruct content as [|c content]; [done|]. clear Hne.
  apply Forall_cons in Hall as [[[a Ha] [b Hb]] Hall].
  assert (Hall1 : Forall (λ c, is_Some (TracesGroup.child_tmin c)) content)
    by (eapply Forall_impl; [exact Hall|]; intros ? [? _]; assumption).
  assert (Hall2 : Forall (λ c, is_Some (TracesGroup.child_tmax c)) content)
    by (eapply Forall_impl; [exact Hall|]; intros ? [_ ?]; assumption).
  destruct (span_lo_from content a Hall1) as (lo & Elo & Hloa & Hlow & Hlatt).
  destruct (span_hi_from content b Hall2) as (hi & Ehi & Hhib & Hupp & Hhatt).
  unfold TracesGroup.span_lo in Hlo. unfold TracesGroup.span_hi in Hhi. cbn [foldl] in Hlo, Hhi.
  rewrite Ha in Hlo. rewrite Hb in Hhi.
  exists g', lo, hi. split; [exact Hu|]. repeat (split; [assumption|]).
  split; [rewrite Hlo; exact Elo|]. split.
  { intros c' x Hc' Hx. apply elem_of_cons in Hc' as [->|Hc'].
    - rewrite Ha in Hx. inversion Hx; subst. exact Hloa.
    - eapply Hlow; eassumption. }
  split.
  { destruct Hlatt as [->|(c' & Hc' & Hx)].
    - exists c. split; [apply elem_of_cons; left; reflexivity|exact Ha].
    - exists c'. split; [apply elem_of_cons; right; exact Hc'|exact Hx]. }
  split; [rewrite Hhi; exact Ehi|]. split.
  { intros c' x Hc' Hx. apply elem_of_cons in Hc' as [->|Hc'].
    - rewrite Hb in Hx. inversion Hx; subst. exact Hhib.
    - eapply Hupp; eassumption. }
  destruct Hhatt as [->|(c' & Hc' & Hx)].
  - exists c. split; [apply elem_of_cons; left; reflexivity|exact Hb].
  - exists c'. split; [apply elem_of_cons; right; exact Hc'|exact Hx].
Qed.

(** ** The chopper's open files *)















Lemma set_store_same (p : Pile.t) : Pile.set_store (Pile.store p) p = p.
Proof. destruct p; reflexivity. Qed.

Lemma on_file_run {A} (file : positive) (m : Py.M (TracesFile.t * world) A)
    (p : Pile.t) (w : world) f r f' w' :
  Pile.store p !! file = Some f →
  m (f, w) = (r, (f', w')) →
  Pile.on_file file m (p, w) = (r, (Pile.set_store (<[file := f']> (Pile.store p)) p, w')).
Proof.
  intros Hf Hm. unfold Pile.on_file. cbn [fst snd]. rewrite Hf, Hm. reflexivity.
Qed.

















Lemma process_chopped_stamps X chopped degap want wmax wmin tpad tr :
  tr ∈ Pile._process_chopped X chopped degap want wmax wmin tpad →
  Trace.wmin tr = Some wmin ∧ Trace.wmax tr = Some wmax.
Proof.
  unfold Pile._process_chopped. intros (k & -> & _)%list_elem_of_fmap. split; reflexivity.
Qed.









(** ** The i-th call of the generator *)









(** ** The chopper, on the sample pile *)







(** * Further properties of the code *)

(** ** The metadata cache: lookups, insertions and what reaches the disk *)

Lemma put_unfold X p f c (d : OS.fs) :
  TracesFileCache.put X p f (c, d) =
    let cp := TracesFileCache._dircachepath X c p in
    let stored dc :=
      TracesFileCache.mk (TracesFileCache.cachedir c)
        (<[cp := <[p := f]> dc]> (TracesFileCache.dircaches c))
        (TracesFileCache.modified c ∪ {[cp]}) in
    match TracesFileCache.dircaches c !! cp with
    | Some dc => (Py.Ok tt, (stored dc, d))
    | None =>
        if OS.isfile cp d then
          match TracesFileCache._load_dircache X cp d with
          | (Py.Ok dc, _) => (Py.Ok tt, (stored dc, d))
          | (Py.Raise e, _) => (Py.Raise e, (c, d))
          end
        else (Py.Ok tt, (stored ∅, d))
    end.
Proof.
  unfold TracesFileCache.put, TracesFileCache._get_dircache, TracesFileCache.self_,
    TracesFileCache.os_.
  py_unfold. cbn.
  destruct (TracesFileCache.dircaches c !! _) eqn:E; cbn.
  { destruct c; reflexivity. }
  destruct (OS.isfile _ d) eqn:Ef; cbn.
  - destruct (TracesFileCache._load_dircache X _ d) as [[dc|e] d'] eqn:El; cbn;
      apply load_dircache_fs in El as ->; [|destruct c; reflexivity].
    unfold TracesFileCache.set_modified, TracesFileCache.set_dircaches. cbn.
    rewrite insert_insert_eq. reflexivity.
  - unfold TracesFileCache.set_modified, TracesFileCache.set_dircaches. cbn.
    rewrite insert_insert_eq. reflexivity.
Qed.

(** Once the shard of [q] is in memory, a lookup of [q] does not look at
    the disk. *)
Lemma get_memoized X q c dc (d : OS.fs) :
  TracesFileCache.dircaches c !! TracesFileCache._dircachepath X c q = Some dc →
  TracesFileCache.get X q (c, d) = (Py.Ok (dc !! q), (c, d)).
Proof. intros H. rewrite get_unfold. cbv zeta. rewrite H. reflexivity. Qed.

Lemma put_then_get (X : externals) (abspath : string) (tfile : TracesFile.t)
    (c : TracesFileCache.t) (d : OS.fs) (r : Py.outcome unit)
    (c' : TracesFileCache.t) (d' : OS.fs) :
  TracesFileCache.put X abspath tfile (c, d) = (r, (c', d')) →
  d' = d
  ∧ match r with
    | Py.Ok _ =>
        (∀ d2, TracesFileCache.get X abspath (c', d2) = (Py.Ok (Some tfile), (c', d2)))
        ∧ TracesFileCache._dircachepath X c abspath ∈ TracesFileCache.modified c'
        ∧ (∀ q, q ≠ abspath →
             (TracesFileCache.get X q (c', d)).1 = (TracesFileCache.get X q (c, d)).1)
    | Py.Raise e =>
        c' = c ∧ TracesFileCache.get X abspath (c, d) = (Py.Raise e, (c, d))
    end.
Proof.
  rewrite put_unfold. cbv zeta.
  set (cp := TracesFileCache._dircachepath X c abspath).
  assert (Hok : ∀ dc,
    (TracesFileCache.dircaches c !! cp = Some dc
     ∨ (TracesFileCache.dircaches c !! cp = None ∧ OS.isfile cp d = true
        ∧ TracesFileCache._load_dircache X cp d = (Py.Ok dc, d))
     ∨ (TracesFileCache.dircaches c !! cp = None ∧ OS.isfile cp d = false ∧ dc = ∅)) →
    let c1 := TracesFileCache.mk (TracesFileCache.cachedir c)
                (<[cp := <[abspath := tfile]> dc]> (TracesFileCache.dircaches c))
                (TracesFileCache.modified c ∪ {[cp]}) in
    (∀ d2, TracesFileCache.get X abspath (c1, d2) = (Py.Ok (Some tfile), (c1, d2)))
    ∧ cp ∈ TracesFileCache.modified c1
    ∧ (∀ q, q ≠ abspath →
         (TracesFileCache.get X q (c1, d)).1 = (TracesFileCache.get X q (c, d)).1)).
  { intros dc Hdc c1. split; [|split].
    - intros d2. erewrite get_memoized.
      + rewrite lookup_insert_eq. reflexivity.
      + change (TracesFileCache._dircachepath X c1 abspath) with cp.
        unfold c1. simpl. apply lookup_insert_eq.
    - unfold c1. simpl. apply elem_of_union_r, elem_of_singleton. reflexivity.
    - intros q Hq. rewrite !get_unfold. cbv zeta.
      change (TracesFileCache._dircachepath X c1 q) with (TracesFileCache._dircachepath X c q).
      set (cq := TracesFileCache._dircachepath X c q).
      unfold c1 at 1. simpl.
      destruct (decide (cp = cq)) as [Heq|Hne].
      + rewrite <- Heq, lookup_insert_eq. simpl. rewrite lookup_insert_ne by congruence.
        destruct Hdc as [H|[(H & Hf & Hl)|(H & Hf & ->)]]; rewrite H.
        * reflexivity.
        * rewrite Hf, Hl. reflexivity.
        * rewrite Hf. reflexivity.
      + rewrite lookup_insert_ne by exact Hne.
        destruct (TracesFileCache.dircaches c !! cq); [reflexivity|].
        destruct (OS.isfile cq d); [|reflexivity].
        destruct (TracesFileCache._load_dircache X cq d) as [[?|?] ?]; reflexivity. }
  destruct (TracesFileCache.dircaches c !! cp) as [dc|] eqn:E.
  { intros [= <- <- <-]. split; [reflexivity|]. apply Hok. left. reflexivity. }
  destruct (OS.isfile cp d) eqn:Ef.
  - destruct (TracesFileCache._load_dircache X cp d) as [[dc|e] d1] eqn:El;
      pose proof (load_dircache_fs _ _ _ _ _ El) as ->.
    + intros [= <- <- <-]. split; [reflexivity|]. apply Hok. right. left. done.
    + intros [= <- <- <-]. split; [reflexivity|]. split; [reflexivity|].
      rewrite get_unfold. cbv zeta. fold cp. rewrite E, Ef, El. reflexivity.
  - intros [= <- <- <-]. split; [reflexivity|]. apply Hok. right. right. done.
Qed.

(** After a successful lookup the shard is in memory. *)
Lemma get_ok_memoized X q c (d : OS.fs) v c' d' :
  TracesFileCache.get X q (c, d) = (Py.Ok v, (c', d')) →
  ∃ dc, TracesFileCache.dircaches c' !! TracesFileCache._dircachepath X c q = Some dc
        ∧ v = dc !! q
        ∧ TracesFileCache.cachedir c' = TracesFileCache.cachedir c.
Proof.
  rewrite get_unfold. cbv zeta.
  set (cp := TracesFileCache._dircachepath X c q).
  destruct (TracesFileCache.dircaches c !! cp) as [dc|] eqn:E.
  { intros [= <- <- <-]. eauto. }
  destruct (OS.isfile cp d).
  - destruct (TracesFileCache._load_dircache X cp d) as [[dc|e] d1]; [|discriminate].
    intros [= <- <- <-]. exists dc. simpl. rewrite lookup_insert_eq. done.
  - intros [= <- <- <-]. exists ∅. simpl. rewrite lookup_insert_eq. done.
Qed.

(** X4.  [put] does not touch the disk.  When it returns, [get] of the same
    path on the resulting cache returns the entry put, whatever the disk
    holds by then, the shard of the path is marked modified, and [get] of
    any other path answers as before.  When it raises, the cache is
    unchanged and [get] of the path raises the same exception. *)
Theorem cache_put_then_get (X : externals) (abspath : string) (tfile : TracesFile.t)
    (c : TracesFileCache.t) (d : OS.fs) (r : Py.outcome unit)
    (c' : TracesFileCache.t) (d' : OS.fs) :
  TracesFileCache.put X abspath tfile (c, d) = (r, (c', d')) →
  d' = d
  ∧ match r with
    | Py.Ok _ =>
        (∀ d2, TracesFileCache.get X abspath (c', d2) = (Py.Ok (Some tfile), (c', d2)))
        ∧ TracesFileCache._dircachepath X c abspath ∈ TracesFileCache.modified c'
        ∧ (∀ q, q ≠ abspath →
             (TracesFileCache.get X q (c', d)).1 = (TracesFileCache.get X q (c, d)).1)
    | Py.Raise e =>
        c' = c ∧ TracesFileCache.get X abspath (c, d) = (Py.Raise e, (c, d))
    end.
Proof. exact (put_then_get X abspath tfile c d r c' d'). Qed.

(** X5.  [get] never writes: the disk and the set of modified shards are
    unchanged.  It memoizes: once it has returned, the same [get] on the
    resulting cache returns the same answer and leaves that cache as it
    is, whatever the disk holds; when it raises the cache is unchanged. *)
Theorem cache_get_reads_only (X : externals) (q : string) (c : TracesFileCache.t)
    (d : OS.fs) (r : Py.outcome (option TracesFile.t)) (c' : TracesFileCache.t)
    (d' : OS.fs) :
  TracesFileCache.get X q (c, d) = (r, (c', d')) →
  d' = d
  ∧ TracesFileCache.modified c' = TracesFileCache.modified c
  ∧ match r with
    | Py.Ok v => ∀ d2, TracesFileCache.get X q (c', d2) = (Py.Ok v, (c', d2))
    | Py.Raise _ => c' = c
    end.
Proof.
  rewrite get_unfold. cbv zeta.
  set (cp := TracesFileCache._dircachepath X c q).
  assert (Hmemo : ∀ dc d2,
    TracesFileCache.get X q (TracesFileCache.memoized cp dc c, d2)
    = (Py.Ok (dc !! q), (TracesFileCache.memoized cp dc c, d2))).
  { intros dc d2. apply get_memoized.
    change (TracesFileCache._dircachepath X (TracesFileCache.memoized cp dc c) q) with cp.
    unfold TracesFileCache.memoized. simpl. apply lookup_insert_eq. }
  destruct (TracesFileCache.dircaches c !! cp) as [dc|] eqn:E.
  { intros [= <- <- <-]. split; [reflexivity|]. split; [reflexivity|].
    intros d2. apply get_memoized. exact E. }
  destruct (OS.isfile cp d) eqn:Ef.
  - destruct (TracesFileCache._load_dircache X cp d) as [[dc|e] d1] eqn:El.
    + intros [= <- <- <-]. split; [reflexivity|]. split; [reflexivity|]. apply Hmemo.
    + intros [= <- <- <-]. done.
  - intros [= <- <- <-]. split; [reflexivity|]. split; [reflexivity|]. apply Hmemo.
Qed.


Lemma append_length (a b : string) :
  String.length (a +:+ b) = (String.length a + String.length b)%nat.
Proof. induction a as [|c a IH]; simpl; [reflexivity|]. rewrite IH. reflexivity. Qed.

Lemma tmp_name_differs (a b : string) : a +:+ "." +:+ b ≠ a.
Proof.
  intros H. apply (f_equal String.length) in H.
  rewrite append_length in H. simpl in H. lia.
Qed.

(** What one shard's dump leaves on the disk. *)
Lemma dump_dircache_ok (X : externals) (dc : TracesFileCache.shard) (cp : string)
    (d : OS.fs) :
  let tmp := cp +:+ "." +:+ format_int X (os_getpid X) +:+ ".tmp" in
  OS.isdir cp d = false → OS.isdir tmp d = false →
  ∃ d1, TracesFileCache._dump_dircache X dc cp d = (Py.Ok tt, d1)
    ∧ (∀ path, path ≠ cp → path ≠ tmp → d1 !! path = d !! path)
    ∧ d1 !! cp = (if decide (dc = ∅) then None
                  else Some (OS.File (time_now X)
                               (pickle_dumps X (TracesFileCache.without_parent <$> dc))))
    ∧ (∀ path, OS.isdir path d1 = OS.isdir path d).
Proof.
  intros tmp Hcp Htmp.
  assert (Hne : tmp ≠ cp) by apply tmp_name_differs.
  destruct (decide (dc = ∅)) as [->|Hdc].
  - rewrite dump_empty. unfold OS.isdir in Hcp.
    destruct (d !! cp) as [[m b|m]|] eqn:E; try discriminate.
    + eexists. split; [reflexivity|].
      split; [intros path ? _; by apply lookup_delete_ne|].
      split; [apply lookup_delete_eq|].
      intros path. unfold OS.isdir. destruct (decide (path = cp)) as [->|Hp].
      * rewrite lookup_delete_eq, E. reflexivity.
      * rewrite lookup_delete_ne by congruence. reflexivity.
    + eexists. split; [reflexivity|]. split; [done|]. split; [exact E|]. done.
  - rewrite (dump_nonempty X dc cp d Hdc Htmp Hcp). fold tmp.
    eexists. split; [reflexivity|].
    split; [intros path ? ?; by rewrite lookup_insert_ne, lookup_delete_ne, lookup_insert_ne|].
    split; [apply lookup_insert_eq|].
    intros path. unfold OS.isdir in *. destruct (decide (path = cp)) as [->|Hp].
    + rewrite lookup_insert_eq. destruct (d !! cp) as [[?|?]|]; done.
    + rewrite lookup_insert_ne by congruence.
      destruct (decide (path = tmp)) as [->|Hp'].
      * rewrite lookup_delete_eq. destruct (d !! tmp) as [[?|?]|]; done.
      * rewrite lookup_delete_ne, lookup_insert_ne by congruence. reflexivity.
Qed.

Lemma dump_loop (X : externals) (c : TracesFileCache.t) (l : list string) :
  let tmp cp := cp +:+ "." +:+ format_int X (os_getpid X) +:+ ".tmp" in
  let body cachepath : Py.M (TracesFileCache.t * OS.fs) unit :=
    self ← TracesFileCache.self_ Py.get;
    match TracesFileCache.dircaches self !! cachepath with
    | Some dc => TracesFileCache.os_ (TracesFileCache._dump_dircache X dc cachepath)
    | None => Py.raise Py.KeyError
    end in
  NoDup l →
  ∀ d,
    (∀ cp, cp ∈ l → is_Some (TracesFileCache.dircaches c !! cp)
                     ∧ OS.isdir cp d = false ∧ OS.isdir (tmp cp) d = false) →
    ∃ d', Py.for_ l body (c, d) = (Py.Ok tt, (c, d'))
      ∧ (∀ path, OS.isdir path d' = OS.isdir path d)
      ∧ (∀ path, (∀ cp, cp ∈ l → path ≠ cp ∧ path ≠ tmp cp) → d' !! path = d !! path)
      ∧ (∀ cp dc, cp ∈ l → TracesFileCache.dircaches c !! cp = Some dc →
           (∀ cp2, cp2 ∈ l → cp ≠ tmp cp2) →
           d' !! cp = (if decide (dc = ∅) then None
                       else Some (OS.File (time_now X)
                                    (pickle_dumps X (TracesFileCache.without_parent <$> dc))))).
Proof.
  intros tmp body. induction l as [|cp0 l IH]; intros Hnd d Hpre.
  { exists d. split; [reflexivity|]. split; [done|]. split; [done|].
    intros cp dc Hin. inversion Hin. }
  apply NoDup_cons in Hnd as [Hnotin Hnd].
  destruct (Hpre cp0) as ([dc0 Hdc0] & Hcp0 & Htmp0); [left|].
  destruct (dump_dircache_ok X dc0 cp0 d Hcp0 Htmp0) as (d1 & Hdump & Hframe1 & Hat1 & Hdir1).
  assert (Hbody : body cp0 (c, d) = (Py.Ok tt, (c, d1))).
  { unfold body, TracesFileCache.self_, TracesFileCache.os_. py_unfold. cbn.
    rewrite Hdc0. cbn. rewrite Hdump. destruct c; reflexivity. }
  destruct (IH Hnd d1) as (d' & Hrun & Hdir & Hframe & Hat).
  { intros cp Hin. destruct (Hpre cp) as (? & ? & ?); [right; exact Hin|].
    rewrite !Hdir1. done. }
  exists d'. split; [|split; [|split]].
  - cbn [Py.for_]. unfold Py.bind at 1. rewrite Hbody. exact Hrun.
  - intros path. rewrite Hdir. apply Hdir1.
  - intros path Hp. rewrite Hframe.
    + destruct (Hp cp0) as [? ?]; [left|]. apply Hframe1; assumption.
    + intros cp Hin. apply Hp. right. exact Hin.
  - intros cp dc Hin Hdc Hsep. apply elem_of_cons in Hin as [->|Hin].
    + rewrite Hframe.
      * rewrite Hdc0 in Hdc. inversion Hdc; subst dc0. exact Hat1.
      * intros cp2 Hin2. split.
        -- intros ->. contradiction.
        -- apply Hsep. right. exact Hin2.
    + apply Hat; [exact Hin|exact Hdc|].
      intros cp2 Hin2. apply Hsep. right. exact Hin2.
Qed.

Lemma dump_modified_ok (X : externals) (c : TracesFileCache.t) (d : OS.fs) :
  let tmp cp := cp +:+ "." +:+ format_int X (os_getpid X) +:+ ".tmp" in
  (∀ cp, cp ∈ TracesFileCache.modified c →
         is_Some (TracesFileCache.dircaches c !! cp)
         ∧ OS.isdir cp d = false ∧ OS.isdir (tmp cp) d = false) →
  ∃ d', TracesFileCache.dump_modified X (c, d)
        = (Py.Ok tt, (TracesFileCache.set_modified ∅ c, d'))
    ∧ (∀ path, (∀ cp, cp ∈ TracesFileCache.modified c → path ≠ cp ∧ path ≠ tmp cp) →
               d' !! path = d !! path)
    ∧ (∀ cp dc, cp ∈ TracesFileCache.modified c →
         TracesFileCache.dircaches c !! cp = Some dc →
         (∀ cp2, cp2 ∈ TracesFileCache.modified c → cp ≠ tmp cp2) →
         d' !! cp = (if decide (dc = ∅) then None
                     else Some (OS.File (time_now X)
                                  (pickle_dumps X (TracesFileCache.without_parent <$> dc))))).
Proof.
  intros tmp Hpre.
  destruct (dump_loop X c (elements (TracesFileCache.modified c)) (NoDup_elements _) d)
    as (d' & Hrun & _ & Hframe & Hat).
  { intros cp Hin%elem_of_elements. apply Hpre, Hin. }
  exists d'. split; [|split].
  - unfold TracesFileCache.dump_modified.
    erewrite bind_ok by reflexivity. cbn [fst].
    erewrite bind_ok by exact Hrun. reflexivity.
  - intros path Hp. apply Hframe. intros cp Hin%elem_of_elements. apply Hp, Hin.
  - intros cp dc Hin Hdc Hsep. apply Hat; [apply elem_of_elements, Hin|exact Hdc|].
    intros cp2 Hin2%elem_of_elements. apply Hsep, Hin2.
Qed.


(** X6.  [dump_modified], when every modified shard is in memory and
    neither its file nor its temporary file is a directory, returns and
    leaves no shard marked modified.  It touches only the files of the
    modified shards and their temporary files.  Afterwards the file of a
    modified shard holds the pickled shard, the entries without their
    parent, stamped with the time of the dump; if the shard is empty
    there is no such file. *)
Theorem dump_modified_writes_shards (X : externals) (c : TracesFileCache.t) (d : OS.fs) :
  let tmp cp := cp +:+ "." +:+ format_int X (os_getpid X) +:+ ".tmp" in
  (∀ cp, cp ∈ TracesFileCache.modified c →
         is_Some (TracesFileCache.dircaches c !! cp)
         ∧ OS.isdir cp d = false ∧ OS.isdir (tmp cp) d = false) →
  ∃ d', TracesFileCache.dump_modified X (c, d)
        = (Py.Ok tt, (TracesFileCache.set_modified ∅ c, d'))
    ∧ (∀ path, (∀ cp, cp ∈ TracesFileCache.modified c → path ≠ cp ∧ path ≠ tmp cp) →
               d' !! path = d !! path)
    ∧ (∀ cp dc, cp ∈ TracesFileCache.modified c →
         TracesFileCache.dircaches c !! cp = Some dc →
         (∀ cp2, cp2 ∈ TracesFileCache.modified c → cp ≠ tmp cp2) →
         d' !! cp = (if decide (dc = ∅) then None
                     else Some (OS.File (time_now X)
                                  (pickle_dumps X (TracesFileCache.without_parent <$> dc))))).
Proof. exact (dump_modified_ok X c d). Qed.

Lemma dump_nothing (X : externals) (c : TracesFileCache.t) (d : OS.fs) :
  TracesFileCache.modified c = ∅ →
  TracesFileCache.dump_modified X (c, d) = (Py.Ok tt, (TracesFileCache.set_modified ∅ c, d)).
Proof.
  intros H. unfold TracesFileCache.dump_modified.
  erewrite bind_ok by reflexivity. cbn [fst]. rewrite H, elements_empty. reflexivity.
Qed.

(** A new cache object reads an entry back from the shard's file. *)
Lemma fresh_get_after_dump (X : externals) (abspath : string) (tfile : TracesFile.t)
    (sh : TracesFileCache.shard) (fresh : TracesFileCache.t) (d2 : OS.fs) (now : Z) :
  let cp := TracesFileCache._dircachepath X fresh abspath in
  pickle_loads X (pickle_dumps X (TracesFileCache.without_parent <$> sh))
  = Some (TracesFileCache.without_parent <$> sh) →
  TracesFileCache.dircaches fresh = ∅ →
  d2 !! cp = Some (OS.File now (pickle_dumps X (TracesFileCache.without_parent <$> sh))) →
  sh !! abspath = Some tfile →
  OS.isfile abspath d2 = true →
  ∃ dc, TracesFileCache.get X abspath (fresh, d2)
        = (Py.Ok (Some (TracesFileCache.without_parent tfile)),
           (TracesFileCache.memoized cp dc fresh, d2)).
Proof.
  intros cp Hrt Hnone Hd2 Hsh Hfile.
  rewrite get_unfold. cbv zeta. fold cp. rewrite Hnone, lookup_empty.
  assert (Hf : OS.isfile cp d2 = true) by (unfold OS.isfile; rewrite Hd2; reflexivity).
  rewrite Hf. rewrite (load_pickled X cp d2 _ _ Hd2 Hrt).
  eexists. f_equal. f_equal.
  apply map_lookup_filter_Some. split.
  - rewrite lookup_fmap, Hsh. reflexivity.
  - exact Hfile.
Qed.

(** X7.  Round trip through the disk.  An entry put into a cache that had
    nothing to write, then dumped, is found by [get] of any new cache
    object for the same directory that reads the resulting disk: it gets
    the entry, without its parent.  The dump leaves every other file as
    it was.  (Pickling round-trips, the shard's file and temporary file
    are no directories, the data file exists.) *)
Theorem cache_survives_dump (X : externals) (abspath : string) (tfile : TracesFile.t)
    (c c1 : TracesFileCache.t) (d : OS.fs) :
  let cp := TracesFileCache._dircachepath X c abspath in
  let tmp := cp +:+ "." +:+ format_int X (os_getpid X) +:+ ".tmp" in
  (∀ sh, pickle_loads X (pickle_dumps X sh) = Some sh) →
  TracesFileCache.modified c = ∅ →
  TracesFileCache.put X abspath tfile (c, d) = (Py.Ok tt, (c1, d)) →
  OS.isdir cp d = false → OS.isdir tmp d = false →
  OS.isfile abspath d = true → abspath ≠ cp → abspath ≠ tmp →
  ∃ d2, TracesFileCache.dump_modified X (c1, d)
        = (Py.Ok tt, (TracesFileCache.set_modified ∅ c1, d2))
    ∧ (∀ path, path ≠ cp → path ≠ tmp → d2 !! path = d !! path)
    ∧ ∀ fresh, TracesFileCache.cachedir fresh = TracesFileCache.cachedir c →
               TracesFileCache.dircaches fresh = ∅ →
        ∃ fresh', TracesFileCache.get X abspath (fresh, d2)
                  = (Py.Ok (Some (TracesFileCache.without_parent tfile)), (fresh', d2)).
Proof.
  intros cp tmp Hrt Hmod Hput Hcp Htmp Hfile Hne1 Hne2.
  rewrite put_unfold in Hput. cbv zeta in Hput. fold cp in Hput.
  assert (∃ dc, c1 = TracesFileCache.mk (TracesFileCache.cachedir c)
                       (<[cp := <[abspath := tfile]> dc]> (TracesFileCache.dircaches c))
                       (TracesFileCache.modified c ∪ {[cp]})) as [dc ->].
  { destruct (TracesFileCache.dircaches c !! cp) as [dc|].
    - exists dc. congruence.
    - destruct (OS.isfile cp d).
      + destruct (TracesFileCache._load_dircache X cp d) as [[dc|e] ?]; [|discriminate].
        exists dc. congruence.
      + exists ∅. congruence. }
  clear Hput. rewrite Hmod, (left_id_L ∅ (∪)).
  set (c1 := TracesFileCache.mk _ _ _).
  assert (Hsh : <[abspath := tfile]> dc ≠ (∅ : TracesFileCache.shard))
    by apply insert_non_empty.
  destruct (dump_modified_ok X c1 d) as (d2 & Hrun & Hframe & Hat).
  { intros cp' Hin. unfold c1 in Hin. cbn [TracesFileCache.modified] in Hin.
    apply elem_of_singleton in Hin as ->. split; [|done].
    unfold c1. simpl. rewrite lookup_insert_eq. eauto. }
  exists d2. split; [exact Hrun|]. split.
  { intros path H1 H2. apply Hframe. intros cp' Hin. unfold c1 in Hin. cbn [TracesFileCache.modified] in Hin.
    apply elem_of_singleton in Hin as ->.
    done. }
  intros fresh Hdir Hnone.
  assert (Hcp' : TracesFileCache._dircachepath X fresh abspath = cp).
  { unfold cp, TracesFileCache._dircachepath. rewrite Hdir. reflexivity. }
  assert (Hd2 : d2 !! cp = Some (OS.File (time_now X)
                   (pickle_dumps X (TracesFileCache.without_parent <$> <[abspath := tfile]> dc)))).
  { rewrite (Hat cp (<[abspath := tfile]> dc)).
    - rewrite decide_False by exact Hsh. reflexivity.
    - unfold c1. cbn [TracesFileCache.modified]. apply elem_of_singleton. reflexivity.
    - unfold c1. simpl. apply lookup_insert_eq.
    - intros cp2 Hin. unfold c1 in Hin. cbn [TracesFileCache.modified] in Hin.
      apply elem_of_singleton in Hin as ->. intros E.
      symmetry in E. revert E. apply tmp_name_differs. }
  rewrite get_unfold. cbv zeta. rewrite Hcp', Hnone, lookup_empty.
  assert (Hf : OS.isfile cp d2 = true) by (unfold OS.isfile; rewrite Hd2; reflexivity).
  rewrite Hf. rewrite (load_pickled X cp d2 _ _ Hd2 (Hrt _)).
  eexists. f_equal. f_equal.
  apply map_lookup_filter_Some. split.
  - rewrite lookup_fmap, lookup_insert_eq. reflexivity.
  - simpl. unfold OS.isfile. rewrite Hframe; [exact Hfile|].
    intros cp' Hin. unfold c1 in Hin. cbn [TracesFileCache.modified] in Hin.
    apply elem_of_singleton in Hin as ->. done.
Qed.

(** ** The loader and the cache: hits and misses *)

Lemma world_stat_ok filename (s : Loader.state) mtime :
  OS.stat_mtime filename (fs (Loader.w s)) = (Py.Ok mtime, fs (Loader.w s)) →
  Loader.world_ (os (OS.stat_mtime filename)) s = (Py.Ok mtime, s).
Proof.
  intros H. unfold Loader.world_, os, Py.zoom. rewrite H.
  rewrite set_fs_same. destruct s; reflexivity.
Qed.

Lemma with_cache_run {A} (dflt : A) (m : Py.M (TracesFileCache.t * OS.fs) A)
    (s : Loader.state) c r c' :
  Loader.cache s = Some c →
  m (c, fs (Loader.w s)) = (r, (c', fs (Loader.w s))) →
  Loader.with_cache dflt m s = (r, Loader.mkState (Some c') (Loader.w s) (Loader.yielded s)).
Proof.
  intros Hc Hm. unfold Loader.with_cache. rewrite Hc, Hm, set_fs_same. reflexivity.
Qed.

Lemma no_substitutions_run X fa regex filename substitutions (s : Loader.state) :
  Loader.no_substitutions X regex filename substitutions →
  (match regex with
   | Some rx =>
       match re_search X rx filename with
       | None => Py.raise (Py.FilenameAttributeError (default EmptyString fa) filename)
       | Some groupdict =>
           mret (Some (filter (λ kv : string * option string,
                                 kv.1 ∈ Loader.attribute_keys) groupdict))
       end
   | None => mret None
   end : Py.M Loader.state _) s = (Py.Ok substitutions, s)
  ∧ Loader.truthy substitutions = false.
Proof.
  intros [[-> ->]|(rx & gd & -> & Hre & -> & He)].
  - split; reflexivity.
  - rewrite Hre. split; [reflexivity|]. unfold Loader.truthy.
    apply bool_decide_eq_false. intros H. apply H. exact He.
Qed.

Lemma load_one_hit (X : externals) (fileformat : string)
    (filename_attributes regex : option string) (filename : string)
    (substitutions : option TracesFile.substitutions_t)
    (s : Loader.state) (c c' : TracesFileCache.t) (cached : TracesFile.t) (mtime : Z) :
  Loader.no_substitutions X regex filename substitutions →
  Loader.cache s = Some c →
  OS.stat_mtime filename (fs (Loader.w s)) = (Py.Ok mtime, fs (Loader.w s)) →
  TracesFileCache.get X (os_path_abspath X filename) (c, fs (Loader.w s))
  = (Py.Ok (Some cached), (c', fs (Loader.w s))) →
  TracesFile.mtime cached = Some mtime →
  Loader.load_one X fileformat filename_attributes regex filename s
  = (Py.Ok cached, Loader.mkState (Some c') (Loader.w s) (Loader.yielded s))
  ∧ TracesFileCache.modified c' = TracesFileCache.modified c.
Proof.
  intros Hsub Hc Hstat Hget Hm.
  destruct (no_substitutions_run X filename_attributes regex filename substitutions s Hsub)
    as [Hrun Hfalse].
  split.
  - unfold Loader.load_one.
    erewrite bind_ok by exact Hrun.
    erewrite bind_ok by (apply world_stat_ok; exact Hstat).
    erewrite bind_ok by (eapply with_cache_run; [exact Hc|exact Hget]).
    rewrite Hfalse, orb_false_r.
    rewrite bool_decide_eq_false_2; [reflexivity|]. intros H. apply H. exact Hm.
  - pose proof (get_agrees _ _ _ _ _ _ _ Hget) as (_ & ? & _). assumption.
Qed.

(** X10.  A cache hit.  When the cache has an entry for the file whose
    [mtime] is the one [stat] gives, and no attribute is substituted, the
    loader's attempt returns the cached entry: the file is not read,
    nothing is logged, the disk is unchanged and no shard is marked
    modified. *)
Theorem load_one_cache_hit (X : externals) (fileformat : string)
    (filename_attributes regex : option string) (filename : string)
    (substitutions : option TracesFile.substitutions_t)
    (s : Loader.state) (c c' : TracesFileCache.t) (cached : TracesFile.t) (mtime : Z) :
  Loader.no_substitutions X regex filename substitutions →
  Loader.cache s = Some c →
  OS.stat_mtime filename (fs (Loader.w s)) = (Py.Ok mtime, fs (Loader.w s)) →
  TracesFileCache.get X (os_path_abspath X filename) (c, fs (Loader.w s))
  = (Py.Ok (Some cached), (c', fs (Loader.w s))) →
  TracesFile.mtime cached = Some mtime →
  Loader.load_one X fileformat filename_attributes regex filename s
  = (Py.Ok cached, Loader.mkState (Some c') (Loader.w s) (Loader.yielded s))
  ∧ TracesFileCache.modified c' = TracesFileCache.modified c.
Proof. apply load_one_hit. Qed.

Lemma load_one_miss (X : externals) (fileformat : string)
    (filename_attributes regex : option string) (filename : string)
    (substitutions : option TracesFile.substitutions_t)
    (s : Loader.state) (c c1 : TracesFileCache.t) (found : option TracesFile.t)
    (mtime : Z) (r : Py.outcome TracesFile.t) (s' : Loader.state) :
  let abspath := os_path_abspath X filename in
  let cp := TracesFileCache._dircachepath X c abspath in
  Loader.no_substitutions X regex filename substitutions →
  Loader.cache s = Some c →
  OS.stat_mtime filename (fs (Loader.w s)) = (Py.Ok mtime, fs (Loader.w s)) →
  TracesFileCache.get X abspath (c, fs (Loader.w s)) = (Py.Ok found, (c1, fs (Loader.w s))) →
  (∀ cached, found = Some cached → TracesFile.mtime cached ≠ Some mtime) →
  Loader.load_one X fileformat filename_attributes regex filename s = (r, s') →
  TracesFileIO.init X None abspath fileformat substitutions (Some mtime) (Loader.w s)
  = (r, Loader.w s')
  ∧ Loader.yielded s' = Loader.yielded s
  ∧ match r with
    | Py.Ok tfile =>
        ∃ dc, TracesFileCache.dircaches c1 !! cp = Some dc
          ∧ Loader.cache s'
            = Some (TracesFileCache.mk (TracesFileCache.cachedir c1)
                      (<[cp := <[abspath := tfile]> dc]> (TracesFileCache.dircaches c1))
                      (TracesFileCache.modified c1 ∪ {[cp]}))
    | Py.Raise _ => Loader.cache s' = Some c1
    end.
Proof.
  intros abspath cp Hsub Hc Hstat Hget Hstale Hrun.
  destruct (no_substitutions_run X filename_attributes regex filename substitutions s Hsub)
    as [Hsubst Hfalse].
  unfold Loader.load_one in Hrun. fold abspath in Hrun.
  erewrite bind_ok in Hrun by exact Hsubst.
  erewrite bind_ok in Hrun by (apply world_stat_ok; exact Hstat).
  erewrite bind_ok in Hrun by (eapply with_cache_run; [exact Hc|exact Hget]).
  set (s1 := Loader.mkState (Some c1) (Loader.w s) (Loader.yielded s)) in *.
  assert (Hinit : (Loader.world_ (TracesFileIO.init X None abspath fileformat
                     substitutions (Some mtime))
                   ≫= λ tfile0, Loader.with_cache () (TracesFileCache.put X abspath tfile0)
                   ≫= λ _, mret tfile0) s1 = (r, s')).
  { rewrite Hfalse in Hrun. cbn [negb] in Hrun. destruct found as [cached|]; [|exact Hrun].
    rewrite orb_false_r in Hrun.
    rewrite bool_decide_eq_true_2 in Hrun by (apply Hstale; reflexivity). exact Hrun. }
  clear Hrun.
  apply bind_inv in Hinit as [(e & Hi & ->)|(tfile & s2 & Hi & Hrun)];
    apply world_inv in Hi as (w2 & Hi & ->).
  { simpl. done. }
  pose proof (init_frame _ _ _ _ _ _ _ _ _ Hi) as (Hfs & _). simpl in Hi, Hfs.
  destruct (get_ok_memoized _ _ _ _ _ _ _ Hget) as (dc & Hdc & _ & Hdir).
  assert (Hcp : TracesFileCache._dircachepath X c1 abspath = cp).
  { unfold cp, TracesFileCache._dircachepath. rewrite Hdir. reflexivity. }
  fold cp in Hdc.
  erewrite bind_ok in Hrun.
  2:{ eapply with_cache_run; [reflexivity|]. rewrite put_unfold. cbv zeta.
      rewrite Hcp. cbn [Loader.cache Loader.w]. rewrite Hdc. reflexivity. }
  inversion Hrun; subst r s'. clear Hrun. cbn [Loader.w Loader.yielded Loader.cache].
  split; [exact Hi|]. split; [reflexivity|].
  exists dc. split; [exact Hdc|reflexivity].
Qed.

(** X11.  A cache miss.  When the cache has no entry for the file, or one
    with another [mtime], the loader's attempt is the constructor's run on
    the disk, with the [mtime] of [stat].  If that returns, the new file has
    been put into the cache, where [get] finds it, and its shard is marked
    modified; if it raises, the cache is as the lookup left it.  Nothing
    is yielded by the attempt itself. *)
Theorem load_one_cache_miss (X : externals) (fileformat : string)
    (filename_attributes regex : option string) (filename : string)
    (substitutions : option TracesFile.substitutions_t)
    (s : Loader.state) (c c1 : TracesFileCache.t) (found : option TracesFile.t)
    (mtime : Z) (r : Py.outcome TracesFile.t) (s' : Loader.state) :
  let abspath := os_path_abspath X filename in
  Loader.no_substitutions X regex filename substitutions →
  Loader.cache s = Some c →
  OS.stat_mtime filename (fs (Loader.w s)) = (Py.Ok mtime, fs (Loader.w s)) →
  TracesFileCache.get X abspath (c, fs (Loader.w s)) = (Py.Ok found, (c1, fs (Loader.w s))) →
  (∀ cached, found = Some cached → TracesFile.mtime cached ≠ Some mtime) →
  Loader.load_one X fileformat filename_attributes regex filename s = (r, s') →
  TracesFileIO.init X None abspath fileformat substitutions (Some mtime) (Loader.w s)
  = (r, Loader.w s')
  ∧ Loader.yielded s' = Loader.yielded s
  ∧ match r with
    | Py.Ok tfile =>
        ∃ c', Loader.cache s' = Some c'
          ∧ (∀ d2, TracesFileCache.get X abspath (c', d2) = (Py.Ok (Some tfile), (c', d2)))
          ∧ TracesFileCache._dircachepath X c abspath ∈ TracesFileCache.modified c'
    | Py.Raise _ => Loader.cache s' = Some c1
    end.
Proof.
  intros abspath Hsub Hc Hstat Hget Hstale Hrun.
  destruct (load_one_miss X fileformat filename_attributes regex filename substitutions
              s c c1 found mtime r s' Hsub Hc Hstat Hget Hstale Hrun) as (Hi & Hy & Hr).
  split; [exact Hi|]. split; [exact Hy|].
  destruct r as [tfile|e]; [|exact Hr].
  destruct Hr as (dc & Hdc & Hc').
  destruct (get_ok_memoized _ _ _ _ _ _ _ Hget) as (_ & _ & _ & Hdir).
  eexists. split; [exact Hc'|]. split.
  - intros d2. erewrite get_memoized.
    + rewrite lookup_insert_eq. reflexivity.
    + unfold TracesFileCache._dircachepath.
      cbn [TracesFileCache.cachedir TracesFileCache.dircaches]. rewrite Hdir.
      apply lookup_insert_eq.
  - cbn [TracesFileCache.modified]. apply elem_of_union_r, elem_of_singleton. reflexivity.
Qed.

(** ** A second scan finds what the first one cached *)

Lemma loader_single_ok X filename fmt (s s0 : Loader.state) tfile :
  Loader.load_one X fmt None None filename s = (Py.Ok tfile, s0) →
  Loader.loader X [filename] fmt None s
  = Loader.with_cache tt (TracesFileCache.dump_modified X) (Loader.after_yield tfile s0).
Proof.
  intros Hload. unfold Loader.loader. rewrite decide_False by discriminate.
  erewrite bind_ok by reflexivity.
  cbn [Loader.scan].
  erewrite bind_ok.
  2:{ erewrite bind_ok by (apply try_except_ok; exact Hload). cbn beta iota.
      erewrite bind_ok by reflexivity. reflexivity. }
  rewrite decide_True by reflexivity.
  erewrite bind_ok by reflexivity. reflexivity.
Qed.

Lemma loader_single_inv X filename fmt (s s1 : Loader.state) tfile :
  Loader.loader X [filename] fmt None s = (Py.Ok tt, s1) →
  Loader.yielded s = [] → Loader.yielded s1 = [tfile] →
  ∃ s0, Loader.load_one X fmt None None filename s = (Py.Ok tfile, s0)
        ∧ Loader.with_cache tt (TracesFileCache.dump_modified X) (Loader.after_yield tfile s0)
          = (Py.Ok tt, s1).
Proof.
  intros Hrun Hy0 Hy1.
  destruct (Loader.load_one X fmt None None filename s) as [[tf|e] s0] eqn:Hload.
  - rewrite (loader_single_ok _ _ _ _ _ _ Hload) in Hrun.
    pose proof (with_cache_world _ _ _ _ _ Hrun) as (_ & Hy).
    pose proof (load_one_frame _ _ _ _ _ _ _ _ Hload) as (_ & Hy' & _).
    simpl in Hy. rewrite Hy', Hy0, Hy1 in Hy. inversion Hy; subst tf.
    exists s0. done.
  - exfalso. unfold Loader.loader in Hrun. rewrite decide_False in Hrun by discriminate.
    erewrite bind_ok in Hrun by reflexivity. cbn [Loader.scan] in Hrun.
    pose proof (load_one_frame _ _ _ _ _ _ _ _ Hload) as (_ & Hy' & _).
    destruct (Loader.handled e) eqn:He.
    + erewrite bind_ok in Hrun.
      2:{ erewrite bind_ok
            by (erewrite try_except_handled by (exact Hload || exact He); reflexivity).
          cbn beta iota. reflexivity. }
      rewrite decide_False in Hrun by discriminate.
      erewrite bind_ok in Hrun by reflexivity.
      pose proof (with_cache_world _ _ _ _ _ Hrun) as (_ & Hy).
      simpl in Hy. rewrite Hy', Hy0, Hy1 in Hy. discriminate.
    + unfold mbind, M_bind, Py.bind, Py.try_except, fmap, M_fmap, Py.bind in Hrun.
      rewrite Hload, He in Hrun. discriminate.
Qed.

Lemma without_parent_id (f : TracesFile.t) :
  TracesGroup.parent (TracesFile.base f) = None → TracesFileCache.without_parent f = f.
Proof.
  destruct f as [[p n s l c i lo hi ht k] a fm trs ld cnt sb mt]. simpl. intros ->.
  reflexivity.
Qed.

(** What the constructor computes when the modification time is given. *)
Lemma init_run X parent path fmt subst (m : Z) (w : world) :
  let w1 := mkWorld (fs w) (log w ++ [Log.Debug ("loading headers from file: " +:+ path)]) in
  TracesFileIO.init X parent path fmt subst (Some m) w =
    match io_load X (fs w) path fmt false subst with
    | (trs, None) =>
        (Py.Ok (TracesFile.mk
                  (TracesGroup.update (TracesGroup.ATrace <$> trs) true
                     (TracesGroup.init parent)).2
                  path fmt trs false 0 subst (Some m)), w1)
    | (trs, Some e) => (Py.Raise e, w1)
    end.
Proof.
  cbv zeta. unfold TracesFileIO.init.
  set (self0 := TracesFile.mk (TracesGroup.init parent) path fmt [] false 0 subst None).
  assert (Hh : TracesFileIO.load_headers X (Some m) (self0, w)
    = match io_load X (fs w) path fmt false subst with
      | (trs, None) =>
          (Py.Ok tt, (TracesFile.mk (TracesGroup.init parent) path fmt trs false 0 subst None,
                      mkWorld (fs w) (log w ++ [Log.Debug ("loading headers from file: " +:+ path)])))
      | (trs, Some e) =>
          (Py.Raise e, (TracesFile.mk (TracesGroup.init parent) path fmt trs false 0 subst None,
                        mkWorld (fs w) (log w ++ [Log.Debug ("loading headers from file: " +:+ path)])))
      end).
  { unfold TracesFileIO.load_headers, TracesFileIO.read_traces,
      TracesFileIO.self_, TracesFileIO.world_, logger.
    py_unfold. cbn.
    destruct (io_load X (fs w) path fmt false subst) as [trs [e|]]; reflexivity. }
  destruct (io_load X (fs w) path fmt false subst) as [trs [e|]].
  - erewrite bind_raise by exact Hh. reflexivity.
  - erewrite bind_ok by exact Hh. cbn beta.
    erewrite bind_ok by reflexivity. cbn beta. cbn [fst TracesFile.traces].
    destruct (update_rebuild (TracesGroup.ATrace <$> trs) (TracesGroup.init parent))
      as (g' & Hup & _).
    erewrite bind_ok.
    2:{ unfold TracesFileIO.self_, TracesFile.super, Py.zoom. cbn [fst snd TracesFile.base].
        rewrite Hup. reflexivity. }
    rewrite Hup. reflexivity.
Qed.

Lemma init_parent X parent path fmt subst (m : Z) w tfile w' :
  TracesFileIO.init X parent path fmt subst (Some m) w = (Py.Ok tfile, w') →
  TracesGroup.parent (TracesFile.base tfile) = parent.
Proof.
  rewrite init_run. cbv zeta.
  destruct (io_load X (fs w) path fmt false subst) as [trs [e|]]; [discriminate|].
  intros [= <- <-]. cbn [TracesFile.base].
  destruct (update_rebuild (TracesGroup.ATrace <$> trs) (TracesGroup.init parent))
    as (g' & Hup & _ & _ & _ & _ & _ & _ & _ & Hp & _).
  rewrite Hup. exact Hp.
Qed.

Lemma stat_mtime_lookup (p : string) (d d2 : OS.fs) :
  d2 !! p = d !! p → (OS.stat_mtime p d2).1 = (OS.stat_mtime p d).1.
Proof. intros H. unfold OS.stat_mtime. py_unfold. rewrite H. repeat case_match; done. Qed.

Lemma stat_mtime_same (p : string) (d d2 : OS.fs) mtime :
  d2 !! p = d !! p → OS.stat_mtime p d = (Py.Ok mtime, d) →
  OS.stat_mtime p d2 = (Py.Ok mtime, d2).
Proof.
  intros H Hs. destruct (OS.stat_mtime p d2) as [r d3] eqn:E.
  pose proof (stat_mtime_fs _ _ _ _ E) as ->.
  pose proof (stat_mtime_lookup p d d2 H) as Hl. rewrite E, Hs in Hl. simpl in Hl.
  congruence.
Qed.

(** What one attempt without a pattern did, when it gave a file. *)
Lemma load_one_cases X fmt filename (s s0 : Loader.state) c tfile :
  let abspath := os_path_abspath X filename in
  let cp := TracesFileCache._dircachepath X c abspath in
  let d := fs (Loader.w s) in
  Loader.cache s = Some c →
  Loader.load_one X fmt None None filename s = (Py.Ok tfile, s0) →
  ∃ mtime found c1,
    OS.stat_mtime filename d = (Py.Ok mtime, d)
    ∧ TracesFileCache.get X abspath (c, d) = (Py.Ok found, (c1, d))
    ∧ TracesFile.mtime tfile = Some mtime
    ∧ Loader.yielded s0 = Loader.yielded s
    ∧ fs (Loader.w s0) = d
    ∧ ((found = Some tfile ∧ Loader.cache s0 = Some c1)
       ∨ (TracesGroup.parent (TracesFile.base tfile) = None
          ∧ ∃ dc, TracesFileCache.dircaches c1 !! cp = Some dc
             ∧ Loader.cache s0
               = Some (TracesFileCache.mk (TracesFileCache.cachedir c1)
                         (<[cp := <[abspath := tfile]> dc]> (TracesFileCache.dircaches c1))
                         (TracesFileCache.modified c1 ∪ {[cp]})))).
Proof.
  intros abspath cp d Hc Hrun.
  pose proof Hrun as Hrun0.
  unfold Loader.load_one in Hrun. fold abspath in Hrun.
  erewrite bind_ok in Hrun by reflexivity.
  apply bind_inv in Hrun as [(e & _ & ?)|(mtime & s1 & Hst & Hrun)]; [discriminate|].
  apply world_stat in Hst as (-> & Hst).
  apply bind_inv in Hrun as [(e & _ & ?)|(found & s2 & Hget & Hrun)]; [discriminate|].
  apply with_cache_get in Hget as (Hw2 & Hy2 & Hc2).
  rewrite Hc in Hc2. destruct (Loader.cache s2) as [c1|] eqn:Ec1; [|done].
  exists mtime, found, c1. split; [exact Hst|]. split; [exact Hc2|].
  assert (Hsub : Loader.no_substitutions X None filename None) by (left; done).
  destruct found as [cached|].
  - destruct (decide (TracesFile.mtime cached = Some mtime)) as [Hm|Hm].
    + destruct (load_one_hit X fmt None None filename None s c c1 cached mtime
                  Hsub Hc Hst Hc2 Hm) as [Hhit _].
      rewrite Hhit in Hrun0. inversion Hrun0; subst. simpl.
      split; [exact Hm|]. split; [reflexivity|]. split; [reflexivity|]. left. done.
    + destruct (load_one_miss X fmt None None filename None s c c1 (Some cached) mtime
                  (Py.Ok tfile) s0 Hsub Hc Hst Hc2) as (Hi & Hy & dc & Hdc & Hc0);
        [intros ? [= <-]; exact Hm|exact Hrun0|].
      pose proof (init_ok _ _ _ _ _ _ _ _ _ Hi) as (_ & _ & _ & Hmt & _).
      pose proof (init_frame _ _ _ _ _ _ _ _ _ Hi) as (Hfs & _).
      split; [exact Hmt|]. split; [exact Hy|]. split; [exact Hfs|]. right.
      split; [eapply init_parent; exact Hi|]. eauto.
  - destruct (load_one_miss X fmt None None filename None s c c1 None mtime
                (Py.Ok tfile) s0 Hsub Hc Hst Hc2) as (Hi & Hy & dc & Hdc & Hc0);
      [intros ? [=]|exact Hrun0|].
    pose proof (init_ok _ _ _ _ _ _ _ _ _ Hi) as (_ & _ & _ & Hmt & _).
    pose proof (init_frame _ _ _ _ _ _ _ _ _ Hi) as (Hfs & _).
    split; [exact Hmt|]. split; [exact Hy|]. split; [exact Hfs|]. right.
    split; [eapply init_parent; exact Hi|]. eauto.
Qed.

(** X12.  Scanning twice.  If the loader, run on one file with a cache that
    has read nothing, yields a file, then a second run with a new cache
    object for the same directory, on the disk that the first run left,
    yields the same file: it comes from the cache, nothing is logged and
    the disk is left as it is.  (Pickling round-trips; the shard's file
    and temporary file are no directories and differ from the data
    file.) *)
Theorem loader_second_scan_hits (X : externals) (filename fileformat : string)
    (c0 : TracesFileCache.t) (w0 : world) (s1 : Loader.state) (tfile : TracesFile.t) :
  let abspath := os_path_abspath X filename in
  let cp := TracesFileCache._dircachepath X c0 abspath in
  let tmp := cp +:+ "." +:+ format_int X (os_getpid X) +:+ ".tmp" in
  (∀ sh, pickle_loads X (pickle_dumps X sh) = Some sh) →
  TracesFileCache.dircaches c0 = ∅ → TracesFileCache.modified c0 = ∅ →
  Loader.loader X [filename] fileformat None (Loader.mkState (Some c0) w0 [])
  = (Py.Ok tt, s1) →
  Loader.yielded s1 = [tfile] →
  OS.isdir cp (fs w0) = false → OS.isdir tmp (fs w0) = false →
  OS.isfile abspath (fs w0) = true →
  abspath ≠ cp → abspath ≠ tmp → filename ≠ cp → filename ≠ tmp →
  ∀ fresh log,
    TracesFileCache.cachedir fresh = TracesFileCache.cachedir c0 →
    TracesFileCache.dircaches fresh = ∅ → TracesFileCache.modified fresh = ∅ →
    ∃ c2, Loader.loader X [filename] fileformat None
            (Loader.mkState (Some fresh) (mkWorld (fs (Loader.w s1)) log) [])
          = (Py.Ok tt, Loader.mkState (Some c2) (mkWorld (fs (Loader.w s1)) log) [tfile]).
Proof.
  intros abspath cp tmp Hrt Hd0 Hm0 Hrun Hy1 Hcp Htmp Hfile Ha1 Ha2 Hf1 Hf2
    fresh lg Hdir Hdf Hmf.
  destruct (loader_single_inv X filename fileformat _ s1 tfile Hrun eq_refl Hy1)
    as (s0 & Hload & Hdump).
  destruct (load_one_cases X fileformat filename (Loader.mkState (Some c0) w0 []) s0 c0
              tfile eq_refl Hload)
    as (mtime & found & c1 & Hst & Hget & Hmt & Hy0 & Hfs0 & Hcase).
  cbn [Loader.w Loader.yielded] in *. fold abspath cp in Hget, Hcase.
  assert (Hcpf : TracesFileCache._dircachepath X fresh abspath = cp).
  { unfold cp, TracesFileCache._dircachepath. rewrite Hdir. reflexivity. }
  (* the second run, once its lookup is known to hit *)
  assert (Hsecond : ∀ d2 c2,
    d2 !! filename = fs w0 !! filename →
    TracesFileCache.get X abspath (fresh, d2) = (Py.Ok (Some tfile), (c2, d2)) →
    Loader.loader X [filename] fileformat None
      (Loader.mkState (Some fresh) (mkWorld d2 lg) [])
    = (Py.Ok tt, Loader.mkState (Some (TracesFileCache.set_modified ∅ c2))
                   (mkWorld d2 lg) [tfile])).
  { intros d2 c2 Hsame Hget2.
    assert (Hsub : Loader.no_substitutions X None filename None) by (left; done).
    destruct (load_one_hit X fileformat None None filename None
                (Loader.mkState (Some fresh) (mkWorld d2 lg) []) fresh c2 tfile mtime
                Hsub eq_refl) as [Hhit Hmod2].
    { eapply stat_mtime_same; [exact Hsame|exact Hst]. }
    { exact Hget2. }
    { exact Hmt. }
    rewrite (loader_single_ok _ _ _ _ _ _ Hhit).
    unfold Loader.with_cache, Loader.after_yield. cbn [Loader.cache Loader.w Loader.yielded fs].
    rewrite dump_nothing by (rewrite Hmod2; exact Hmf). reflexivity. }
  unfold Loader.with_cache, Loader.after_yield in Hdump.
  cbn [Loader.cache Loader.w Loader.yielded] in Hdump.
  destruct Hcase as [[-> Hc0]|(Hpar & dc & Hdc & Hc0)].
  - (* the first run was a hit: nothing was written *)
    rewrite Hc0 in Hdump.
    pose proof (get_agrees _ _ _ _ _ _ _ Hget) as (_ & Hmod1 & _).
    rewrite Hfs0, dump_nothing in Hdump by (rewrite Hmod1; exact Hm0).
    inversion Hdump; subst s1. clear Hdump. cbn [Loader.w fs set_fs].
    rewrite get_unfold in Hget. cbv zeta in Hget. fold cp in Hget.
    rewrite Hd0, lookup_empty in Hget.
    destruct (OS.isfile cp (fs w0)) eqn:Ef; [|discriminate].
    destruct (TracesFileCache._load_dircache X cp (fs w0)) as [[dc|e] d1] eqn:El;
      [|discriminate].
    pose proof (load_dircache_fs _ _ _ _ _ El) as ->.
    inversion Hget as [[Hfound Hc1]]. clear Hget.
    eexists. apply Hsecond; [reflexivity|].
    rewrite get_unfold. cbv zeta. rewrite Hcpf, Hdf, lookup_empty, Ef, El, Hfound.
    reflexivity.
  - (* the first run was a miss: the file was parsed and the shard written *)
    rewrite Hc0 in Hdump.
    pose proof (get_agrees _ _ _ _ _ _ _ Hget) as (_ & Hmod1 & Hdir1 & _).
    set (c' := TracesFileCache.mk _ _ _) in Hdump.
    destruct (dump_modified_ok X c' (fs (Loader.w s0))) as (d2 & Hrun2 & Hframe & Hat).
    { intros cp' Hin. unfold c' in Hin. cbn [TracesFileCache.modified] in Hin.
      rewrite Hmod1, Hm0, (left_id_L ∅ (∪)) in Hin.
      apply elem_of_singleton in Hin as ->. rewrite Hfs0.
      split; [|done]. unfold c'. simpl. rewrite lookup_insert_eq. eauto. }
    rewrite Hrun2 in Hdump. inversion Hdump; subst s1. clear Hdump.
    cbn [Loader.w fs set_fs].
    assert (Hmod' : ∀ cp', cp' ∈ TracesFileCache.modified c' → cp' = cp).
    { intros cp' Hin. unfold c' in Hin. cbn [TracesFileCache.modified] in Hin.
      rewrite Hmod1, Hm0, (left_id_L ∅ (∪)) in Hin.
      apply elem_of_singleton in Hin. exact Hin. }
    assert (Hincp : cp ∈ TracesFileCache.modified c').
    { unfold c'. cbn [TracesFileCache.modified]. apply elem_of_union_r, elem_of_singleton.
      reflexivity. }
    assert (Hsame : ∀ path, path ≠ cp → path ≠ tmp → d2 !! path = fs w0 !! path).
    { intros path H1 H2. rewrite <- Hfs0. apply Hframe.
      intros cp' Hin%Hmod'. subst cp'. done. }
    assert (Hd2 : d2 !! cp = Some (OS.File (time_now X)
              (pickle_dumps X (TracesFileCache.without_parent <$> <[abspath := tfile]> dc)))).
    { rewrite (Hat cp (<[abspath := tfile]> dc) Hincp).
      - rewrite decide_False by apply insert_non_empty. reflexivity.
      - unfold c'. simpl. apply lookup_insert_eq.
      - intros cp2 Hin%Hmod'. subst cp2. intros E. symmetry in E. revert E.
        apply tmp_name_differs. }
    destruct (fresh_get_after_dump X abspath tfile (<[abspath := tfile]> dc) fresh d2
                (time_now X)) as (dc2 & Hget2).
    { apply Hrt. }
    { exact Hdf. }
    { rewrite Hcpf. exact Hd2. }
    { apply lookup_insert_eq. }
    { unfold OS.isfile. rewrite Hsame by assumption. exact Hfile. }
    rewrite (without_parent_id tfile Hpar) in Hget2.
    eexists. apply Hsecond; [apply Hsame; assumption|exact Hget2].
Qed.

(** ** The lookup sets and the span of an aggregate *)

Lemma small_to_tuple_kept `{Countable A} (c : TracesGroup.coll A) :
  (TracesGroup.small_to_tuple c).2 = false → (TracesGroup.small_to_tuple c).1 = c.
Proof. unfold TracesGroup.small_to_tuple. case_decide; [discriminate|reflexivity]. Qed.

Lemma is_set_as_set `{Countable A} (s : gset A) : TracesGroup.is_set (TracesGroup.AsSet s).
Proof. exact I. Qed.

Lemma is_set_inv `{Countable A} (c : TracesGroup.coll A) :
  TracesGroup.is_set c → c = TracesGroup.AsSet (TracesGroup.to_set c).
Proof. destruct c; [reflexivity|intros []]. Qed.

(** A full rebuild leaves the lookup attributes in the state the methods
    keep. *)
Lemma update_rebuild_flagged (content : list TracesGroup.child) (g : TracesGroup.t) :
  TracesGroup.sets_unless_flagged (TracesGroup.update content true g).2.
Proof.
  unfold TracesGroup.update, TracesGroup.empty, TracesGroup._convert_small_sets_to_tuples.
  py_unfold. rewrite loop_sets. cbn [snd].
  repeat match goal with
         | |- context [TracesGroup.small_to_tuple ?c] =>
             let E := fresh "E" in
             pose proof (small_to_tuple_kept c) as E;
             destruct (TracesGroup.small_to_tuple c) as [? []]; simpl in E
         end;
    intros Hf; simpl in Hf; try discriminate.
  simpl. rewrite E, E0, E1, E2, E3 by reflexivity. repeat split.
Qed.

(** What [update(content, empty=False)] computes. *)
Lemma update_grow (content : list TracesGroup.child) (g : TracesGroup.t) :
  TracesGroup.sets_unless_flagged g →
  TracesGroup.update content false g
  = (Py.Ok tt,
     TracesGroup.mk (TracesGroup.parent g)
       (TracesGroup.AsSet (TracesGroup.to_set (TracesGroup.networks g)
                           ∪ ⋃ (TracesGroup.child_networks <$> content)))
       (TracesGroup.AsSet (TracesGroup.to_set (TracesGroup.stations g)
                           ∪ ⋃ (TracesGroup.child_stations <$> content)))
       (TracesGroup.AsSet (TracesGroup.to_set (TracesGroup.locations g)
                           ∪ ⋃ (TracesGroup.child_locations <$> content)))
       (TracesGroup.AsSet (TracesGroup.to_set (TracesGroup.channels g)
                           ∪ ⋃ (TracesGroup.child_channels <$> content)))
       (TracesGroup.AsSet (TracesGroup.to_set (TracesGroup.nslc_ids g)
                           ∪ ⋃ (TracesGroup.child_nslc_ids <$> content)))
       (TracesGroup.span_lo (TracesGroup.tmin g) content)
       (TracesGroup.span_hi (TracesGroup.tmax g) content)
       false (TracesGroup.nupdates g + 1)).
Proof.
  intros Hinv. destruct g as [p n s l c i lo hi ht k].
  cbn [TracesGroup.parent TracesGroup.networks TracesGroup.stations TracesGroup.locations
       TracesGroup.channels TracesGroup.nslc_ids TracesGroup.tmin TracesGroup.tmax
       TracesGroup.nupdates].
  assert (H1 : (s0 ← Py.get; Py.when (TracesGroup.have_tuples s0)
                               TracesGroup._convert_tuples_to_sets)
                 (TracesGroup.mk p n s l c i lo hi ht k)
               = (Py.Ok tt,
                  TracesGroup.mk p (TracesGroup.AsSet (TracesGroup.to_set n))
                    (TracesGroup.AsSet (TracesGroup.to_set s))
                    (TracesGroup.AsSet (TracesGroup.to_set l))
                    (TracesGroup.AsSet (TracesGroup.to_set c))
                    (TracesGroup.AsSet (TracesGroup.to_set i)) lo hi false k)).
  { destruct ht; [reflexivity|].
    destruct (Hinv eq_refl) as (Hn & Hs & Hl & Hc & Hi). cbn in Hn, Hs, Hl, Hc, Hi.
    rewrite <- (is_set_inv n Hn), <- (is_set_inv s Hs), <- (is_set_inv l Hl),
      <- (is_set_inv c Hc), <- (is_set_inv i Hi). reflexivity. }
  unfold TracesGroup.update.
  erewrite bind_ok by exact H1.
  erewrite bind_ok by apply loop_sets.
  erewrite bind_ok by reflexivity. reflexivity.
Qed.

(** X1.  [update] on an aggregate whose lookup attributes are sets unless
    [have_tuples] says otherwise returns, and leaves the aggregate in such
    a state again.  Each lookup set becomes the union of the children's
    sets, joined with what it held before when [empty] is false; the span
    is the one the loop arrives at over the children, starting from [None]
    or from the old span; without [empty] no attribute is flagged as a
    tuple afterwards; the parent is kept and [nupdates] is one more. *)
Theorem update_keeps_lookup_sets (content : list TracesGroup.child) (empty : bool)
    (g : TracesGroup.t) :
  TracesGroup.sets_unless_flagged g →
  ∃ g', TracesGroup.update content empty g = (Py.Ok tt, g')
    ∧ TracesGroup.sets_unless_flagged g'
    ∧ TracesGroup.to_set (TracesGroup.networks g')
      = (if empty then ∅ else TracesGroup.to_set (TracesGroup.networks g))
        ∪ ⋃ (TracesGroup.child_networks <$> content)
    ∧ TracesGroup.to_set (TracesGroup.stations g')
      = (if empty then ∅ else TracesGroup.to_set (TracesGroup.stations g))
        ∪ ⋃ (TracesGroup.child_stations <$> content)
    ∧ TracesGroup.to_set (TracesGroup.locations g')
      = (if empty then ∅ else TracesGroup.to_set (TracesGroup.locations g))
        ∪ ⋃ (TracesGroup.child_locations <$> content)
    ∧ TracesGroup.to_set (TracesGroup.channels g')
      = (if empty then ∅ else TracesGroup.to_set (TracesGroup.channels g))
        ∪ ⋃ (TracesGroup.child_channels <$> content)
    ∧ TracesGroup.to_set (TracesGroup.nslc_ids g')
      = (if empty then ∅ else TracesGroup.to_set (TracesGroup.nslc_ids g))
        ∪ ⋃ (TracesGroup.child_nslc_ids <$> content)
    ∧ TracesGroup.tmin g'
      = TracesGroup.span_lo (if empty then None else TracesGroup.tmin g) content
    ∧ TracesGroup.tmax g'
      = TracesGroup.span_hi (if empty then None else TracesGroup.tmax g) content
    ∧ (empty = false → TracesGroup.have_tuples g' = false)
    ∧ TracesGroup.parent g' = TracesGroup.parent g
    ∧ TracesGroup.nupdates g' = TracesGroup.nupdates g + 1.
Proof.
  intros Hinv. destruct empty.
  - destruct (update_rebuild content g)
      as (g' & Hu & Hn & Hs & Hl & Hc & Hi & Hlo & Hhi & Hp & Hk).
    exists g'. split; [exact Hu|]. split.
    { pose proof (update_rebuild_flagged content g) as H. rewrite Hu in H. exact H. }
    rewrite !(left_id_L ∅ (∪)). repeat split; assumption || discriminate.
  - rewrite (update_grow content g Hinv). eexists. split; [reflexivity|].
    split; [intros _; repeat split|]. repeat split.
Qed.

Lemma ge_spec (a b : option Q) :
  Py.ge a b = true ↔ match a, b with
                     | _, None => True
                     | None, Some _ => False
                     | Some x, Some y => (y <= x)%Q
                     end.
Proof.
  unfold Py.ge, Py.lt. destruct a as [x|], b as [y|]; cbn; try tauto.
  - rewrite negb_involutive. apply Qle_bool_iff.
  - split; [discriminate|intros []].
Qed.

Lemma overlaps_spec (qmin qmax : Q) (g : TracesGroup.t) :
  TracesGroup.overlaps qmin qmax g = true
  ↔ (∀ lo, TracesGroup.tmin g = Some lo → (lo <= qmax)%Q)
    ∧ ∃ hi, TracesGroup.tmax g = Some hi ∧ (qmin <= hi)%Q.
Proof.
  unfold TracesGroup.overlaps. rewrite andb_true_iff, !ge_spec.
  destruct (TracesGroup.tmin g) as [lo|], (TracesGroup.tmax g) as [hi|]; split.
  - intros [H1 H2]. split; [intros ? [= <-]; exact H1|eauto].
  - intros [H1 (? & [= <-] & H2)]. split; [apply H1; reflexivity|exact H2].
  - intros [_ []].
  - intros [_ (? & [=] & _)].
  - intros [_ H2]. split; [intros ? [=]|eauto].
  - intros [_ (? & [= <-] & H2)]. done.
  - intros [_ []].
  - intros [_ (? & [=] & _)].
Qed.

(** X2.  [is_relevant] is the overlap test together with the selector.  The
    overlap test holds iff the aggregate has a [tmax] that is not below
    the window's start and its [tmin], if it has one, is not above the
    window's end: both ends are inclusive.  An aggregate without [tmax], an
    empty one, is relevant to no window. *)
Theorem relevance_is_inclusive_overlap (qmin qmax : Q)
    (group_selector : option (TracesGroup.t → bool)) (g : TracesGroup.t) :
  TracesGroup.is_relevant qmin qmax group_selector g
  = TracesGroup.overlaps qmin qmax g && Pile.accepts group_selector g
  ∧ (TracesGroup.overlaps qmin qmax g = true
     ↔ (∀ lo, TracesGroup.tmin g = Some lo → (lo <= qmax)%Q)
       ∧ ∃ hi, TracesGroup.tmax g = Some hi ∧ (qmin <= hi)%Q)
  ∧ (TracesGroup.tmax g = None →
     TracesGroup.is_relevant qmin qmax group_selector g = false).
Proof.
  split; [reflexivity|]. split; [apply overlaps_spec|].
  intros Hnone. unfold TracesGroup.is_relevant. rewrite Hnone.
  destruct (Py.ge (Some qmax) (TracesGroup.tmin g)); reflexivity.
Qed.

(** X3.  After a full rebuild from children that all have a span, the
    aggregate overlaps every window that one of its children overlaps: the
    relevance test on the aggregate hides no child. *)
Theorem rebuilt_group_covers_children (content : list TracesGroup.child)
    (g g' : TracesGroup.t) (c : TracesGroup.child) (clo chi qmin qmax : Q) :
  Forall (λ c, is_Some (TracesGroup.child_tmin c) ∧ is_Some (TracesGroup.child_tmax c))
    content →
  TracesGroup.update content true g = (Py.Ok tt, g') →
  c ∈ content →
  TracesGroup.child_tmin c = Some clo → TracesGroup.child_tmax c = Some chi →
  (clo <= qmax)%Q → (qmin <= chi)%Q →
  TracesGroup.overlaps qmin qmax g' = true.
Proof.
  intros Hall Hup Hin Hlo Hhi H1 H2.
  assert (Hne : content ≠ []) by (intros ->; inversion Hin).
  destruct (update_rebuild_of_spanned_children content g Hne Hall)
    as (g'' & lo & hi & Hup' & _ & _ & _ & _ & _ & Hmin & Hlow & _ & Hmax & Hupp & _).
  rewrite Hup in Hup'. inversion Hup'; subst g''. clear Hup'.
  apply overlaps_spec. split.
  - intros lo' Hlo'. rewrite Hmin in Hlo'. inversion Hlo'; subst lo'.
    pose proof (Hlow c clo Hin Hlo). lra.
  - exists hi. split; [exact Hmax|]. pose proof (Hupp c chi Hin Hhi). lra.
Qed.

(** ** Trace files: construction and reloading *)

Lemma union_list_singletons `{Countable A} {B} (f : B → A) (l : list B) :
  ⋃ ((λ x, {[ f x ]}) <$> l) = (list_to_set (f <$> l) : gset A).
Proof.
  induction l as [|x l IH]; [reflexivity|].
  rewrite !fmap_cons, union_list_cons, list_to_set_cons, IH. reflexivity.
Qed.

Lemma traces_as_children_spanned (trs : list Trace.t) :
  Forall (λ c, is_Some (TracesGroup.child_tmin c) ∧ is_Some (TracesGroup.child_tmax c))
    (TracesGroup.ATrace <$> trs).
Proof. apply Forall_fmap, Forall_forall. intros tr _. simpl. eauto. Qed.

(** The span that a rebuild from traces arrives at. *)
Lemma rebuild_span_of_traces (trs : list Trace.t) (g : TracesGroup.t) :
  let g' := (TracesGroup.update (TracesGroup.ATrace <$> trs) true g).2 in
  (trs = [] → TracesGroup.tmin g' = None ∧ TracesGroup.tmax g' = None)
  ∧ (trs ≠ [] →
       ∃ lo hi, TracesGroup.tmin g' = Some lo ∧ TracesGroup.tmax g' = Some hi
         ∧ Forall (λ tr, (lo <= Trace.tmin tr)%Q ∧ (Trace.tmax tr <= hi)%Q) trs
         ∧ (∃ tr, tr ∈ trs ∧ Trace.tmin tr = lo)
         ∧ (∃ tr, tr ∈ trs ∧ Trace.tmax tr = hi)).
Proof.
  cbv zeta. split.
  - intros ->. split; reflexivity.
  - intros Hne.
    destruct (update_rebuild_of_spanned_children (TracesGroup.ATrace <$> trs) g)
      as (g' & lo & hi & Hup & _ & _ & _ & _ & _ & Hmin & Hlow & Hlatt & Hmax & Hupp & Hhatt).
    { destruct trs; [done|discriminate]. }
    { apply traces_as_children_spanned. }
    rewrite Hup. cbn [snd]. exists lo, hi. split; [exact Hmin|]. split; [exact Hmax|].
    split; [|split].
    + apply Forall_forall. intros tr Hin. split.
      * apply (Hlow (TracesGroup.ATrace tr)); [apply list_elem_of_fmap; eauto|reflexivity].
      * apply (Hupp (TracesGroup.ATrace tr)); [apply list_elem_of_fmap; eauto|reflexivity].
    + destruct Hlatt as (c & Hc & Hlo). apply list_elem_of_fmap in Hc as (tr & -> & Hin).
      exists tr. split; [exact Hin|]. simpl in Hlo. congruence.
    + destruct Hhatt as (c & Hc & Hhi). apply list_elem_of_fmap in Hc as (tr & -> & Hin).
      exists tr. split; [exact Hin|]. simpl in Hhi. congruence.
Qed.

(** X8.  [TracesFile.__init__] reads the headers once and logs it.  If
    [io.load] fails the constructor raises that exception.  Otherwise the
    new file holds the traces read, the path, format, substitutions and
    [mtime] given, no data and a use count of 0; its lookup sets are those
    of its traces; its span is [None] when there is no trace, and else
    the least [tmin] and the greatest [tmax] among the traces. *)
Theorem tracesfile_init_from_headers (X : externals) (parent : option positive)
    (path fmt : string) (subst : option TracesFile.substitutions_t) (m : Z) (w : world)
    (trs : list Trace.t) (err : option Py.exn) :
  io_load X (fs w) path fmt false subst = (trs, err) →
  let w1 := mkWorld (fs w) (log w ++ [Log.Debug ("loading headers from file: " +:+ path)]) in
  match err with
  | Some e => TracesFileIO.init X parent path fmt subst (Some m) w = (Py.Raise e, w1)
  | None =>
      ∃ tfile, TracesFileIO.init X parent path fmt subst (Some m) w = (Py.Ok tfile, w1)
        ∧ TracesFile.traces tfile = trs
        ∧ TracesFile.abspath tfile = path ∧ TracesFile.format tfile = fmt
        ∧ TracesFile.substitutions tfile = subst
        ∧ TracesFile.mtime tfile = Some m
        ∧ TracesFile.data_loaded tfile = false ∧ TracesFile.data_use_count tfile = 0
        ∧ TracesGroup.parent (TracesFile.base tfile) = parent
        ∧ TracesGroup.to_set (TracesGroup.networks (TracesFile.base tfile))
          = list_to_set (Trace.network <$> trs)
        ∧ TracesGroup.to_set (TracesGroup.stations (TracesFile.base tfile))
          = list_to_set (Trace.station <$> trs)
        ∧ TracesGroup.to_set (TracesGroup.locations (TracesFile.base tfile))
          = list_to_set (Trace.location <$> trs)
        ∧ TracesGroup.to_set (TracesGroup.channels (TracesFile.base tfile))
          = list_to_set (Trace.channel <$> trs)
        ∧ TracesGroup.to_set (TracesGroup.nslc_ids (TracesFile.base tfile))
          = list_to_set (Trace.nslc_id <$> trs)
        ∧ (trs = [] → TracesGroup.tmin (TracesFile.base tfile) = None
                      ∧ TracesGroup.tmax (TracesFile.base tfile) = None)
        ∧ (trs ≠ [] →
             ∃ lo hi, TracesGroup.tmin (TracesFile.base tfile) = Some lo
               ∧ TracesGroup.tmax (TracesFile.base tfile) = Some hi
               ∧ Forall (λ tr, (lo <= Trace.tmin tr)%Q ∧ (Trace.tmax tr <= hi)%Q) trs
               ∧ (∃ tr, tr ∈ trs ∧ Trace.tmin tr = lo)
               ∧ (∃ tr, tr ∈ trs ∧ Trace.tmax tr = hi))
  end.
Proof.
  intros Hio w1. rewrite init_run. cbv zeta. rewrite Hio.
  destruct err as [e|]; [reflexivity|].
  eexists. split; [reflexivity|]. cbn [TracesFile.traces TracesFile.abspath TracesFile.format
    TracesFile.substitutions TracesFile.mtime TracesFile.data_loaded
    TracesFile.data_use_count TracesFile.base].
  do 7 (split; [reflexivity|]).
  destruct (update_rebuild (TracesGroup.ATrace <$> trs) (TracesGroup.init parent))
    as (g' & Hu & Hn & Hs & Hl & Hc & Hi & _ & _ & Hp & _).
  pose proof (rebuild_span_of_traces trs (TracesGroup.init parent)) as Hspan.
  cbv zeta in Hspan. rewrite Hu in Hspan |- *. cbn [snd] in Hspan |- *.
  rewrite <- list_fmap_compose in Hn, Hs, Hl, Hc, Hi.
  split; [exact Hp|].
  split; [rewrite Hn; apply (union_list_singletons Trace.network)|].
  split; [rewrite Hs; apply (union_list_singletons Trace.station)|].
  split; [rewrite Hl; apply (union_list_singletons Trace.location)|].
  split; [rewrite Hc; apply (union_list_singletons Trace.channel)|].
  split; [rewrite Hi; apply (union_list_singletons Trace.nslc_id)|].
  exact Hspan.
Qed.

Ltac file_norm :=
  cbn [fst snd TracesFile.set_base TracesFile.set_traces TracesFile.set_data_loaded
       TracesFile.set_data_use_count TracesFile.set_mtime TracesFile.base
       TracesFile.abspath TracesFile.format TracesFile.traces TracesFile.data_loaded
       TracesFile.data_use_count TracesFile.substitutions TracesFile.mtime].

(** *** [reload_if_modified] *)

Lemma file_stat_ok (f : TracesFile.t) (w : world) (m : Z) :
  OS.stat_mtime (TracesFile.abspath f) (fs w) = (Py.Ok m, fs w) →
  TracesFileIO.world_ (os (OS.stat_mtime (TracesFile.abspath f))) (f, w) = (Py.Ok m, (f, w)).
Proof.
  intros H. unfold TracesFileIO.world_, os, Py.zoom. cbn [fst snd]. rewrite H.
  rewrite set_fs_same. reflexivity.
Qed.

Lemma reload_unchanged (X : externals) (f : TracesFile.t) (w : world) (m : Z) :
  OS.stat_mtime (TracesFile.abspath f) (fs w) = (Py.Ok m, fs w) →
  TracesFile.mtime f = Some m →
  TracesFileIO.reload_if_modified X (f, w) = (Py.Ok false, (f, w)).
Proof.
  intros Hst Hm. unfold TracesFileIO.reload_if_modified.
  erewrite bind_ok by reflexivity. cbn [fst].
  erewrite bind_ok by (apply file_stat_ok; exact Hst).
  rewrite bool_decide_eq_false_2; [reflexivity|]. intros H. apply H. congruence.
Qed.

Lemma reload_changed (X : externals) (f : TracesFile.t) (w : world) (m : Z)
    (trs : list Trace.t) :
  OS.stat_mtime (TracesFile.abspath f) (fs w) = (Py.Ok m, fs w) →
  TracesFile.mtime f ≠ Some m →
  io_load X (fs w) (TracesFile.abspath f) (TracesFile.format f) (TracesFile.data_loaded f)
    (TracesFile.substitutions f) = (trs, None) →
  ∃ l, TracesFileIO.reload_if_modified X (f, w)
       = (Py.Ok true,
          (TracesFile.mk
             (TracesGroup.update (TracesGroup.ATrace <$> trs) true (TracesFile.base f)).2
             (TracesFile.abspath f) (TracesFile.format f) trs (TracesFile.data_loaded f)
             (if TracesFile.data_loaded f then TracesFile.data_use_count f else 0)
             (TracesFile.substitutions f) (Some m),
           mkWorld (fs w) (log w ++ l)))
       ∧ Forall Log.is_debug l.
Proof.
  intros Hst Hm Hio. unfold TracesFileIO.reload_if_modified.
  erewrite bind_ok by reflexivity. cbn [fst].
  erewrite bind_ok by (apply file_stat_ok; exact Hst).
  rewrite bool_decide_eq_true_2 by congruence.
  destruct f as [g path fmt trs0 ld cnt sb mt].
  cbn [TracesFile.abspath TracesFile.format TracesFile.data_loaded TracesFile.substitutions
       TracesFile.base TracesFile.data_use_count TracesFile.mtime] in *.
  erewrite bind_ok by reflexivity. cbn beta.
  erewrite bind_ok by reflexivity. cbn beta.
  destruct (update_rebuild (TracesGroup.ATrace <$> trs) g) as (g' & Hup & _).
  destruct ld.
  - erewrite bind_ok.
    2:{ unfold TracesFileIO.load_data, TracesFileIO.read_traces, TracesFileIO.self_,
          TracesFileIO.world_, logger. py_unfold. cbn. rewrite Hio. cbn. reflexivity. }
    cbn beta. erewrite bind_ok by reflexivity. cbn beta. cbn [fst TracesFile.traces].
    erewrite bind_ok.
    2:{ unfold TracesFileIO.self_, TracesFile.super, Py.zoom. file_norm.
        rewrite Hup. reflexivity. }
    file_norm. rewrite Hup. cbn [snd]. eexists.
    split; [unfold mret, M_ret, Py.ret; rewrite <- app_assoc; reflexivity|].
    repeat constructor; eexists; reflexivity.
  - erewrite bind_ok.
    2:{ unfold TracesFileIO.load_headers, TracesFileIO.read_traces, TracesFileIO.self_,
          TracesFileIO.world_, logger, os. py_unfold. cbn. rewrite Hst. cbn.
        rewrite Hio. cbn. reflexivity. }
    cbn beta. erewrite bind_ok by reflexivity. cbn beta. cbn [fst TracesFile.traces].
    erewrite bind_ok.
    2:{ unfold TracesFileIO.self_, TracesFile.super, Py.zoom. file_norm.
        rewrite Hup. reflexivity. }
    file_norm. rewrite Hup. cbn [snd]. eexists.
    split; [unfold mret, M_ret, Py.ret; rewrite <- app_assoc; reflexivity|].
    repeat constructor; eexists; reflexivity.
Qed.

(** X9.  [reload_if_modified], [stat] succeeding.  If the recorded [mtime]
    is the disk's it returns [False] and changes nothing.  Otherwise, if
    [io.load] succeeds, it returns [True], records the new [mtime],
    replaces the traces by those read (with data iff data was loaded),
    rebuilds the aggregate from them and does not write the disk; the use
    count is kept if data was loaded and is 0 if not; a second call
    returns [False] and changes nothing. *)
Theorem reload_if_modified_syncs (X : externals) (f : TracesFile.t) (w : world) (m : Z) :
  OS.stat_mtime (TracesFile.abspath f) (fs w) = (Py.Ok m, fs w) →
  (TracesFile.mtime f = Some m →
     TracesFileIO.reload_if_modified X (f, w) = (Py.Ok false, (f, w)))
  ∧ (TracesFile.mtime f ≠ Some m →
     ∀ trs,
       io_load X (fs w) (TracesFile.abspath f) (TracesFile.format f)
         (TracesFile.data_loaded f) (TracesFile.substitutions f) = (trs, None) →
       ∃ f' w',
         TracesFileIO.reload_if_modified X (f, w) = (Py.Ok true, (f', w'))
         ∧ fs w' = fs w
         ∧ TracesFile.mtime f' = Some m
         ∧ TracesFile.traces f' = trs
         ∧ TracesFile.base f'
           = (TracesGroup.update (TracesGroup.ATrace <$> trs) true (TracesFile.base f)).2
         ∧ TracesFile.data_loaded f' = TracesFile.data_loaded f
         ∧ TracesFile.data_use_count f'
           = (if TracesFile.data_loaded f then TracesFile.data_use_count f else 0)
         ∧ TracesFileIO.reload_if_modified X (f', w') = (Py.Ok false, (f', w'))).
Proof.
  intros Hst. split; [apply reload_unchanged; exact Hst|].
  intros Hm trs Hio.
  destruct (reload_changed X f w m trs Hst Hm Hio) as (l & Hrun & _).
  eexists _, _. split; [exact Hrun|]. cbn [fs TracesFile.mtime TracesFile.traces
    TracesFile.base TracesFile.data_loaded TracesFile.data_use_count].
  do 6 (split; [reflexivity|]).
  apply (reload_unchanged X _ _ m); [exact Hst|reflexivity].
Qed.

(** ** What [Pile.chop] returns and what it leaves *)



Lemma file_after_chop_base X d sel ld f :
  TracesFile.base (Pile.file_after_chop X d sel ld f) = TracesFile.base f.
Proof.
  unfold Pile.file_after_chop. destruct (decide _); [reflexivity|].
  destruct (_ && _); reflexivity.
Qed.

Lemma relevance_after_insert tmin tmax gs (p : Pile.t) (file file' : positive) f' :
  file' ≠ file →
  Pile.file_is_relevant tmin tmax gs
    (Pile.set_store (<[file := f']> (Pile.store p)) p) file'
  = Pile.file_is_relevant tmin tmax gs p file'.
Proof.
  intros Hne. unfold Pile.file_is_relevant. simpl. rewrite lookup_insert_ne by congruence.
  reflexivity.
Qed.














(** ** The chopper keeps the books of the files it opens *)

Local Abbreviation use_one :=
  (λ f : TracesFile.t, TracesFile.set_data_use_count (TracesFile.data_use_count f + 1) f).
Local Abbreviation drop_one := (λ f : TracesFile.t, (TracesFile.drop_data f).2).





















(** ** How many windows a chopper yields *)











(** X18.  A pile without span has no default bounds: the first call of a
    chopper that is not given [tmin] on a pile without [tmin], or not given
    [tmax] on a pile without [tmax], raises [TypeError], and so does
    [all]; the pile is unchanged. *)
Theorem chopper_needs_a_span X (a : Pile.args) (p : Pile.t) (w : world) (fuel : nat) :
  (Pile.tmin a = None ∧ TracesGroup.tmin (Pile.base p) = None)
  ∨ (Pile.tmax a = None ∧ TracesGroup.tmax (Pile.base p) = None) →
  Pile.chopper X a Pile.Fresh (p, w) = (Py.Raise Py.TypeError, (p, w))
  ∧ Pile.all X (S fuel) a (p, w) = (Py.Raise Py.TypeError, (p, w)).
Proof.
  intros Hnone.
  assert (Hc : Pile.chopper X a Pile.Fresh (p, w) = (Py.Raise Py.TypeError, (p, w))).
  { unfold Pile.chopper. erewrite bind_ok by reflexivity. cbn [fst snd].
    destruct Hnone as [[H1 H2]|[H1 H2]].
    - rewrite H1, H2. reflexivity.
    - rewrite H1, H2.
      destruct (Pile.default_bound (Pile.tmin a) (TracesGroup.tmin (Pile.base p))
                  (Pile.tpad a) (p, w)) as [r s] eqn:Hb.
      unfold Pile.default_bound in Hb.
      destruct (Pile.tmin a) as [x|]; [|destruct (TracesGroup.tmin (Pile.base p)) as [x|]];
        inversion Hb; subst.
      + erewrite bind_ok by reflexivity. reflexivity.
      + erewrite bind_ok by reflexivity. reflexivity.
      + reflexivity. }
  split; [exact Hc|].
  unfold Pile.all. cbn [Pile.drain]. erewrite bind_raise; [reflexivity|].
  erewrite bind_raise; [reflexivity|]. exact Hc.
Qed.

(** ** Queries: the newest time stamp and the keys of a pile *)

Lemma ltZ_refl (a : option Z) : Py.ltZ a a = false.
Proof. destruct a as [x|]; [|reflexivity]. cbn. apply bool_decide_eq_false_2. lia. Qed.

Lemma ltZ_none (a : option Z) : Py.ltZ a None = false.
Proof. destruct a; reflexivity. Qed.

Lemma ltZ_trans (a b c : option Z) :
  Py.ltZ b a = false → Py.ltZ c b = false → Py.ltZ c a = false.
Proof.
  destruct a as [x|], b as [y|], c as [z|]; cbn; try done.
  rewrite !bool_decide_eq_false. lia.
Qed.

Lemma maxZ_spec (a b : option Z) :
  Py.ltZ (Py.maxZ a b) a = false ∧ Py.ltZ (Py.maxZ a b) b = false
  ∧ (Py.maxZ a b = a ∨ Py.maxZ a b = b).
Proof.
  unfold Py.maxZ.
  destruct a as [x|], b as [y|]; cbn; repeat case_bool_decide; cbn;
    repeat case_bool_decide; repeat split; auto; lia.
Qed.

(** The loops of [get_newest_mtime]: the maximum of the values counted. *)
Lemma foldl_maxZ {A} (c : A → bool) (g : A → option Z) (l : list A) (init : option Z) :
  Py.ltZ (foldl (λ m x, if c x then Py.maxZ m (g x) else m) init l) init = false
  ∧ (∀ x, x ∈ l → c x = true →
       Py.ltZ (foldl (λ m x, if c x then Py.maxZ m (g x) else m) init l) (g x) = false)
  ∧ (foldl (λ m x, if c x then Py.maxZ m (g x) else m) init l = init
     ∨ ∃ x, x ∈ l ∧ c x = true
          ∧ foldl (λ m x, if c x then Py.maxZ m (g x) else m) init l = g x).
Proof.
  revert init. induction l as [|y l IH]; intros init; cbn [foldl].
  { split; [apply ltZ_refl|]. split; [|auto]. intros x Hx. inversion Hx. }
  destruct (IH (if c y then Py.maxZ init (g y) else init)) as (H1 & H2 & H3).
  destruct (maxZ_spec init (g y)) as (M1 & M2 & M3).
  split; [|split].
  - destruct (c y); [|exact H1]. eapply ltZ_trans; [exact M1|exact H1].
  - intros x [->|Hx]%elem_of_cons Hc.
    + rewrite Hc in H1 |- *. eapply ltZ_trans; [exact M2|exact H1].
    + apply H2; assumption.
  - destruct H3 as [H3|(x & Hx & Hc & H3)].
    + destruct (c y) eqn:Hc; [|auto]. destruct M3 as [M3|M3].
      * left. rewrite H3. exact M3.
      * right. exists y. split; [apply elem_of_cons; auto|]. split; [exact Hc|].
        rewrite H3. exact M3.
    + right. exists x. split; [apply elem_of_cons; auto|]. auto.
Qed.

Lemma file_get_newest_mtime_spec (ts : Pile.selector Trace.t) (f : TracesFile.t) :
  ((∃ tr, tr ∈ TracesFile.traces f ∧ Pile.accepts ts tr = true) →
   Pile.file_get_newest_mtime ts f = TracesFile.mtime f)
  ∧ (Pile.file_get_newest_mtime ts f = None
     ∨ (Pile.file_get_newest_mtime ts f = TracesFile.mtime f
        ∧ ∃ tr, tr ∈ TracesFile.traces f ∧ Pile.accepts ts tr = true)).
Proof.
  unfold Pile.file_get_newest_mtime.
  assert (G : ∀ l init,
    (init = None ∨ init = TracesFile.mtime f) →
    ((∃ tr, tr ∈ l ∧ Pile.accepts ts tr = true) →
     foldl (λ mtime tr, if Pile.accepts ts tr then Py.maxZ mtime (TracesFile.mtime f)
                        else mtime) init l = TracesFile.mtime f)
    ∧ (foldl (λ mtime tr, if Pile.accepts ts tr then Py.maxZ mtime (TracesFile.mtime f)
                          else mtime) init l = init
       ∨ (foldl (λ mtime tr, if Pile.accepts ts tr then Py.maxZ mtime (TracesFile.mtime f)
                             else mtime) init l = TracesFile.mtime f
          ∧ ∃ tr, tr ∈ l ∧ Pile.accepts ts tr = true))).
  { induction l as [|tr l IH]; intros init Hinit; cbn [foldl].
    - split; [|auto]. intros (tr & Htr & _). inversion Htr.
    - destruct (Pile.accepts ts tr) eqn:Hacc.
      + assert (Hm : Py.maxZ init (TracesFile.mtime f) = TracesFile.mtime f).
        { destruct Hinit as [->| ->].
          - unfold Py.maxZ. destruct (TracesFile.mtime f); reflexivity.
          - unfold Py.maxZ. rewrite ltZ_refl. reflexivity. }
        rewrite Hm. destruct (IH (TracesFile.mtime f)) as [_ B]; [auto|].
        assert (E : foldl (λ mtime tr, if Pile.accepts ts tr
                                       then Py.maxZ mtime (TracesFile.mtime f)
                                       else mtime) (TracesFile.mtime f) l
                    = TracesFile.mtime f) by (destruct B as [B|[B _]]; exact B).
        split; [intros _; exact E|]. right. split; [exact E|].
        exists tr. split; [apply elem_of_cons; auto|exact Hacc].
      + destruct (IH init Hinit) as [A B]. split.
        * intros (tr' & [->|Htr']%elem_of_cons & Ha); [congruence|]. apply A. eauto.
        * destruct B as [B|(B & tr' & Htr' & Ha)]; [auto|]. right. split; [exact B|].
          exists tr'. split; [apply elem_of_cons; auto|exact Ha]. }
  apply (G (TracesFile.traces f) None). auto.
Qed.

(** X19.  [get_newest_mtime] returns the greatest [mtime] among the relevant
    files, of relevant sub-piles, that have a trace the selector accepts:
    it is not below the [mtime] of any of them ([None] being least), and
    when it is a number it is the [mtime] of one of them.  The time
    ranges of the traces themselves are not looked at. *)
Theorem get_newest_mtime_is_the_maximum (tmin tmax : Q)
    (gs : Pile.selector TracesGroup.t) (ts : Pile.selector Trace.t) (p : Pile.t) :
  (∀ sp f tr,
     sp ∈ (Pile.subpiles p).*2 →
     TracesGroup.is_relevant tmin tmax gs (SubPile.base sp) = true →
     f ∈ Pile.file_objects p sp →
     TracesGroup.is_relevant tmin tmax gs (TracesFile.base f) = true →
     tr ∈ TracesFile.traces f → Pile.accepts ts tr = true →
     Py.ltZ (Pile.get_newest_mtime tmin tmax gs ts p) (TracesFile.mtime f) = false)
  ∧ (∀ m, Pile.get_newest_mtime tmin tmax gs ts p = Some m →
       ∃ sp f tr,
         sp ∈ (Pile.subpiles p).*2
         ∧ TracesGroup.is_relevant tmin tmax gs (SubPile.base sp) = true
         ∧ f ∈ Pile.file_objects p sp
         ∧ TracesGroup.is_relevant tmin tmax gs (TracesFile.base f) = true
         ∧ tr ∈ TracesFile.traces f ∧ Pile.accepts ts tr = true
         ∧ TracesFile.mtime f = Some m).
Proof.
  unfold Pile.get_newest_mtime.
  destruct (foldl_maxZ
              (λ sp, TracesGroup.is_relevant tmin tmax gs (SubPile.base sp))
              (λ sp, Pile.subpile_get_newest_mtime tmin tmax gs ts (Pile.file_objects p sp))
              (Pile.subpiles p).*2 None) as (_ & Hub & Hatt).
  split.
  - intros sp f tr Hsp Hrsp Hf Hrf Htr Hacc.
    eapply ltZ_trans; [|exact (Hub sp Hsp Hrsp)].
    unfold Pile.subpile_get_newest_mtime.
    destruct (foldl_maxZ
                (λ f, TracesGroup.is_relevant tmin tmax gs (TracesFile.base f))
                (Pile.file_get_newest_mtime ts) (Pile.file_objects p sp) None)
      as (_ & Hub' & _).
    specialize (Hub' f Hf Hrf).
    destruct (file_get_newest_mtime_spec ts f) as [Hyes _].
    rewrite Hyes in Hub' by eauto. exact Hub'.
  - intros m Hm. rewrite Hm in Hatt.
    destruct Hatt as [?|(sp & Hsp & Hrsp & Hatt)]; [discriminate|].
    symmetry in Hatt. unfold Pile.subpile_get_newest_mtime in Hatt.
    destruct (foldl_maxZ
                (λ f, TracesGroup.is_relevant tmin tmax gs (TracesFile.base f))
                (Pile.file_get_newest_mtime ts) (Pile.file_objects p sp) None)
      as (_ & _ & Hatt').
    rewrite Hatt in Hatt'.
    destruct Hatt' as [?|(f & Hf & Hrf & Hatt')]; [discriminate|].
    destruct (file_get_newest_mtime_spec ts f) as [_ [Hn|(He & tr & Htr & Hacc)]].
    + congruence.
    + exists sp, f, tr. repeat (split; [assumption|]). congruence.
Qed.

Section gather_keys.
Context {K : Type} `{Countable K}.

Lemma foldl_union_elem {A} (g : A → gset K) (l : list A) (init : gset K) (k : K) :
  k ∈ foldl (λ keys x, keys ∪ g x) init l ↔ k ∈ init ∨ ∃ x, x ∈ l ∧ k ∈ g x.
Proof.
  revert init. induction l as [|y l IH]; intros init; cbn [foldl].
  - split; [auto|]. intros [?|(x & Hx & _)]; [assumption|inversion Hx].
  - rewrite IH, elem_of_union. split.
    + intros [[?|?]|(x & Hx & Hk)]; [auto| |].
      * right. exists y. split; [apply elem_of_cons; auto|assumption].
      * right. exists x. split; [apply elem_of_cons; auto|assumption].
    + intros [?|(x & [->|Hx]%elem_of_cons & Hk)]; [auto|auto|]. right. eauto.
Qed.

Lemma file_gather_keys_elem (gather : Trace.t → K) (sel : Pile.selector Trace.t)
    (f : TracesFile.t) (k : K) :
  k ∈ Pile.file_gather_keys gather sel f
  ↔ ∃ tr, tr ∈ TracesFile.traces f ∧ Pile.accepts sel tr = true ∧ gather tr = k.
Proof.
  unfold Pile.file_gather_keys.
  assert (G : ∀ l (init : gset K),
    k ∈ foldl (λ keys tr, if Pile.accepts sel tr then keys ∪ {[ gather tr ]} else keys) init l
    ↔ k ∈ init ∨ ∃ tr, tr ∈ l ∧ Pile.accepts sel tr = true ∧ gather tr = k).
  { induction l as [|y l IH]; intros init; cbn [foldl].
    - split; [auto|]. intros [?|(x & Hx & _)]; [assumption|inversion Hx].
    - rewrite IH. split.
      + intros [Hin|(tr & Htr & Ha & Hk)].
        * destruct (Pile.accepts sel y) eqn:Hy; [|auto].
          apply elem_of_union in Hin as [?|Hs]; [auto|]. apply elem_of_singleton in Hs.
          right. exists y. split; [apply elem_of_cons; auto|]. auto.
        * right. exists tr. split; [apply elem_of_cons; auto|]. auto.
      + intros [Hin|(tr & [->|Htr]%elem_of_cons & Ha & Hk)].
        * left. destruct (Pile.accepts sel y); [apply elem_of_union; auto|assumption].
        * left. rewrite Ha. apply elem_of_union. right. apply elem_of_singleton. auto.
        * right. eauto. }
  rewrite G. split; [intros [Hin|?]; [|assumption]|auto].
  apply elem_of_empty in Hin as [].
Qed.

(** X20.  [gather_keys] returns exactly the keys [gather(tr)] of the traces
    [tr], of the files of the pile, that the selector accepts, each key
    once; the list is sorted if the order on the keys is total. *)
Theorem gather_keys_are_the_sorted_keys (le : K → K → bool) (gather : Trace.t → K)
    (sel : Pile.selector Trace.t) (p : Pile.t) :
  (∀ k, k ∈ Pile.gather_keys le gather sel p
        ↔ ∃ sp f tr, sp ∈ (Pile.subpiles p).*2 ∧ f ∈ Pile.file_objects p sp
                     ∧ tr ∈ TracesFile.traces f ∧ Pile.accepts sel tr = true
                     ∧ gather tr = k)
  ∧ NoDup (Pile.gather_keys le gather sel p)
  ∧ ((∀ a b, le a b = true ∨ le b a = true) →
     Sorted (λ a b, Is_true (le a b)) (Pile.gather_keys le gather sel p)).
Proof.
  unfold Pile.gather_keys. split; [|split].
  - intros k. rewrite merge_sort_Permutation, elem_of_elements, foldl_union_elem.
    unfold Pile.subpile_gather_keys. split.
    + intros [Hin|(sp & Hsp & Hk)]; [apply elem_of_empty in Hin as []|].
      apply foldl_union_elem in Hk as [Hin|(f & Hf & Hk)]; [apply elem_of_empty in Hin as []|].
      apply file_gather_keys_elem in Hk as (tr & Htr & Ha & Hk).
      exists sp, f, tr. auto.
    + intros (sp & f & tr & Hsp & Hf & Htr & Ha & Hk). right. exists sp. split; [exact Hsp|].
      apply foldl_union_elem. right. exists f. split; [exact Hf|].
      apply file_gather_keys_elem. eauto.
  - rewrite merge_sort_Permutation. apply NoDup_elements.
  - intros Htotal. apply Sorted_merge_sort.
    intros a b. destruct (Htotal a b) as [E|E]; rewrite E; [left|right]; exact I.
Qed.

End gather_keys.

(** ** Reloading a pile *)

Lemma lookup_subpile_some (k : Z * Z) (p : Pile.t) :
  k ∈ (Pile.subpiles p).*1 →
  ∃ sp, Pile.lookup_subpile k p = Some sp ∧ (k, sp) ∈ Pile.subpiles p.
Proof.
  intros Hk. unfold Pile.lookup_subpile.
  apply list_elem_of_fmap in Hk as ([k' sp0] & -> & Hin).
  destruct (list_find (λ e : Z * Z * SubPile.t, e.1 = (k', sp0).1) (Pile.subpiles p))
    as [[i [k1 sp1]]|] eqn:E.
  - apply list_find_Some in E as (Hi & Hk1 & _). cbn in Hk1. subst k1.
    exists sp1. split; [reflexivity|]. apply list_elem_of_lookup. eauto.
  - apply list_find_None in E. rewrite Forall_forall in E.
    exfalso. apply (E _ Hin). reflexivity.
Qed.

Lemma reload_files_unchanged (X : externals) (p : Pile.t) (w : world) (files : list positive) :
  (∀ file, file ∈ files →
     ∃ f m, Pile.store p !! file = Some f
       ∧ OS.stat_mtime (TracesFile.abspath f) (fs w) = (Py.Ok m, fs w)
       ∧ TracesFile.mtime f = Some m) →
  ∀ modified,
    Pile.subpile_reload_files X files modified (p, w) = (Py.Ok modified, (p, w)).
Proof.
  induction files as [|file files IH]; intros Hall modified; [reflexivity|].
  cbn [Pile.subpile_reload_files].
  destruct (Hall file) as (f & m & Hf & Hst & Hm); [apply elem_of_cons; auto|].
  erewrite bind_ok.
  2:{ erewrite on_file_run; [|exact Hf|apply (reload_unchanged X f w m Hst Hm)].
      rewrite insert_id by exact Hf. rewrite set_store_same. reflexivity. }
  rewrite orb_false_r. apply IH. intros file' Hin. apply Hall, elem_of_cons. auto.
Qed.

Lemma reload_subpiles_unchanged (X : externals) (p : Pile.t) (w : world)
    (keys : list (Z * Z)) :
  (∀ k sp file, (k, sp) ∈ Pile.subpiles p → file ∈ SubPile.files sp →
     ∃ f m, Pile.store p !! file = Some f
       ∧ OS.stat_mtime (TracesFile.abspath f) (fs w) = (Py.Ok m, fs w)
       ∧ TracesFile.mtime f = Some m) →
  (∀ k, k ∈ keys → k ∈ (Pile.subpiles p).*1) →
  ∀ modified,
    Pile.reload_subpiles X keys modified (p, w) = (Py.Ok modified, (p, w)).
Proof.
  intros Hall. induction keys as [|k keys IH]; intros Hkeys modified; [reflexivity|].
  cbn [Pile.reload_subpiles].
  destruct (lookup_subpile_some k p) as (sp & Hsp & Hin); [apply Hkeys, elem_of_cons; auto|].
  erewrite bind_ok.
  2:{ unfold Pile.subpile_reload_modified. erewrite bind_ok by reflexivity. cbn [fst snd].
      rewrite Hsp. erewrite bind_ok.
      2:{ apply reload_files_unchanged. intros file Hfile. exact (Hall k sp file Hin Hfile). }
      cbn beta iota. erewrite bind_ok by reflexivity. reflexivity. }
  rewrite orb_false_r. apply IH. intros k' Hk'. apply Hkeys, elem_of_cons. auto.
Qed.

(** X21.  [reload_modified] on a pile all of whose files have the [mtime]
    that [stat] gives returns [False] and changes nothing: neither the
    pile, nor the log, nor the disk. *)
Theorem reload_modified_on_unchanged_disk (X : externals) (p : Pile.t) (w : world) :
  (∀ k sp file, (k, sp) ∈ Pile.subpiles p → file ∈ SubPile.files sp →
     ∃ f m, Pile.store p !! file = Some f
       ∧ OS.stat_mtime (TracesFile.abspath f) (fs w) = (Py.Ok m, fs w)
       ∧ TracesFile.mtime f = Some m) →
  Pile.reload_modified X (p, w) = (Py.Ok false, (p, w)).
Proof.
  intros Hall. unfold Pile.reload_modified.
  erewrite bind_ok by reflexivity. cbn [fst snd].
  erewrite bind_ok by (apply reload_subpiles_unchanged; [exact Hall|auto]).
  cbn beta iota. erewrite bind_ok by reflexivity. reflexivity.
Qed.

(** ** Adding and removing files *)

(** The dict [subpiles]: its keys are distinct, so an entry is found by
    its key. *)
Lemma NoDup_fst_inj {A B} (l : list (A * B)) (k : A) (a b : B) :
  NoDup l.*1 → (k, a) ∈ l → (k, b) ∈ l → a = b.
Proof.
  intros Hnd [i Hi]%list_elem_of_lookup [j Hj]%list_elem_of_lookup.
  assert (i = j).
  { eapply (NoDup_lookup _ i j k Hnd); rewrite list_lookup_fmap.
    - rewrite Hi. reflexivity.
    - rewrite Hj. reflexivity. }
  subst j. congruence.
Qed.

Lemma lookup_subpile_elem (k : Z * Z) (sp : SubPile.t) (p : Pile.t) :
  NoDup (Pile.subpiles p).*1 →
  Pile.lookup_subpile k p = Some sp ↔ (k, sp) ∈ Pile.subpiles p.
Proof.
  intros Hnd. unfold Pile.lookup_subpile.
  destruct (list_find (λ e : Z * Z * SubPile.t, e.1 = k) (Pile.subpiles p))
    as [[i [k1 sp1]]|] eqn:E; cbn.
  - apply list_find_Some in E as (Hi & Hk1 & _). cbn in Hk1. subst k1.
    assert (Hin : (k, sp1) ∈ Pile.subpiles p) by (apply list_elem_of_lookup; eauto).
    split; [intros [= <-]; exact Hin|].
    intros Hin'. f_equal. exact (NoDup_fst_inj _ k sp1 sp Hnd Hin Hin').
  - apply list_find_None in E. rewrite Forall_forall in E.
    split; [discriminate|]. intros Hin. exfalso. apply (E _ Hin). reflexivity.
Qed.

Lemma lookup_subpile_none (k : Z * Z) (p : Pile.t) :
  Pile.lookup_subpile k p = None ↔ k ∉ (Pile.subpiles p).*1.
Proof.
  unfold Pile.lookup_subpile.
  destruct (list_find (λ e : Z * Z * SubPile.t, e.1 = k) (Pile.subpiles p))
    as [[i [k1 sp1]]|] eqn:E; cbn.
  - apply list_find_Some in E as (Hi & Hk1 & _). cbn in Hk1. subst k1.
    split; [discriminate|]. intros Hno. exfalso. apply Hno.
    apply list_elem_of_fmap. exists (k, sp1). split; [reflexivity|].
    apply list_elem_of_lookup. eauto.
  - apply list_find_None in E. rewrite Forall_forall in E.
    split; [|reflexivity]. intros _ Hin.
    apply list_elem_of_fmap in Hin as ([k1 sp1] & -> & Hin). apply (E _ Hin). reflexivity.
Qed.

(** A method call on the sub-pile of key [k] replaces the value of the
    dict at [k]. *)
Lemma on_subpile_run {A} (k : Z * Z) (m : Py.M SubPile.t A) (p : Pile.t)
    (sp : SubPile.t) (r : Py.outcome A) (sp' : SubPile.t) :
  NoDup (Pile.subpiles p).*1 → (k, sp) ∈ Pile.subpiles p → m sp = (r, sp') →
  ∃ sps', Pile.on_subpile k m p = (r, Pile.set_subpiles sps' p)
    ∧ sps'.*1 = (Pile.subpiles p).*1
    ∧ ∀ k' x, (k', x) ∈ sps' ↔ (if decide (k' = k) then x = sp' else (k', x) ∈ Pile.subpiles p).
Proof.
  intros Hnd Hin Hm. unfold Pile.on_subpile.
  destruct (list_find (λ e : Z * Z * SubPile.t, e.1 = k) (Pile.subpiles p))
    as [[i [k1 sp1]]|] eqn:E.
  2:{ apply list_find_None in E. rewrite Forall_forall in E.
      exfalso. apply (E _ Hin). reflexivity. }
  apply list_find_Some in E as (Hi & Hk1 & _). cbn in Hk1. subst k1.
  assert (sp1 = sp).
  { eapply (NoDup_fst_inj _ k); [exact Hnd| |exact Hin]. apply list_elem_of_lookup. eauto. }
  subst sp1. rewrite Hm.
  pose proof (lookup_lt_Some _ _ _ Hi) as Hlen.
  exists (<[i := (k, sp')]> (Pile.subpiles p)). split; [reflexivity|]. split.
  { rewrite list_fmap_insert. apply list_insert_id. rewrite list_lookup_fmap, Hi. reflexivity. }
  intros k' x. rewrite list_elem_of_lookup. split.
  - intros [j Hj]. destruct (decide (j = i)) as [->|Hne].
    + rewrite list_lookup_insert_eq in Hj by exact Hlen. inversion Hj; subst.
      rewrite decide_True by reflexivity. reflexivity.
    + rewrite list_lookup_insert_ne in Hj by congruence.
      destruct (decide (k' = k)) as [->|Hk].
      * exfalso. apply Hne.
        eapply (NoDup_lookup _ j i k Hnd); rewrite list_lookup_fmap.
        -- rewrite Hj. reflexivity.
        -- rewrite Hi. reflexivity.
      * apply list_elem_of_lookup. eauto.
  - destruct (decide (k' = k)) as [->|Hk].
    + intros ->. exists i. apply list_lookup_insert_eq. exact Hlen.
    + intros [j Hj]%list_elem_of_lookup. exists j.
      rewrite list_lookup_insert_ne; [exact Hj|]. intros ->. rewrite Hi in Hj. congruence.
Qed.

Lemma on_stored_run {A} (file : positive) (m : Py.M TracesFile.t A) (p : Pile.t)
    (f : TracesFile.t) (r : Py.outcome A) (f' : TracesFile.t) :
  Pile.store p !! file = Some f → m f = (r, f') →
  Pile.on_stored file m p = (r, Pile.set_store (<[file := f']> (Pile.store p)) p).
Proof. intros Hf Hm. unfold Pile.on_stored. rewrite Hf, Hm. reflexivity. Qed.

Lemma stored_run (file : positive) (p : Pile.t) (f : TracesFile.t) :
  Pile.store p !! file = Some f → Pile.stored file p = (Py.Ok f, p).
Proof. intros Hf. unfold Pile.stored. py_unfold. rewrite Hf. reflexivity. Qed.

(** The file with its parent set. *)
Local Abbreviation adopted k f :=
  (TracesFile.set_base (TracesGroup.set_parent (Some (Pile.subpile_ref k)) (TracesFile.base f)).2 f).

Lemma update_grow_ok (content : list TracesGroup.child) (g : TracesGroup.t) :
  TracesGroup.sets_unless_flagged g →
  ∃ g', TracesGroup.update content false g = (Py.Ok tt, g')
    ∧ TracesGroup.sets_unless_flagged g'
    ∧ TracesGroup.tmin g' = TracesGroup.span_lo (TracesGroup.tmin g) content
    ∧ TracesGroup.tmax g' = TracesGroup.span_hi (TracesGroup.tmax g) content
    ∧ TracesGroup.parent g' = TracesGroup.parent g.
Proof.
  intros Hinv. eexists. split; [apply update_grow; exact Hinv|].
  split; [|done]. intros _. cbn. done.
Qed.

Lemma subpile_add_file_run (k : Z * Z) (file : positive) (p : Pile.t) (sp : SubPile.t)
    (f : TracesFile.t) :
  NoDup (Pile.subpiles p).*1 → (k, sp) ∈ Pile.subpiles p →
  Pile.store p !! file = Some f →
  TracesGroup.sets_unless_flagged (SubPile.base sp) →
  ∃ sps' g',
    Pile.subpile_add_file k file p
    = (Py.Ok tt, Pile.set_store (<[file := adopted k f]> (Pile.store p))
                   (Pile.set_subpiles sps' p))
    ∧ TracesGroup.update [TracesGroup.Group (TracesFile.base (adopted k f))] false
        (SubPile.base sp) = (Py.Ok tt, g')
    ∧ sps'.*1 = (Pile.subpiles p).*1
    ∧ ∀ k' x, (k', x) ∈ sps'
              ↔ (if decide (k' = k) then x = SubPile.mk g' (SubPile.files sp ++ [file])
                 else (k', x) ∈ Pile.subpiles p).
Proof.
  intros Hnd Hin Hf Hinv.
  destruct (update_grow_ok [TracesGroup.Group (TracesFile.base (adopted k f))]
              (SubPile.base sp) Hinv) as (g' & Hup & _).
  destruct (on_subpile_run k
              (Py.modify (λ sp, SubPile.mk (SubPile.base sp) (SubPile.files sp ++ [file])))
              p sp (Py.Ok tt) (SubPile.mk (SubPile.base sp) (SubPile.files sp ++ [file]))
              Hnd Hin eq_refl) as (sps1 & Hrun1 & Hkeys1 & Hmem1).
  set (p1 := Pile.set_subpiles sps1 p) in *.
  assert (Hf1 : Pile.store p1 !! file = Some f) by exact Hf.
  set (p2 := Pile.set_store (<[file := adopted k f]> (Pile.store p1)) p1).
  assert (Hrun2 : Pile.on_stored file
                    (TracesFile.super (TracesGroup.set_parent (Some (Pile.subpile_ref k)))) p1
                  = (Py.Ok tt, p2)).
  { apply (on_stored_run file _ p1 f); [exact Hf1|]. reflexivity. }
  assert (Hf2 : Pile.store p2 !! file = Some (adopted k f)) by apply lookup_insert_eq.
  assert (Hnd2 : NoDup (Pile.subpiles p2).*1) by (cbn; rewrite Hkeys1; exact Hnd).
  assert (Hin2 : (k, SubPile.mk (SubPile.base sp) (SubPile.files sp ++ [file]))
                 ∈ Pile.subpiles p2).
  { cbn. apply Hmem1. rewrite decide_True by reflexivity. reflexivity. }
  destruct (on_subpile_run k
              (Py.zoom SubPile.base (λ g sp, SubPile.mk g (SubPile.files sp))
                 (TracesGroup.update [TracesGroup.Group (TracesFile.base (adopted k f))] false))
              p2 _ (Py.Ok tt) (SubPile.mk g' (SubPile.files sp ++ [file])) Hnd2 Hin2)
    as (sps2 & Hrun3 & Hkeys2 & Hmem2).
  { unfold Py.zoom. cbn [SubPile.base SubPile.files]. rewrite Hup. reflexivity. }
  exists sps2, g'. split; [|split; [exact Hup|split]].
  - unfold Pile.subpile_add_file.
    erewrite bind_ok by exact Hrun1. erewrite bind_ok by exact Hrun2.
    erewrite bind_ok by (apply stored_run; exact Hf2).
    unfold Pile.subpile_super. rewrite Hrun3. reflexivity.
  - rewrite Hkeys2. cbn. exact Hkeys1.
  - intros k' x. rewrite Hmem2. destruct (decide (k' = k)) as [->|Hne]; [reflexivity|].
    cbn. rewrite Hmem1. rewrite decide_False by exact Hne. reflexivity.
Qed.

Lemma set_subpiles_same (p : Pile.t) : Pile.set_subpiles (Pile.subpiles p) p = p.
Proof. destruct p; reflexivity. Qed.

Section add_file.
Context (gmtime : Z → Z * Z).
Context (arrange : list ((Z * Z) * SubPile.t) → (Z * Z) * SubPile.t →
                   list ((Z * Z) * SubPile.t)).
(** The dict with a new key has the entries it had and the new one. *)
Hypothesis arrange_adds : ∀ sps e, e.1 ∉ sps.*1 → arrange sps e ≡ₚ e :: sps.

Lemma dispatch_run (f : TracesFile.t) (t : Q) (p : Pile.t) :
  TracesGroup.tmin (TracesFile.base f) = Some t →
  NoDup (Pile.subpiles p).*1 →
  ∃ sps1,
    Pile.dispatch gmtime arrange f p
    = (Py.Ok (gmtime (Pile.int_of_float t)), Pile.set_subpiles sps1 p)
    ∧ NoDup sps1.*1
    ∧ (gmtime (Pile.int_of_float t),
       default (SubPile.mk (TracesGroup.init (Some Pile.pile_ref)) [])
         (Pile.lookup_subpile (gmtime (Pile.int_of_float t)) p)) ∈ sps1
    ∧ (∀ k' x, k' ≠ gmtime (Pile.int_of_float t) →
         (k', x) ∈ sps1 ↔ (k', x) ∈ Pile.subpiles p)
    ∧ sps1.*1 ≡ₚ (if decide (gmtime (Pile.int_of_float t) ∈ (Pile.subpiles p).*1)
                  then [] else [gmtime (Pile.int_of_float t)]) ++ (Pile.subpiles p).*1.
Proof.
  intros Ht Hnd. set (k := gmtime (Pile.int_of_float t)).
  unfold Pile.dispatch, Pile.dispatch_key. rewrite Ht. fold k.
  erewrite bind_ok by reflexivity. erewrite bind_ok by reflexivity.
  destruct (decide (k ∈ (Pile.subpiles p).*1)) as [Hk|Hk].
  - exists (Pile.subpiles p). erewrite bind_ok by reflexivity.
    rewrite set_subpiles_same. split; [reflexivity|]. split; [exact Hnd|].
    destruct (lookup_subpile_some k p Hk) as (sp & Hsp & Hin). rewrite Hsp. cbn.
    split; [exact Hin|]. split; [reflexivity|]. reflexivity.
  - set (new := SubPile.mk (TracesGroup.init (Some Pile.pile_ref)) []).
    pose proof (arrange_adds (Pile.subpiles p) (k, new) Hk) as Hperm.
    exists (arrange (Pile.subpiles p) (k, new)). erewrite bind_ok by reflexivity.
    split; [reflexivity|].
    assert (Hkeys : (arrange (Pile.subpiles p) (k, new)).*1 ≡ₚ k :: (Pile.subpiles p).*1).
    { rewrite Hperm. reflexivity. }
    split; [rewrite Hkeys; apply NoDup_cons; done|].
    split.
    { apply lookup_subpile_none in Hk. rewrite Hk. cbn. rewrite Hperm.
      apply elem_of_cons. auto. }
    split; [|exact Hkeys].
    intros k' x Hne. rewrite Hperm, elem_of_cons. split; [|auto].
    intros [[= ? ?]|?]; [congruence|assumption].
Qed.

Lemma span_lo_single (acc : option Q) (g : TracesGroup.t) (t : Q) :
  TracesGroup.tmin g = Some t →
  ∃ lo, TracesGroup.span_lo acc [TracesGroup.Group g] = Some lo ∧ (lo <= t)%Q.
Proof.
  intros Ht. unfold TracesGroup.span_lo. cbn. rewrite Ht.
  destruct acc as [x|]; [|exists t; split; [reflexivity|lra]].
  unfold Py.min, Py.lt. destruct (Qle_bool x t) eqn:E; cbn.
  - apply Qle_bool_iff in E. eauto.
  - exists t. split; [reflexivity|lra].
Qed.

Lemma span_hi_single (acc : option Q) (g : TracesGroup.t) (t : Q) :
  TracesGroup.tmax g = Some t →
  ∃ hi, TracesGroup.span_hi acc [TracesGroup.Group g] = Some hi ∧ (t <= hi)%Q.
Proof.
  intros Ht. unfold TracesGroup.span_hi. cbn. rewrite Ht.
  destruct acc as [x|]; [|exists t; split; [reflexivity|lra]].
  unfold Py.max, Py.lt. destruct (Qle_bool t x) eqn:E; cbn.
  - apply Qle_bool_iff in E. eauto.
  - exists t. split; [reflexivity|lra].
Qed.

Lemma grown_overlaps (g g' child : TracesGroup.t) (lo hi qmin qmax : Q) :
  TracesGroup.tmin g' = TracesGroup.span_lo (TracesGroup.tmin g) [TracesGroup.Group child] →
  TracesGroup.tmax g' = TracesGroup.span_hi (TracesGroup.tmax g) [TracesGroup.Group child] →
  TracesGroup.tmin child = Some lo → TracesGroup.tmax child = Some hi →
  (lo <= qmax)%Q → (qmin <= hi)%Q →
  TracesGroup.overlaps qmin qmax g' = true.
Proof.
  intros Hlo Hhi Hclo Hchi H1 H2.
  destruct (span_lo_single (TracesGroup.tmin g) child lo Hclo) as (lo' & El & Hl).
  destruct (span_hi_single (TracesGroup.tmax g) child hi Hchi) as (hi' & Eh & Hh).
  apply overlaps_spec. rewrite Hlo, Hhi, El, Eh. split.
  - intros ? [= <-]. lra.
  - exists hi'. split; [reflexivity|lra].
Qed.

Lemma add_file_run (file : positive) (f : TracesFile.t) (p : Pile.t) :
  Pile.store p !! file = Some f →
  NoDup (Pile.subpiles p).*1 →
  TracesGroup.sets_unless_flagged (Pile.base p) →
  (∀ k sp, (k, sp) ∈ Pile.subpiles p → TracesGroup.sets_unless_flagged (SubPile.base sp)) →
  match TracesGroup.tmin (TracesFile.base f) with
  | None => Pile.add_file gmtime arrange file p = (Py.Raise Py.TypeError, p)
  | Some t =>
      let k := gmtime (Pile.int_of_float t) in
      ∃ p' sp',
        Pile.add_file gmtime arrange file p = (Py.Ok tt, p')
        ∧ Pile.lookup_subpile k p' = Some sp'
        ∧ SubPile.files sp'
          = default [] (SubPile.files <$> Pile.lookup_subpile k p) ++ [file]
        ∧ (∀ k', k' ≠ k → Pile.lookup_subpile k' p' = Pile.lookup_subpile k' p)
        ∧ Pile.store p'
          = <[file := TracesFile.set_base
                        (TracesGroup.set_parent (Some (Pile.subpile_ref k))
                           (TracesFile.base f)).2 f]> (Pile.store p)
        ∧ Pile.open_files p' = Pile.open_files p
        ∧ NoDup (Pile.subpiles p').*1
        ∧ TracesGroup.sets_unless_flagged (Pile.base p')
        ∧ (∀ k' sp, (k', sp) ∈ Pile.subpiles p' →
             TracesGroup.sets_unless_flagged (SubPile.base sp))
        ∧ (Pile.well_formed p → Pile.well_formed p')
        ∧ (∀ hi qmin qmax,
             TracesGroup.tmax (TracesFile.base f) = Some hi →
             (t <= qmax)%Q → (qmin <= hi)%Q →
             TracesGroup.overlaps qmin qmax (Pile.base p') = true
             ∧ TracesGroup.overlaps qmin qmax (SubPile.base sp') = true)
  end.
Proof.
  intros Hf Hnd Hinv Hinvs.
  destruct (TracesGroup.tmin (TracesFile.base f)) as [t|] eqn:Ht.
  2:{ unfold Pile.add_file. erewrite bind_ok by (apply stored_run; exact Hf).
      unfold Pile.dispatch, Pile.dispatch_key. rewrite Ht. reflexivity. }
  cbn zeta. set (k := gmtime (Pile.int_of_float t)).
  destruct (dispatch_run f t p Ht Hnd) as (sps1 & Hdisp & Hnd1 & Hin1 & Hmem1 & Hkeys1).
  fold k in Hdisp, Hin1, Hmem1, Hkeys1.
  set (old := default (SubPile.mk (TracesGroup.init (Some Pile.pile_ref)) [])
                (Pile.lookup_subpile k p)) in *.
  set (p1 := Pile.set_subpiles sps1 p) in *.
  assert (Hold : TracesGroup.sets_unless_flagged (SubPile.base old)).
  { unfold old. destruct (Pile.lookup_subpile k p) as [sp|] eqn:E; cbn.
    - apply (Hinvs k sp). apply lookup_subpile_elem; assumption.
    - intros _. cbn. done. }
  destruct (subpile_add_file_run k file p1 old f Hnd1 Hin1 Hf Hold)
    as (sps2 & g' & Hsub & Hup & Hkeys2 & Hmem2).
  set (f1 := adopted k f) in *.
  set (p2 := Pile.set_store (<[file := f1]> (Pile.store p1)) (Pile.set_subpiles sps2 p1)) in *.
  assert (Hf2 : Pile.store p2 !! file = Some f1) by apply lookup_insert_eq.
  destruct (update_grow_ok [TracesGroup.Group (TracesFile.base f1)] (Pile.base p) Hinv)
    as (g'' & Hup' & Hinv'' & Hlo'' & Hhi'' & _).
  set (sp' := SubPile.mk g' (SubPile.files old ++ [file])).
  exists (Pile.set_base g'' p2), sp'.
  assert (Hnd2 : NoDup (Pile.subpiles (Pile.set_base g'' p2)).*1).
  { cbn. rewrite Hkeys2. exact Hnd1. }
  assert (Hmem : ∀ k' x, (k', x) ∈ Pile.subpiles (Pile.set_base g'' p2)
                         ↔ (if decide (k' = k) then x = sp' else (k', x) ∈ Pile.subpiles p)).
  { intros k' x. cbn. rewrite Hmem2. destruct (decide (k' = k)) as [->|Hne]; [reflexivity|].
    cbn. apply Hmem1. exact Hne. }
  split; [|split; [|split; [|split; [|split; [|split; [|split; [|split; [|split; [|split]]]]]]]]].
  - unfold Pile.add_file. erewrite bind_ok by (apply stored_run; exact Hf).
    erewrite bind_ok by exact Hdisp. erewrite bind_ok by exact Hsub.
    erewrite bind_ok by (apply stored_run; exact Hf2).
    unfold Pile.super, Py.zoom. change (Pile.base p2) with (Pile.base p). rewrite Hup'.
    reflexivity.
  - apply lookup_subpile_elem; [exact Hnd2|]. apply Hmem. rewrite decide_True by reflexivity.
    reflexivity.
  - unfold sp', old. cbn. destruct (Pile.lookup_subpile k p); reflexivity.
  - intros k' Hne. apply option_eq. intros x.
    rewrite (lookup_subpile_elem k' x _ Hnd2), (lookup_subpile_elem k' x p Hnd), Hmem.
    rewrite decide_False by exact Hne. reflexivity.
  - reflexivity.
  - reflexivity.
  - exact Hnd2.
  - exact Hinv''.
  - intros k' sp Hin. apply Hmem in Hin. destruct (decide (k' = k)) as [->|Hne].
    + subst sp. cbn.
      destruct (update_grow_ok [TracesGroup.Group (TracesFile.base f1)] (SubPile.base old) Hold)
        as (g0 & Hup0 & Hinv0 & _).
      rewrite Hup in Hup0. inversion Hup0; subst g0. exact Hinv0.
    + eapply Hinvs. exact Hin.
  - intros [Hwf1 Hwf2].
    assert (Hdom : dom (<[file := f1]> (Pile.store p)) = dom (Pile.store p)).
    { rewrite dom_insert_L. apply elem_of_dom_2 in Hf. apply set_eq. intros x.
      rewrite elem_of_union, elem_of_singleton. split; [intros [->|?]; assumption|auto]. }
    split.
    + intros k' sp file' Hin Hfile. apply Hmem in Hin. cbn. rewrite Hdom.
      destruct (decide (k' = k)) as [->|Hne].
      * subst sp. cbn in Hfile. apply elem_of_app in Hfile as [Hfile|Hfile].
        -- unfold old in Hfile. destruct (Pile.lookup_subpile k p) as [sp|] eqn:E; cbn in Hfile.
           ++ apply (Hwf1 k sp); [|exact Hfile]. apply lookup_subpile_elem; assumption.
           ++ inversion Hfile.
        -- apply list_elem_of_singleton in Hfile. subst file'. eapply elem_of_dom_2. exact Hf.
      * eapply Hwf1; eassumption.
    + intros acc open Hopen. cbn. rewrite Hdom. eapply Hwf2. exact Hopen.
  - intros hi qmin qmax Hhi H1 H2. split.
    + eapply (grown_overlaps (Pile.base p) g'' (TracesFile.base f1) t hi);
        [exact Hlo''|exact Hhi''|exact Ht|exact Hhi|exact H1|exact H2].
    + destruct (update_grow_ok [TracesGroup.Group (TracesFile.base f1)] (SubPile.base old) Hold)
        as (g0 & Hup0 & _ & Hlo0 & Hhi0 & _).
      rewrite Hup in Hup0. inversion Hup0; subst g0.
      eapply (grown_overlaps (SubPile.base old) g' (TracesFile.base f1) t hi);
        [exact Hlo0|exact Hhi0|exact Ht|exact Hhi|exact H1|exact H2].
Qed.


End add_file.

Lemma list_remove_absent (x : positive) (l : list positive) :
  Pile.list_remove x l = None ↔ x ∉ l.
Proof.
  induction l as [|y l IH]; cbn.
  - split; [intros _ H; inversion H|reflexivity].
  - destruct (decide (x = y)) as [->|Hne].
    + split; [discriminate|]. intros H. exfalso. apply H, elem_of_cons. auto.
    + rewrite fmap_None, IH, not_elem_of_cons. tauto.
Qed.


Lemma list_remove_elem (x : positive) (l l' : list positive) :
  Pile.list_remove x l = Some l' → l ≡ₚ x :: l'.
Proof.
  revert l'. induction l as [|y l IH]; intros l'; cbn; [discriminate|].
  destruct (decide (x = y)) as [->|Hne].
  - intros [= <-]. reflexivity.
  - destruct (Pile.list_remove x l) as [l0|]; cbn; [|discriminate].
    intros [= <-]. rewrite (IH l0 eq_refl). apply Permutation_swap.
Qed.

(** The file with no parent. *)
Local Abbreviation orphaned f :=
  (TracesFile.set_base (TracesGroup.set_parent None (TracesFile.base f)).2 f).

Lemma subpile_remove_file_run (k : Z * Z) (file : positive) (p : Pile.t) (sp : SubPile.t)
    (f : TracesFile.t) :
  NoDup (Pile.subpiles p).*1 → (k, sp) ∈ Pile.subpiles p →
  Pile.store p !! file = Some f →
  match Pile.list_remove file (SubPile.files sp) with
  | None =>
      Pile.subpile_remove_file k file p
      = (Py.Raise (Py.Exception "list.remove(x): x not in list"), p)
  | Some l =>
      ∃ sps' g',
        Pile.subpile_remove_file k file p
        = (Py.Ok tt, Pile.set_store (<[file := orphaned f]> (Pile.store p))
                       (Pile.set_subpiles sps' p))
        ∧ TracesGroup.update
            (Pile.files_as_content
               (Pile.set_store (<[file := orphaned f]> (Pile.store p)) p)
               (SubPile.mk (SubPile.base sp) l)) true (SubPile.base sp)
          = (Py.Ok tt, g')
        ∧ sps'.*1 = (Pile.subpiles p).*1
        ∧ ∀ k' x, (k', x) ∈ sps'
                  ↔ (if decide (k' = k) then x = SubPile.mk g' l
                     else (k', x) ∈ Pile.subpiles p)
  end.
Proof.
  intros Hnd Hin Hf.
  destruct (Pile.list_remove file (SubPile.files sp)) as [l|] eqn:El.
  - destruct (on_subpile_run k
                (sp ← Py.get;
                 match Pile.list_remove file (SubPile.files sp) with
                 | Some l => Py.put (SubPile.mk (SubPile.base sp) l)
                 | None => Py.raise (Py.Exception "list.remove(x): x not in list")
                 end)
                p sp (Py.Ok tt) (SubPile.mk (SubPile.base sp) l) Hnd Hin)
      as (sps1 & Hrun1 & Hkeys1 & Hmem1).
    { py_unfold. rewrite El. reflexivity. }
    set (p1 := Pile.set_subpiles sps1 p) in *.
    set (p2 := Pile.set_store (<[file := orphaned f]> (Pile.store p1)) p1).
    assert (Hrun2 : Pile.on_stored file (TracesFile.super (TracesGroup.set_parent None)) p1
                    = (Py.Ok tt, p2)).
    { apply (on_stored_run file _ p1 f); [exact Hf|]. reflexivity. }
    assert (Hnd2 : NoDup (Pile.subpiles p2).*1) by (cbn; rewrite Hkeys1; exact Hnd).
    assert (Hin2 : (k, SubPile.mk (SubPile.base sp) l) ∈ Pile.subpiles p2).
    { cbn. apply Hmem1. rewrite decide_True by reflexivity. reflexivity. }
    assert (Hlook : Pile.lookup_subpile k p2 = Some (SubPile.mk (SubPile.base sp) l))
      by (apply lookup_subpile_elem; assumption).
    destruct (update_rebuild
                (Pile.files_as_content p2 (SubPile.mk (SubPile.base sp) l)) (SubPile.base sp))
      as (g' & Hup & _).
    destruct (on_subpile_run k
                (Py.zoom SubPile.base (λ g sp, SubPile.mk g (SubPile.files sp))
                   (TracesGroup.update
                      (Pile.files_as_content p2 (SubPile.mk (SubPile.base sp) l)) true))
                p2 _ (Py.Ok tt) (SubPile.mk g' l) Hnd2 Hin2)
      as (sps2 & Hrun3 & Hkeys2 & Hmem2).
    { unfold Py.zoom. cbn [SubPile.base SubPile.files]. rewrite Hup. reflexivity. }
    exists sps2, g'. split; [|split; [exact Hup|split]].
    + unfold Pile.subpile_remove_file.
      erewrite bind_ok by exact Hrun1. erewrite bind_ok by exact Hrun2.
      erewrite bind_ok by reflexivity. rewrite Hlook.
      unfold Pile.subpile_super. rewrite Hrun3. reflexivity.
    + rewrite Hkeys2. cbn. exact Hkeys1.
    + intros k' x. rewrite Hmem2. destruct (decide (k' = k)) as [->|Hne]; [reflexivity|].
      cbn. rewrite Hmem1. rewrite decide_False by exact Hne. reflexivity.
  - unfold Pile.subpile_remove_file. erewrite bind_raise; [reflexivity|].
    unfold Pile.on_subpile.
    destruct (list_find (λ e : Z * Z * SubPile.t, e.1 = k) (Pile.subpiles p))
      as [[i [k1 sp1]]|] eqn:E.
    2:{ apply list_find_None in E. rewrite Forall_forall in E.
        exfalso. apply (E _ Hin). reflexivity. }
    apply list_find_Some in E as (Hi & Hk1 & _). cbn in Hk1. subst k1.
    assert (sp1 = sp).
    { eapply (NoDup_fst_inj _ k); [exact Hnd| |exact Hin]. apply list_elem_of_lookup. eauto. }
    subst sp1. py_unfold. rewrite El.
    rewrite list_insert_id by exact Hi. rewrite set_subpiles_same. reflexivity.
Qed.

Lemma remove_file_run (file : positive) (f : TracesFile.t) (k : Z * Z) (sp : SubPile.t)
    (p : Pile.t) :
  Pile.store p !! file = Some f →
  TracesGroup.get_parent (TracesFile.base f) = Some (Pile.subpile_ref k) →
  NoDup (Pile.subpiles p).*1 → (k, sp) ∈ Pile.subpiles p →
  match Pile.list_remove file (SubPile.files sp) with
  | None =>
      Pile.remove_file file p
      = (Py.Raise (Py.Exception "list.remove(x): x not in list"), p)
  | Some l =>
      ∃ p' g',
        Pile.remove_file file p = (Py.Ok tt, p')
        ∧ Pile.lookup_subpile k p' = Some (SubPile.mk g' l)
        ∧ (∀ k', k' ≠ k → Pile.lookup_subpile k' p' = Pile.lookup_subpile k' p)
        ∧ Pile.store p' = <[file := orphaned f]> (Pile.store p)
        ∧ Pile.open_files p' = Pile.open_files p
        ∧ (Pile.subpiles p').*1 = (Pile.subpiles p).*1
        ∧ TracesGroup.update (Pile.subpiles_as_content (Pile.subpiles p')) true (Pile.base p)
          = (Py.Ok tt, Pile.base p')
  end.
Proof.
  intros Hf Hpar Hnd Hin.
  pose proof (subpile_remove_file_run k file p sp f Hnd Hin Hf) as Hsub.
  unfold Pile.remove_file. erewrite bind_ok by (apply stored_run; exact Hf).
  rewrite Hpar. unfold Pile.subpile_ref. rewrite decode_encode.
  destruct (Pile.list_remove file (SubPile.files sp)) as [l|] eqn:El.
  2:{ erewrite bind_raise by exact Hsub. reflexivity. }
  destruct Hsub as (sps' & g' & Hrun & Hup & Hkeys & Hmem).
  set (p2 := Pile.set_store (<[file := orphaned f]> (Pile.store p)) (Pile.set_subpiles sps' p))
    in *.
  destruct (update_rebuild (Pile.subpiles_as_content (Pile.subpiles p2)) (Pile.base p))
    as (g'' & Hup' & _).
  assert (Hnd2 : NoDup (Pile.subpiles (Pile.set_base g'' p2)).*1).
  { cbn. rewrite Hkeys. exact Hnd. }
  exists (Pile.set_base g'' p2), g'.
  split; [|split; [|split; [|split; [|split; [|split]]]]].
  - erewrite bind_ok by exact Hrun. erewrite bind_ok by reflexivity.
    unfold Pile.super, Py.zoom. change (Pile.base p2) with (Pile.base p). rewrite Hup'.
    reflexivity.
  - apply lookup_subpile_elem; [exact Hnd2|]. cbn. apply Hmem.
    rewrite decide_True by reflexivity. reflexivity.
  - intros k' Hne. apply option_eq. intros x.
    rewrite (lookup_subpile_elem k' x _ Hnd2), (lookup_subpile_elem k' x p Hnd). cbn.
    rewrite Hmem. rewrite decide_False by exact Hne. reflexivity.
  - reflexivity.
  - reflexivity.
  - cbn. exact Hkeys.
  - exact Hup'.
Qed.

(** X23.  [remove_file] of a file without parent raises [AttributeError]; of
    a file that its parent sub-pile does not list, the [ValueError] of
    [list.remove]; in both cases the pile is unchanged.  Otherwise it
    returns: the first occurrence of the file has left the sub-pile's
    list, the file has no parent, the sub-pile stays in the pile even if
    its list is empty now, the other sub-piles, the other file objects
    and the open sets are unchanged, and the pile's aggregate is rebuilt
    from all the sub-piles. *)
Theorem remove_file_unfiles_the_file (file : positive) (f : TracesFile.t) (p : Pile.t) :
  Pile.store p !! file = Some f →
  NoDup (Pile.subpiles p).*1 →
  match TracesGroup.get_parent (TracesFile.base f) with
  | None => Pile.remove_file file p = (Py.Raise Py.AttributeError, p)
  | Some r =>
      ∀ k sp, r = Pile.subpile_ref k → Pile.lookup_subpile k p = Some sp →
        match Pile.list_remove file (SubPile.files sp) with
        | None =>
            Pile.remove_file file p
            = (Py.Raise (Py.Exception "list.remove(x): x not in list"), p)
        | Some l =>
            SubPile.files sp ≡ₚ file :: l
            ∧ ∃ p' g',
                Pile.remove_file file p = (Py.Ok tt, p')
                ∧ Pile.lookup_subpile k p' = Some (SubPile.mk g' l)
                ∧ (∀ k', k' ≠ k → Pile.lookup_subpile k' p' = Pile.lookup_subpile k' p)
                ∧ Pile.store p'
                  = <[file := TracesFile.set_base
                                (TracesGroup.set_parent None (TracesFile.base f)).2 f]>
                      (Pile.store p)
                ∧ Pile.open_files p' = Pile.open_files p
                ∧ (Pile.subpiles p').*1 = (Pile.subpiles p).*1
                ∧ TracesGroup.update (Pile.subpiles_as_content (Pile.subpiles p')) true
                    (Pile.base p) = (Py.Ok tt, Pile.base p')
        end
  end.
Proof.
  intros Hf Hnd.
  destruct (TracesGroup.get_parent (TracesFile.base f)) as [r|] eqn:Hpar.
  2:{ unfold Pile.remove_file. erewrite bind_ok by (apply stored_run; exact Hf).
      rewrite Hpar. reflexivity. }
  intros k sp -> Hsp. apply lookup_subpile_elem in Hsp; [|exact Hnd].
  pose proof (remove_file_run file f k sp p Hf Hpar Hnd Hsp) as H.
  destruct (Pile.list_remove file (SubPile.files sp)) as [l|] eqn:El; [|exact H].
  split; [apply list_remove_elem; exact El|exact H].
Qed.



(** ** Adding many files *)



(** A sub-pile that has a span and covers [[lo, hi]]. *)
Local Abbreviation covers g lo hi :=
  (∃ lo' hi', TracesGroup.tmin g = Some lo' ∧ TracesGroup.tmax g = Some hi'
              ∧ (lo' <= lo)%Q ∧ (hi <= hi')%Q).


Section add_files.
Context (gmtime : Z → Z * Z).
Context (arrange : list ((Z * Z) * SubPile.t) → (Z * Z) * SubPile.t →
                   list ((Z * Z) * SubPile.t)).
Hypothesis arrange_adds : ∀ sps e, e.1 ∉ sps.*1 → arrange sps e ≡ₚ e :: sps.



Lemma adopted_tmax (k : Z * Z) (f : TracesFile.t) :
  TracesGroup.tmax (TracesFile.base (Pile.adopted k f)) = TracesGroup.tmax (TracesFile.base f).
Proof. reflexivity. Qed.









End add_files.

(** ** The further properties, on the sample world *)

Lemma sample_group_flagged (lo hi : Q) : TracesGroup.sets_unless_flagged (Sample.group lo hi).
Proof. intros H. discriminate H. Qed.

Lemma update_keeps_lookup_sets_witness :
  TracesGroup.sets_unless_flagged (Sample.group 0 19)
  ∧ ∃ g', TracesGroup.update [TracesGroup.Group (Sample.group 5 10)] false (Sample.group 0 19)
          = (Py.Ok tt, g')
      ∧ TracesGroup.sets_unless_flagged g'
      ∧ TracesGroup.have_tuples g' = false.
Proof.
  split; [apply sample_group_flagged|].
  destruct (update_keeps_lookup_sets [TracesGroup.Group (Sample.group 5 10)] false
              (Sample.group 0 19) (sample_group_flagged 0 19))
    as (g' & H1 & H2 & _ & _ & _ & _ & _ & _ & _ & H3 & _).
  exists g'. split; [exact H1|]. split; [exact H2|]. apply H3. reflexivity.
Defined.

Lemma rebuilt_group_covers_children_witness :
  ∃ g',
    (Forall (λ c, is_Some (TracesGroup.child_tmin c) ∧ is_Some (TracesGroup.child_tmax c))
       [TracesGroup.Group (Sample.group 5 10); TracesGroup.Group (Sample.group 0 3)]
     ∧ TracesGroup.update
         [TracesGroup.Group (Sample.group 5 10); TracesGroup.Group (Sample.group 0 3)] true
         (TracesGroup.init None) = (Py.Ok tt, g')
     ∧ TracesGroup.Group (Sample.group 5 10)
       ∈ [TracesGroup.Group (Sample.group 5 10); TracesGroup.Group (Sample.group 0 3)]
     ∧ TracesGroup.child_tmin (TracesGroup.Group (Sample.group 5 10)) = Some 5%Q
     ∧ TracesGroup.child_tmax (TracesGroup.Group (Sample.group 5 10)) = Some 10%Q
     ∧ (5 <= 8)%Q ∧ (7 <= 10)%Q)
    ∧ TracesGroup.overlaps 7 8 g' = true.
Proof.
  destruct (update_rebuild
              [TracesGroup.Group (Sample.group 5 10); TracesGroup.Group (Sample.group 0 3)]
              (TracesGroup.init None)) as (g' & Hup & _).
  exists g'.
  assert (H1 : Forall (λ c, is_Some (TracesGroup.child_tmin c)
                            ∧ is_Some (TracesGroup.child_tmax c))
                 [TracesGroup.Group (Sample.group 5 10); TracesGroup.Group (Sample.group 0 3)]).
  { repeat constructor; eexists; reflexivity. }
  assert (H3 : TracesGroup.Group (Sample.group 5 10)
               ∈ [TracesGroup.Group (Sample.group 5 10); TracesGroup.Group (Sample.group 0 3)])
    by apply list_elem_of_here.
  assert (H6 : (5 <= 8)%Q) by (vm_compute; discriminate).
  assert (H7 : (7 <= 10)%Q) by (vm_compute; discriminate).
  split; [repeat split; assumption|].
  exact (rebuilt_group_covers_children _ _ g' _ 5%Q 10%Q 7%Q 8%Q H1 Hup H3 eq_refl eq_refl H6 H7).
Defined.

Lemma cache_put_then_get_witness :
  ∃ r c' d',
    TracesFileCache.put Sample.X "/data/a" (Sample.file "/data/a" false 0)
      (Sample.fresh_cache, Sample.disk) = (r, (c', d'))
    ∧ d' = Sample.disk
    ∧ match r with
      | Py.Ok _ =>
          ∀ d2, TracesFileCache.get Sample.X "/data/a" (c', d2)
                = (Py.Ok (Some (Sample.file "/data/a" false 0)), (c', d2))
      | Py.Raise e => c' = Sample.fresh_cache
      end.
Proof.
  destruct (TracesFileCache.put Sample.X "/data/a" (Sample.file "/data/a" false 0)
              (Sample.fresh_cache, Sample.disk)) as [r [c' d']] eqn:E.
  exists r, c', d'. split; [reflexivity|].
  destruct (cache_put_then_get Sample.X "/data/a" (Sample.file "/data/a" false 0)
              Sample.fresh_cache Sample.disk r c' d' E) as [Hd H].
  split; [exact Hd|]. destruct r; [apply H|apply H].
Defined.

Lemma cache_get_reads_only_witness :
  ∃ r c' d',
    TracesFileCache.get Sample.X "/data/S1" (Sample.cached, Sample.disk) = (r, (c', d'))
    ∧ d' = Sample.disk
    ∧ TracesFileCache.modified c' = TracesFileCache.modified Sample.cached.
Proof.
  destruct (TracesFileCache.get Sample.X "/data/S1" (Sample.cached, Sample.disk))
    as [r [c' d']] eqn:E.
  exists r, c', d'. split; [reflexivity|].
  destruct (cache_get_reads_only Sample.X "/data/S1" Sample.cached Sample.disk r c' d' E)
    as (Hd & Hm & _).
  split; assumption.
Defined.

Lemma sample_dirty_cache_ready :
  ∀ cp, cp ∈ TracesFileCache.modified Sample.dirty_cache →
    is_Some (TracesFileCache.dircaches Sample.dirty_cache !! cp)
    ∧ OS.isdir cp Sample.disk = false
    ∧ OS.isdir (cp +:+ "." +:+ format_int Sample.X (os_getpid Sample.X) +:+ ".tmp")
        Sample.disk = false.
Proof.
  intros cp Hcp. unfold Sample.dirty_cache in Hcp. cbn [TracesFileCache.modified] in Hcp.
  apply elem_of_singleton in Hcp. subst cp.
  split; [|split; vm_compute; reflexivity].
  eexists. unfold Sample.dirty_cache. cbn [TracesFileCache.dircaches].
  apply lookup_insert_eq.
Qed.

Lemma dump_modified_writes_shards_witness :
  (∀ cp, cp ∈ TracesFileCache.modified Sample.dirty_cache →
     is_Some (TracesFileCache.dircaches Sample.dirty_cache !! cp)
     ∧ OS.isdir cp Sample.disk = false
     ∧ OS.isdir (cp +:+ "." +:+ format_int Sample.X (os_getpid Sample.X) +:+ ".tmp")
         Sample.disk = false)
  ∧ ∃ d', TracesFileCache.dump_modified Sample.X (Sample.dirty_cache, Sample.disk)
          = (Py.Ok tt, (TracesFileCache.set_modified ∅ Sample.dirty_cache, d'))
      ∧ d' !! "/data/a" = Sample.disk !! "/data/a".
Proof.
  split; [exact sample_dirty_cache_ready|].
  destruct (dump_modified_writes_shards Sample.X Sample.dirty_cache Sample.disk
              sample_dirty_cache_ready) as (d' & Hrun & Hframe & _).
  exists d'. split; [exact Hrun|]. apply Hframe.
  intros cp Hcp. unfold Sample.dirty_cache in Hcp. cbn [TracesFileCache.modified] in Hcp.
  apply elem_of_singleton in Hcp. subst cp. split; vm_compute; discriminate.
Defined.

Lemma sample_put :
  ∃ c1, TracesFileCache.put Sample.X "/data/a" (Sample.file "/data/a" false 0)
          (Sample.fresh_cache, Sample.disk) = (Py.Ok tt, (c1, Sample.disk)).
Proof. eexists. vm_compute. reflexivity. Qed.

Lemma cache_survives_dump_witness :
  ∃ c1,
    ((∀ sh, pickle_loads Sample.X (pickle_dumps Sample.X sh) = Some sh)
     ∧ TracesFileCache.modified Sample.fresh_cache = ∅
     ∧ TracesFileCache.put Sample.X "/data/a" (Sample.file "/data/a" false 0)
         (Sample.fresh_cache, Sample.disk) = (Py.Ok tt, (c1, Sample.disk))
     ∧ OS.isdir (TracesFileCache._dircachepath Sample.X Sample.fresh_cache "/data/a")
         Sample.disk = false
     ∧ OS.isdir (TracesFileCache._dircachepath Sample.X Sample.fresh_cache "/data/a"
                   +:+ "." +:+ format_int Sample.X (os_getpid Sample.X) +:+ ".tmp")
         Sample.disk = false
     ∧ OS.isfile "/data/a" Sample.disk = true
     ∧ "/data/a" ≠ TracesFileCache._dircachepath Sample.X Sample.fresh_cache "/data/a"
     ∧ "/data/a" ≠ TracesFileCache._dircachepath Sample.X Sample.fresh_cache "/data/a"
                     +:+ "." +:+ format_int Sample.X (os_getpid Sample.X) +:+ ".tmp")
    ∧ ∃ d2, TracesFileCache.dump_modified Sample.X (c1, Sample.disk)
            = (Py.Ok tt, (TracesFileCache.set_modified ∅ c1, d2))
        ∧ ∃ again, TracesFileCache.get Sample.X "/data/a" (Sample.fresh_cache, d2)
                   = (Py.Ok (Some (TracesFileCache.without_parent
                                     (Sample.file "/data/a" false 0))), (again, d2)).
Proof.
  destruct sample_put as (c1 & Hput). exists c1.
  assert (H1 : ∀ sh, pickle_loads Sample.X (pickle_dumps Sample.X sh) = Some sh)
    by exact sample_pickle_round_trip.
  assert (H2 : TracesFileCache.modified Sample.fresh_cache = ∅) by reflexivity.
  assert (H4 : OS.isdir (TracesFileCache._dircachepath Sample.X Sample.fresh_cache "/data/a")
                 Sample.disk = false) by (vm_compute; reflexivity).
  assert (H5 : OS.isdir (TracesFileCache._dircachepath Sample.X Sample.fresh_cache "/data/a"
                           +:+ "." +:+ format_int Sample.X (os_getpid Sample.X) +:+ ".tmp")
                 Sample.disk = false) by (vm_compute; reflexivity).
  assert (H6 : OS.isfile "/data/a" Sample.disk = true) by (vm_compute; reflexivity).
  assert (H7 : "/data/a" ≠ TracesFileCache._dircachepath Sample.X Sample.fresh_cache "/data/a")
    by (vm_compute; discriminate).
  assert (H8 : "/data/a" ≠ TracesFileCache._dircachepath Sample.X Sample.fresh_cache "/data/a"
                             +:+ "." +:+ format_int Sample.X (os_getpid Sample.X) +:+ ".tmp")
    by (vm_compute; discriminate).
  split; [repeat split; assumption|].
  destruct (cache_survives_dump Sample.X "/data/a" (Sample.file "/data/a" false 0)
              Sample.fresh_cache c1 Sample.disk H1 H2 Hput H4 H5 H6 H7 H8)
    as (d2 & Hdump & _ & Hget).
  exists d2. split; [exact Hdump|]. apply Hget; reflexivity.
Defined.

Lemma tracesfile_init_from_headers_witness :
  io_load Sample.X (fs (mkWorld Sample.disk [])) "/data/a" "mseed" false None
  = ([Sample.trace 0 9 false], None)
  ∧ ∃ tfile w1,
      TracesFileIO.init Sample.X None "/data/a" "mseed" None (Some 17)
        (mkWorld Sample.disk []) = (Py.Ok tfile, w1)
      ∧ TracesFile.traces tfile = [Sample.trace 0 9 false]
      ∧ TracesFile.mtime tfile = Some 17
      ∧ TracesFile.data_use_count tfile = 0.
Proof.
  assert (H : io_load Sample.X (fs (mkWorld Sample.disk [])) "/data/a" "mseed" false None
              = ([Sample.trace 0 9 false], None)) by (vm_compute; reflexivity).
  split; [exact H|].
  pose proof (tracesfile_init_from_headers Sample.X None "/data/a" "mseed" None 17
                (mkWorld Sample.disk []) [Sample.trace 0 9 false] None H) as H'.
  cbv zeta in H'.
  destruct H' as (tfile & Hi & Ht & _ & _ & _ & Hm & _ & Hc & _).
  exists tfile. eexists. split; [exact Hi|]. split; [exact Ht|]. split; [exact Hm|exact Hc].
Defined.

Lemma reload_if_modified_syncs_witness :
  OS.stat_mtime (TracesFile.abspath (Sample.header_file "/data/a" 0 9))
    (fs (mkWorld Sample.disk [])) = (Py.Ok 17, fs (mkWorld Sample.disk []))
  ∧ TracesFileIO.reload_if_modified Sample.X
      (Sample.header_file "/data/a" 0 9, mkWorld Sample.disk [])
    = (Py.Ok false, (Sample.header_file "/data/a" 0 9, mkWorld Sample.disk [])).
Proof.
  assert (H : OS.stat_mtime (TracesFile.abspath (Sample.header_file "/data/a" 0 9))
                (fs (mkWorld Sample.disk [])) = (Py.Ok 17, fs (mkWorld Sample.disk [])))
    by (vm_compute; reflexivity).
  split; [exact H|].
  destruct (reload_if_modified_syncs Sample.X (Sample.header_file "/data/a" 0 9)
              (mkWorld Sample.disk []) 17 H) as [Hsame _].
  apply Hsame. reflexivity.
Defined.

Lemma sample_get_hit :
  ∃ c', TracesFileCache.get Sample.X (os_path_abspath Sample.X "/data/S1")
          (Sample.cached, fs (Loader.w Sample.start_cached))
        = (Py.Ok (Some (Sample.file "/data/S1" false 0)),
           (c', fs (Loader.w Sample.start_cached))).
Proof. eexists. vm_compute. reflexivity. Qed.

Lemma load_one_cache_hit_witness :
  ∃ c',
    (Loader.no_substitutions Sample.X None "/data/S1" None
     ∧ Loader.cache Sample.start_cached = Some Sample.cached
     ∧ OS.stat_mtime "/data/S1" (fs (Loader.w Sample.start_cached))
       = (Py.Ok 17, fs (Loader.w Sample.start_cached))
     ∧ TracesFileCache.get Sample.X (os_path_abspath Sample.X "/data/S1")
         (Sample.cached, fs (Loader.w Sample.start_cached))
       = (Py.Ok (Some (Sample.file "/data/S1" false 0)),
          (c', fs (Loader.w Sample.start_cached)))
     ∧ TracesFile.mtime (Sample.file "/data/S1" false 0) = Some 17)
    ∧ Loader.load_one Sample.X "mseed" None None "/data/S1" Sample.start_cached
      = (Py.Ok (Sample.file "/data/S1" false 0),
         Loader.mkState (Some c') (Loader.w Sample.start_cached)
           (Loader.yielded Sample.start_cached)).
Proof.
  destruct sample_get_hit as (c' & Hget). exists c'.
  assert (H1 : Loader.no_substitutions Sample.X None "/data/S1" None) by (left; done).
  assert (H3 : OS.stat_mtime "/data/S1" (fs (Loader.w Sample.start_cached))
               = (Py.Ok 17, fs (Loader.w Sample.start_cached))) by (vm_compute; reflexivity).
  split; [repeat split; assumption|].
  apply (load_one_cache_hit Sample.X "mseed" None None "/data/S1" None Sample.start_cached
           Sample.cached c' (Sample.file "/data/S1" false 0) 17 H1 eq_refl H3 Hget eq_refl).
Defined.

Lemma sample_get_miss :
  ∃ c1, TracesFileCache.get Sample.X (os_path_abspath Sample.X "/data/a")
          (Sample.fresh_cache, Sample.disk)
        = (Py.Ok None, (c1, Sample.disk)).
Proof. eexists. vm_compute. reflexivity. Qed.

Lemma load_one_cache_miss_witness :
  ∃ c1 r s',
    (Loader.no_substitutions Sample.X None "/data/a" None
     ∧ Loader.cache (Loader.mkState (Some Sample.fresh_cache) (mkWorld Sample.disk []) [])
       = Some Sample.fresh_cache
     ∧ OS.stat_mtime "/data/a" Sample.disk = (Py.Ok 17, Sample.disk)
     ∧ TracesFileCache.get Sample.X (os_path_abspath Sample.X "/data/a")
         (Sample.fresh_cache, Sample.disk) = (Py.Ok None, (c1, Sample.disk))
     ∧ (∀ cached, (None : option TracesFile.t) = Some cached →
                  TracesFile.mtime cached ≠ Some 17)
     ∧ Loader.load_one Sample.X "mseed" None None "/data/a"
         (Loader.mkState (Some Sample.fresh_cache) (mkWorld Sample.disk []) []) = (r, s'))
    ∧ TracesFileIO.init Sample.X None (os_path_abspath Sample.X "/data/a") "mseed" None
        (Some 17) (mkWorld Sample.disk []) = (r, Loader.w s')
    ∧ Loader.yielded s' = [].
Proof.
  destruct sample_get_miss as (c1 & Hget).
  destruct (Loader.load_one Sample.X "mseed" None None "/data/a"
              (Loader.mkState (Some Sample.fresh_cache) (mkWorld Sample.disk []) []))
    as [r s'] eqn:E.
  exists c1, r, s'.
  assert (H1 : Loader.no_substitutions Sample.X None "/data/a" None) by (left; done).
  assert (H3 : OS.stat_mtime "/data/a" Sample.disk = (Py.Ok 17, Sample.disk))
    by (vm_compute; reflexivity).
  assert (H5 : ∀ cached, (None : option TracesFile.t) = Some cached →
                         TracesFile.mtime cached ≠ Some 17) by discriminate.
  split; [repeat split; assumption|].
  destruct (load_one_cache_miss Sample.X "mseed" None None "/data/a" None
              (Loader.mkState (Some Sample.fresh_cache) (mkWorld Sample.disk []) [])
              Sample.fresh_cache c1 None 17 r s' H1 eq_refl H3 Hget H5 E) as (Hinit & Hy & _).
  split; [exact Hinit|exact Hy].
Defined.

Lemma sample_first_attempt :
  ∃ tfile c1 w1,
    Loader.load_one Sample.X "mseed" None None "/data/a"
      (Loader.mkState (Some Sample.fresh_cache) (mkWorld Sample.disk []) [])
    = (Py.Ok tfile, Loader.mkState (Some c1) w1 [])
    ∧ fs w1 = Sample.disk
    ∧ TracesFileCache.modified c1 = {[ Sample.shard_path ]}
    ∧ is_Some (TracesFileCache.dircaches c1 !! Sample.shard_path).
Proof.
  eexists _, _, _. split; [vm_compute; reflexivity|].
  split; [reflexivity|]. split; [vm_compute; reflexivity|].
  eexists. vm_compute. reflexivity.
Qed.

Lemma sample_first_scan :
  ∃ s1 tfile,
    Loader.loader Sample.X ["/data/a"] "mseed" None
      (Loader.mkState (Some Sample.fresh_cache) (mkWorld Sample.disk []) [])
    = (Py.Ok tt, s1)
    ∧ Loader.yielded s1 = [tfile].
Proof.
  destruct sample_first_attempt as (tfile & c1 & w1 & Hone & Hfs & Hmod & Hdc).
  destruct (dump_modified_ok Sample.X c1 Sample.disk) as (d' & Hrun & _).
  { intros cp Hcp. rewrite Hmod in Hcp. apply elem_of_singleton in Hcp. subst cp.
    split; [exact Hdc|]. split; vm_compute; reflexivity. }
  eexists _, tfile.
  rewrite (loader_single_ok _ _ _ _ _ _ Hone).
  unfold Loader.with_cache, Loader.after_yield.
  cbn [Loader.cache Loader.w Loader.yielded]. rewrite Hfs, Hrun.
  split; reflexivity.
Qed.

Lemma loader_second_scan_hits_witness :
  ∃ s1 tfile,
    ((∀ sh, pickle_loads Sample.X (pickle_dumps Sample.X sh) = Some sh)
     ∧ TracesFileCache.dircaches Sample.fresh_cache = ∅
     ∧ TracesFileCache.modified Sample.fresh_cache = ∅
     ∧ Loader.loader Sample.X ["/data/a"] "mseed" None
         (Loader.mkState (Some Sample.fresh_cache) (mkWorld Sample.disk []) [])
       = (Py.Ok tt, s1)
     ∧ Loader.yielded s1 = [tfile]
     ∧ OS.isdir Sample.shard_path Sample.disk = false
     ∧ OS.isdir (Sample.shard_path +:+ "." +:+ format_int Sample.X (os_getpid Sample.X)
                   +:+ ".tmp") Sample.disk = false
     ∧ OS.isfile "/data/a" Sample.disk = true
     ∧ "/data/a" ≠ Sample.shard_path
     ∧ "/data/a" ≠ Sample.shard_path +:+ "." +:+ format_int Sample.X (os_getpid Sample.X)
                     +:+ ".tmp")
    ∧ ∃ c2, Loader.loader Sample.X ["/data/a"] "mseed" None
              (Loader.mkState (Some Sample.fresh_cache) (mkWorld (fs (Loader.w s1)) []) [])
            = (Py.Ok tt, Loader.mkState (Some c2) (mkWorld (fs (Loader.w s1)) []) [tfile]).
Proof.
  destruct sample_first_scan as (s1 & tfile & Hrun & Hy). exists s1, tfile.
  assert (H1 : ∀ sh, pickle_loads Sample.X (pickle_dumps Sample.X sh) = Some sh)
    by exact sample_pickle_round_trip.
  assert (H6 : OS.isdir Sample.shard_path Sample.disk = false) by (vm_compute; reflexivity).
  assert (H7 : OS.isdir (Sample.shard_path +:+ "." +:+ format_int Sample.X (os_getpid Sample.X)
                           +:+ ".tmp") Sample.disk = false) by (vm_compute; reflexivity).
  assert (H8 : OS.isfile "/data/a" Sample.disk = true) by (vm_compute; reflexivity).
  assert (H9 : "/data/a" ≠ Sample.shard_path) by (vm_compute; discriminate).
  assert (H10 : "/data/a" ≠ Sample.shard_path +:+ "." +:+ format_int Sample.X (os_getpid Sample.X)
                              +:+ ".tmp") by (vm_compute; discriminate).
  split; [repeat split; assumption|].
  apply (loader_second_scan_hits Sample.X "/data/a" "mseed" Sample.fresh_cache
           (mkWorld Sample.disk []) s1 tfile H1 eq_refl eq_refl Hrun Hy H6 H7 H8 H9 H10 H9 H10
           Sample.fresh_cache [] eq_refl eq_refl eq_refl).
Defined.








Lemma chopper_needs_a_span_witness :
  ((Pile.tmin Sample.whole = None ∧ TracesGroup.tmin (Pile.base Sample.new_pile) = None)
   ∨ (Pile.tmax Sample.whole = None ∧ TracesGroup.tmax (Pile.base Sample.new_pile) = None))
  ∧ Pile.all Sample.X 1 Sample.whole (Sample.new_pile, mkWorld Sample.disk [])
    = (Py.Raise Py.TypeError, (Sample.new_pile, mkWorld Sample.disk [])).
Proof.
  assert (H : (Pile.tmin Sample.whole = None
               ∧ TracesGroup.tmin (Pile.base Sample.new_pile) = None)
              ∨ (Pile.tmax Sample.whole = None
                 ∧ TracesGroup.tmax (Pile.base Sample.new_pile) = None)).
  { left. split; [reflexivity|]. vm_compute. reflexivity. }
  split; [exact H|].
  apply (chopper_needs_a_span Sample.X Sample.whole Sample.new_pile (mkWorld Sample.disk [])
           0 H).
Defined.

Lemma sample_pile_in_step_with_disk :
  ∀ k sp file, (k, sp) ∈ Pile.subpiles Sample.pile → file ∈ SubPile.files sp →
    ∃ f m, Pile.store Sample.pile !! file = Some f
      ∧ OS.stat_mtime (TracesFile.abspath f) (fs (mkWorld Sample.disk []))
        = (Py.Ok m, fs (mkWorld Sample.disk []))
      ∧ TracesFile.mtime f = Some m.
Proof.
  intros k sp file Hsp Hfile. apply list_elem_of_singleton in Hsp. inversion Hsp; subst.
  cbn [SubPile.files] in Hfile.
  apply elem_of_cons in Hfile as [->|Hfile];
    [|apply list_elem_of_singleton in Hfile as ->];
    eexists _, _; (split; [vm_compute; reflexivity|]);
    (split; [vm_compute; reflexivity|reflexivity]).
Qed.

Lemma reload_modified_on_unchanged_disk_witness :
  (∀ k sp file, (k, sp) ∈ Pile.subpiles Sample.pile → file ∈ SubPile.files sp →
     ∃ f m, Pile.store Sample.pile !! file = Some f
       ∧ OS.stat_mtime (TracesFile.abspath f) (fs (mkWorld Sample.disk []))
         = (Py.Ok m, fs (mkWorld Sample.disk []))
       ∧ TracesFile.mtime f = Some m)
  ∧ Pile.reload_modified Sample.X (Sample.pile, mkWorld Sample.disk [])
    = (Py.Ok false, (Sample.pile, mkWorld Sample.disk [])).
Proof.
  split; [exact sample_pile_in_step_with_disk|].
  apply (reload_modified_on_unchanged_disk Sample.X Sample.pile (mkWorld Sample.disk [])
           sample_pile_in_step_with_disk).
Defined.

Lemma sample_arrange_adds (sps : list ((Z * Z) * SubPile.t)) (e : (Z * Z) * SubPile.t) :
  e.1 ∉ sps.*1 → Sample.arrange sps e ≡ₚ e :: sps.
Proof. intros _. unfold Sample.arrange. symmetry. apply Permutation_cons_append. Qed.

Lemma sample_new_pile_holds_file :
  Pile.store Sample.new_pile !! 1%positive = Some (Sample.header_file "/data/a" 0 9).
Proof. vm_compute. reflexivity. Qed.

Lemma sample_new_pile_flagged : TracesGroup.sets_unless_flagged (Pile.base Sample.new_pile).
Proof. intros H. vm_compute in H. discriminate H. Qed.

Lemma sample_new_pile_subpiles (k : Z * Z) (sp : SubPile.t) :
  (k, sp) ∈ Pile.subpiles Sample.new_pile → TracesGroup.sets_unless_flagged (SubPile.base sp).
Proof. intros H. inversion H. Qed.


Lemma sample_pile_of_one :
  ∃ f sp,
    Pile.store Sample.pile_of_one !! 1%positive = Some f
    ∧ NoDup (Pile.subpiles Sample.pile_of_one).*1
    ∧ TracesGroup.get_parent (TracesFile.base f) = Some (Pile.subpile_ref (1970, 1))
    ∧ Pile.lookup_subpile (1970, 1) Sample.pile_of_one = Some sp
    ∧ SubPile.files sp = [1%positive].
Proof.
  pose proof (add_file_run Sample.gmtime Sample.arrange sample_arrange_adds 1
                (Sample.header_file "/data/a" 0 9) Sample.new_pile
                sample_new_pile_holds_file (NoDup_nil_2 : NoDup (Pile.subpiles Sample.new_pile).*1) sample_new_pile_flagged
                sample_new_pile_subpiles) as H.
  change (TracesGroup.tmin (TracesFile.base (Sample.header_file "/data/a" 0 9)))
    with (Some 0%Q) in H.
  cbv zeta in H.
  change (Sample.gmtime (Pile.int_of_float 0)) with (1970, 1) in H.
  destruct H as (p' & sp' & Hrun & Hsp & Hfiles & _ & Hstore & _ & Hnd & _).
  assert (E : Sample.pile_of_one = p').
  { unfold Sample.pile_of_one. rewrite Hrun. reflexivity. }
  rewrite E. eexists _, sp'. split; [rewrite Hstore; apply lookup_insert_eq|].
  split; [exact Hnd|]. split; [reflexivity|]. split; [exact Hsp|exact Hfiles].
Qed.

Lemma remove_file_unfiles_the_file_witness :
  ∃ f,
    (Pile.store Sample.pile_of_one !! 1%positive = Some f
     ∧ NoDup (Pile.subpiles Sample.pile_of_one).*1)
    ∧ ∃ p' g',
        Pile.remove_file 1 Sample.pile_of_one = (Py.Ok tt, p')
        ∧ Pile.lookup_subpile (1970, 1) p' = Some (SubPile.mk g' [])
        ∧ Pile.open_files p' = Pile.open_files Sample.pile_of_one.
Proof.
  destruct sample_pile_of_one as (f & sp & Hf & Hnd & Hpar & Hsp & Hfiles).
  exists f. split; [split; assumption|].
  pose proof (remove_file_unfiles_the_file 1 f Sample.pile_of_one Hf Hnd) as H.
  rewrite Hpar in H. specialize (H (1970, 1) sp eq_refl Hsp).
  rewrite Hfiles in H. cbn [Pile.list_remove] in H.
  rewrite decide_True in H by reflexivity.
  destruct H as (_ & p' & g' & Hrun & Hlook & _ & _ & Hopen & _).
  exists p', g'. split; [exact Hrun|]. split; [exact Hlook|exact Hopen].
Defined.








